(** * timeapp-api: a shallow embedding of [main.py]

    The module is a FastAPI application with six endpoints in front of an
    optional PostgreSQL connection ([pg]), an optional Redis client ([r]) and
    an in-process counter ([memory_counters]).  The embedding keeps the
    module-level globals in a [State] record, threads it through a small
    state-and-exception monad, and lets everything outside the file (the
    servers, the random salt, the clocks, the process environment) be supplied
    by a [World] value per call. *)

From Stdlib Require Import ZArith Lia Ascii String List Bool.
From Stdlib Require Import Strings.Byte.
From stdpp Require Import base option gmap strings list fin_maps.

Import ListNotations.
Local Open Scope string_scope.
Local Open Scope Z_scope.

(* ===================================================================== *)
(** ** Text *)
(* ===================================================================== *)

(** A [string] is a sequence of code points below 256. *)

Module Text.

(** Python's [str.isspace] on the code points below 256:
    U+0009..U+000D, U+001C..U+001F, U+0020, U+0085 and U+00A0. *)
Definition isspace (c : ascii) : bool :=
  let n := Z.of_N (N_of_ascii c) in
  ((9 <=? n) && (n <=? 13)) || ((28 <=? n) && (n <=? 32))
  || (n =? 133) || (n =? 160).

(** [str.lstrip()] *)
Fixpoint lstrip (s : string) : string :=
  match s with
  | EmptyString => EmptyString
  | String c s' => if isspace c then lstrip s' else s
  end.

(** [str.rstrip()] *)
Fixpoint rstrip (s : string) : string :=
  match s with
  | EmptyString => EmptyString
  | String c s' =>
      match rstrip s' with
      | EmptyString => if isspace c then EmptyString else String c EmptyString
      | t => String c t
      end
  end.

(** [str.strip()] *)
Definition strip (s : string) : string := lstrip (rstrip s).

(** [needle in hay] *)
Fixpoint contains (needle hay : string) : bool :=
  String.prefix needle hay ||
  match hay with
  | EmptyString => false
  | String _ hay' => contains needle hay'
  end.

(** Lower-casing of the ASCII letters; every other code point is kept.
    This is what [str.lower()] does to ASCII text, and what decides a
    comparison of [str.lower()] with an ASCII word. *)
Definition lower_char (c : ascii) : ascii :=
  let n := N_of_ascii c in
  if ((65 <=? n) && (n <=? 90))%N then ascii_of_N (n + 32) else c.

Fixpoint lower (s : string) : string :=
  match s with
  | EmptyString => EmptyString
  | String c s' => String (lower_char c) (lower s')
  end.

(** Python truthiness of a [str]. *)
Definition nonempty (s : string) : bool :=
  match s with EmptyString => false | _ => true end.

(** Two characters that differ at most in ASCII letter case. *)
Definition same_letter (a b : ascii) : Prop :=
  a = b \/
  (exists k : N, (k < 26)%N /\
     ((a = ascii_of_N (65 + k) /\ b = ascii_of_N (97 + k)) \/
      (a = ascii_of_N (97 + k) /\ b = ascii_of_N (65 + k)))).

(** Case variants: the same text up to the case of its ASCII letters. *)
Inductive case_variant : string -> string -> Prop :=
| cv_nil : case_variant EmptyString EmptyString
| cv_cons a b s t :
    same_letter a b -> case_variant s t ->
    case_variant (String a s) (String b t).

(** All characters of a string are white space. *)
Fixpoint all_space (s : string) : bool :=
  match s with
  | EmptyString => true
  | String c s' => isspace c && all_space s'
  end.

Definition first_char (s : string) : option ascii :=
  match s with EmptyString => None | String c _ => Some c end.

Fixpoint last_char (s : string) : option ascii :=
  match s with
  | EmptyString => None
  | String c EmptyString => Some c
  | String _ s' => last_char s'
  end.

(** The ASCII capitals. *)
Definition is_capital (c : ascii) : bool :=
  let n := N_of_ascii c in ((65 <=? n) && (n <=? 90))%N.

Definition code_points : list ascii := map ascii_of_nat (seq 0 256).

Definition never_capital (f : ascii -> ascii) : bool :=
  forallb (fun c => negb (is_capital (f c))) code_points.

(** The character type of a database ([LC_CTYPE]): the lower-case mapping
    of its locale, code point by code point.  Which letters it folds, and
    to what, is the locale's choice (C folds the ASCII capitals only, a
    Turkish locale does not fold I to i); what every locale has is that
    nothing is mapped to an ASCII capital. *)
Record CType := {
  towlower : ascii -> ascii;
  towlower_small : never_capital towlower = true
}.

(** [LOWER()] of PostgreSQL in a database of character type [ct]. *)
Fixpoint sql_lower (ct : CType) (s : string) : string :=
  match s with
  | EmptyString => EmptyString
  | String c s' => String (towlower ct c) (sql_lower ct s')
  end.

(** A character type that folds ASCII the way ASCII does. *)
Definition folds_ascii (ct : CType) : Prop :=
  forall c, (N_of_ascii c < 128)%N -> towlower ct c = lower_char c.

End Text.

(* ===================================================================== *)
(** ** [str.encode()] and [bytes.decode()] *)
(* ===================================================================== *)

Module Utf8.

Definition byte_of (n : N) : byte :=
  match Byte.of_N n with Some b => b | None => x00 end.

(** UTF-8 of one code point below 256: one byte below U+0080, two bytes
    from there on. *)
Definition encode_char (c : ascii) : list byte :=
  let n := N_of_ascii c in
  if (n <? 128)%N then [byte_of n]
  else [byte_of (192 + n / 64); byte_of (128 + n mod 64)].

Fixpoint encode (s : string) : list byte :=
  match s with
  | EmptyString => []
  | String c s' => encode_char c ++ encode s'
  end.

(** [bytes.decode()]: [None] stands for [UnicodeDecodeError].  Sequences
    that would decode to a code point from U+0100 on are outside the text
    model and are refused as well. *)
Fixpoint decode (b : list byte) : option string :=
  match b with
  | [] => Some EmptyString
  | b0 :: rest =>
      let n0 := Byte.to_N b0 in
      if (n0 <? 128)%N then
        match decode rest with
        | Some s => Some (String (ascii_of_N n0) s)
        | None => None
        end
      else
        match rest with
        | b1 :: rest' =>
            let n1 := Byte.to_N b1 in
            if ((194 <=? n0) && (n0 <=? 195) && (128 <=? n1) && (n1 <=? 191))%N
            then match decode rest' with
                 | Some s => Some (String (ascii_of_N ((n0 - 192) * 64 + (n1 - 128))) s)
                 | None => None
                 end
            else None
        | [] => None
        end
  end.

End Utf8.

(* ===================================================================== *)
(** ** Calendar arithmetic and [datetime.isoformat()] *)
(* ===================================================================== *)

Module Time.

(** A reading of the system clock: seconds since 1970-01-01T00:00:00Z and
    the microsecond within that second. *)
Record Instant := { epoch : Z; micro : Z }.

(** An aware [datetime]: civil fields and the UTC offset in seconds. *)
Record DateTime := {
  year : Z; month : Z; day : Z;
  hour : Z; minute : Z; second : Z;
  microsecond : Z;
  utcoffset : Z
}.

(** Proleptic Gregorian date of a day number counted from 1970-01-01. *)
Definition civil_from_days (z : Z) : Z * Z * Z :=
  let z := z + 719468 in
  let era := z / 146097 in
  let doe := z - era * 146097 in
  let yoe := (doe - doe / 1460 + doe / 36524 - doe / 146096) / 365 in
  let y := yoe + era * 400 in
  let doy := doe - (365 * yoe + yoe / 4 - yoe / 100) in
  let mp := (5 * doy + 2) / 153 in
  let d := doy - (153 * mp + 2) / 5 + 1 in
  let m := if mp <? 10 then mp + 3 else mp - 9 in
  (if m <=? 2 then y + 1 else y, m, d).

(** Local seconds of 0001-01-01T00:00:00 and of 9999-12-31T23:59:59. *)
Definition MIN_LOCAL : Z := -62135596800.
Definition MAX_LOCAL : Z := 253402300799.

(** [datetime.now(tz)] for a zone whose offset at the instant is [off]
    seconds.  The reading is first made a UTC datetime and then moved to the
    zone; [None] is the [ValueError]/[OverflowError] of a reading whose UTC
    time is outside years 1 to 9999, of an offset of a day or more, or of a
    local time outside years 1 to 9999. *)
Definition localize (t : Instant) (off : Z) : option DateTime :=
  let l := epoch t + off in
  if (MIN_LOCAL <=? epoch t) && (epoch t <=? MAX_LOCAL)
     && (-86400 <? off) && (off <? 86400) && (MIN_LOCAL <=? l) && (l <=? MAX_LOCAL) then
    let '(y, m, d) := civil_from_days (l / 86400) in
    let sod := l mod 86400 in
    Some {| year := y; month := m; day := d;
            hour := sod / 3600; minute := sod mod 3600 / 60; second := sod mod 60;
            microsecond := micro t; utcoffset := off |}
  else None.

Definition digit (n : Z) : ascii := ascii_of_N (Z.to_N (48 + n mod 10)).

(** ["%0wd" % n] for [0 <= n < 10^w]: the last [w] decimal digits. *)
Fixpoint fixed (w : nat) (n : Z) : string :=
  match w with
  | O => EmptyString
  | S w' => (fixed w' (n / 10) ++ String (digit n) EmptyString)%string
  end.

(** The offset suffix: sign, hours and minutes, and the seconds when they
    are not zero. *)
Definition format_offset (off : Z) : string :=
  let a := Z.abs off in
  let sign := if off <? 0 then "-" else "+" in
  let hh := fixed 2 (a / 3600) in
  let mm := fixed 2 (a mod 3600 / 60) in
  let ss := if a mod 60 =? 0 then "" else (":" ++ fixed 2 (a mod 60))%string in
  (sign ++ hh ++ ":" ++ mm ++ ss)%string.

(** [datetime.isoformat()] *)
Definition isoformat (d : DateTime) : string :=
  let frac :=
    if microsecond d =? 0 then "" else ("." ++ fixed 6 (microsecond d))%string in
  (fixed 4 (year d) ++ "-" ++ fixed 2 (month d) ++ "-" ++ fixed 2 (day d) ++ "T"
   ++ fixed 2 (hour d) ++ ":" ++ fixed 2 (minute d) ++ ":" ++ fixed 2 (second d)
   ++ frac ++ format_offset (utcoffset d))%string.

(** *** Reading a timestamp back *)

Definition is_digit (c : ascii) : bool :=
  let n := N_of_ascii c in ((48 <=? n) && (n <=? 57))%N.

Fixpoint read_digits (n : nat) (acc : Z) (s : string) : option (Z * string) :=
  match n with
  | O => Some (acc, s)
  | S n' =>
      match s with
      | String c s' =>
          if is_digit c
          then read_digits n' (10 * acc + (Z.of_N (N_of_ascii c) - 48)) s'
          else None
      | EmptyString => None
      end
  end.

Definition eat_char (c : ascii) (s : string) : option string :=
  match s with
  | String c' s' => if Ascii.eqb c c' then Some s' else None
  | EmptyString => None
  end.

(** An optional group: [c] followed by [n] digits, or nothing. *)
Definition read_optional (c : ascii) (n : nat) (s : string) : option (Z * string) :=
  match s with
  | String c' s' => if Ascii.eqb c c' then read_digits n 0 s' else Some (0, s)
  | EmptyString => Some (0, s)
  end.

Definition read_sign (s : string) : option (Z * string) :=
  match s with
  | String c s' =>
      if Ascii.eqb c "+" then Some (1, s')
      else if Ascii.eqb c "-" then Some (-1, s')
      else None
  | EmptyString => None
  end.

(** A reader of [YYYY-MM-DDTHH:MM:SS[.ffffff](+|-)HH:MM[:SS]], the
    offset-bearing ISO 8601 form; it inverts [isoformat] on aware datetimes
    as [datetime.fromisoformat] does. *)
Definition fromisoformat (s : string) : option DateTime :=
  '(y, s) ← read_digits 4 0 s; s ← eat_char "-" s;
  '(m, s) ← read_digits 2 0 s; s ← eat_char "-" s;
  '(d, s) ← read_digits 2 0 s; s ← eat_char "T" s;
  '(hh, s) ← read_digits 2 0 s; s ← eat_char ":" s;
  '(mm, s) ← read_digits 2 0 s; s ← eat_char ":" s;
  '(ss, s) ← read_digits 2 0 s;
  '(us, s) ← read_optional "." 6 s;
  '(sign, s) ← read_sign s;
  '(oh, s) ← read_digits 2 0 s; s ← eat_char ":" s;
  '(om, s) ← read_digits 2 0 s;
  '(os, s) ← read_optional ":" 2 s;
  match s with
  | EmptyString =>
      Some {| year := y; month := m; day := d;
              hour := hh; minute := mm; second := ss; microsecond := us;
              utcoffset := sign * (oh * 3600 + om * 60 + os) |}
  | _ => None
  end.

(** Day number, counted from 1970-01-01, of a proleptic Gregorian date. *)
Definition days_from_civil (y m d : Z) : Z :=
  let y := if m <=? 2 then y - 1 else y in
  let era := y / 400 in
  let yoe := y - era * 400 in
  let mp := if 2 <? m then m - 3 else m + 9 in
  let doy := (153 * mp + 2) / 5 + d - 1 in
  let doe := yoe * 365 + yoe / 4 - yoe / 100 + doy in
  era * 146097 + doe - 719468.

(** [datetime.timestamp()], in whole seconds. *)
Definition timestamp (d : DateTime) : Z :=
  days_from_civil (year d) (month d) (day d) * 86400
  + hour d * 3600 + minute d * 60 + second d - utcoffset d.

(** The fields of a [datetime] are within their calendar ranges. *)
Definition in_range (d : DateTime) : Prop :=
  1 <= year d <= 9999 /\ 1 <= month d <= 12 /\ 1 <= day d <= 31 /\
  0 <= hour d < 24 /\ 0 <= minute d < 60 /\ 0 <= second d < 60.

End Time.

(* ===================================================================== *)
(** ** JSON values returned by the handlers *)
(* ===================================================================== *)

#[local] Unset Elimination Schemes.
Inductive Json :=
| JBool (b : bool)
| JInt (n : Z)
| JStr (s : string)
| JList (l : list Json)
| JObj (fields : list (string * Json)).
#[local] Set Elimination Schemes.

(* ===================================================================== *)
(** ** The relational store and the cache *)
(* ===================================================================== *)

(** A row of [users]. *)
Record UserRow := {
  u_id : Z;
  u_email : string;
  u_password_hash : string;
  u_created_at : Z
}.

(** A row of [site_counters], keyed by its [id] column. *)
Record CounterRow := {
  c_total : Z;
  c_updated_at : Z
}.

Record Database := {
  users : list UserRow;
  users_id_seq : Z;                      (* last value of the SERIAL sequence *)
  site_counters : gmap Z CounterRow;
  lc_ctype : Text.CType                  (* the character type LOWER() follows *)
}.

(** The objects the two drivers hand out. *)
Record PgConnection := { conn_dsn : string }.
Record RedisClient := { client_url : string }.

(* ===================================================================== *)
(** ** What the process does to the outside, in order *)
(* ===================================================================== *)

Inductive Event :=
| PgConnect (dsn : string)        (* psycopg2.connect(dsn) *)
| RedisConnect (url : string)     (* redis.Redis.from_url(url) and ping *)
| LogInfo (msg : string)
| LogError (msg : string).

(** The module-level globals of [main.py], together with the contents of the
    two backing stores and the effect trace (newest event first). *)
Record State := {
  JWT_SECRET : string;
  SECURE_COOKIES : bool;
  PG_DSN : option string;
  REDIS_URL : option string;
  pg : option PgConnection;
  r : option RedisClient;
  memory_counters : Z;        (* memory_counters["visits_total"], the only key *)
  store : Database;
  cache : gmap string Z;      (* integer values, as INCR writes them *)
  trace : list Event
}.

(** Everything a call gets from outside the file. *)
Record World := {
  environ : gmap string string;     (* os.environ, after load_dotenv() *)
  pg_accepts : string -> bool;      (* connect and the schema statements succeed *)
  redis_accepts : string -> bool;   (* from_url and ping succeed *)
  pg_fault : bool;                  (* a statement or commit on [pg] raises *)
  redis_fault : bool;               (* a command on [r] raises *)
  gensalt : list byte;              (* bcrypt.gensalt() *)
  db_now : Z;                       (* now() in the store *)
  zoneinfo : string -> option (Z -> Z);
    (* ZoneInfo(key): the zone's UTC offset in seconds at an epoch second;
       None is ZoneInfoNotFoundError *)
  clock : nat -> Time.Instant       (* the k-th reading of the system clock *)
}.

Inductive Exn :=
| HTTPException (status_code : Z) (detail : string)
| UniqueViolation
| DatabaseError
| RedisError
| UnicodeDecodeError
| ZoneInfoNotFoundError
| ValueError
| InvalidKeyError.

Inductive Result (A : Type) :=
| Return (a : A)
| Raise (e : Exn).
Arguments Return {A} a.
Arguments Raise {A} e.

(** State and exceptions: a raised exception keeps the state reached so far. *)
Definition M (A : Type) : Type := State -> State * Result A.

#[global] Instance M_ret : MRet M := fun A a s => (s, Return a).
#[global] Instance M_bind : MBind M := fun A B f m s =>
  match m s with
  | (s', Return a) => f a s'
  | (s', Raise e) => (s', Raise e)
  end.

Definition raise {A} (e : Exn) : M A := fun s => (s, Raise e).
Definition get {A} (f : State -> A) : M A := fun s => (s, Return (f s)).
Definition modify (f : State -> State) : M unit := fun s => (f s, Return tt).

(** Truthiness of a global that is [None] or an object. *)
Definition available {A} (o : option A) : bool :=
  match o with Some _ => true | None => false end.

(** [try: body except Exception: handler] *)
Definition try_except {A} (body : M A) (handler : Exn -> M A) : M A := fun s =>
  match body s with
  | (s', Return a) => (s', Return a)
  | (s', Raise e) => handler e s'
  end.

Definition set_pg (v : option PgConnection) (s : State) : State :=
  {| JWT_SECRET := JWT_SECRET s; SECURE_COOKIES := SECURE_COOKIES s;
     PG_DSN := PG_DSN s; REDIS_URL := REDIS_URL s;
     pg := v; r := r s; memory_counters := memory_counters s;
     store := store s; cache := cache s; trace := trace s |}.

Definition set_r (v : option RedisClient) (s : State) : State :=
  {| JWT_SECRET := JWT_SECRET s; SECURE_COOKIES := SECURE_COOKIES s;
     PG_DSN := PG_DSN s; REDIS_URL := REDIS_URL s;
     pg := pg s; r := v; memory_counters := memory_counters s;
     store := store s; cache := cache s; trace := trace s |}.

Definition set_memory_counters (v : Z) (s : State) : State :=
  {| JWT_SECRET := JWT_SECRET s; SECURE_COOKIES := SECURE_COOKIES s;
     PG_DSN := PG_DSN s; REDIS_URL := REDIS_URL s;
     pg := pg s; r := r s; memory_counters := v;
     store := store s; cache := cache s; trace := trace s |}.

Definition set_store (v : Database) (s : State) : State :=
  {| JWT_SECRET := JWT_SECRET s; SECURE_COOKIES := SECURE_COOKIES s;
     PG_DSN := PG_DSN s; REDIS_URL := REDIS_URL s;
     pg := pg s; r := r s; memory_counters := memory_counters s;
     store := v; cache := cache s; trace := trace s |}.

Definition set_cache (v : gmap string Z) (s : State) : State :=
  {| JWT_SECRET := JWT_SECRET s; SECURE_COOKIES := SECURE_COOKIES s;
     PG_DSN := PG_DSN s; REDIS_URL := REDIS_URL s;
     pg := pg s; r := r s; memory_counters := memory_counters s;
     store := store s; cache := v; trace := trace s |}.

Definition emit (e : Event) : M unit := modify (fun s =>
  {| JWT_SECRET := JWT_SECRET s; SECURE_COOKIES := SECURE_COOKIES s;
     PG_DSN := PG_DSN s; REDIS_URL := REDIS_URL s;
     pg := pg s; r := r s; memory_counters := memory_counters s;
     store := store s; cache := cache s; trace := e :: trace s |}).

(* ===================================================================== *)
(** ** The program *)
(* ===================================================================== *)

Section Program.

(** The two libraries whose results are opaque to the program: the bcrypt
    digest of a password under a salt, and the HS256 token of the payload
    [{"uid": uid}] under a secret; and what the two libraries refuse: a salt
    prefix bcrypt cannot parse, and a key PyJWT takes for an asymmetric key
    or certificate. *)
Variable bcrypt_digest : list byte -> list byte -> list byte.
Variable jwt_encode : Z -> string -> string.
Variable bcrypt_salt_ok : list byte -> bool.
Variable jwt_asymmetric : string -> bool.

(** *** bcrypt *)

(** [bcrypt.hashpw(password, salt)]: the first 29 bytes of the second
    argument are the salt (version, cost and 22 characters), and the result
    is that salt followed by the digest.  A password of more than 72 bytes
    and a salt that does not parse raise [ValueError]. *)
Definition hashpw (password salt : list byte) : Result (list byte) :=
  if (72 <? length password)%nat then Raise ValueError
  else
    let s := firstn 29 salt in
    if bcrypt_salt_ok s then Return (s ++ bcrypt_digest s password)%list
    else Raise ValueError.

(** Equality of two byte strings ([hmac.compare_digest]). *)
Fixpoint bytes_eqb (a b : list byte) : bool :=
  match a, b with
  | [], [] => true
  | x :: a', y :: b' => Byte.eqb x y && bytes_eqb a' b'
  | _, _ => false
  end.

(** [bcrypt.checkpw(password, hashed)]: hash again under the salt of
    [hashed] and compare; what [hashpw] raises, it raises. *)
Definition checkpw (password hashed : list byte) : Result bool :=
  match hashpw password hashed with
  | Return h => Return (bytes_eqb h hashed)
  | Raise e => Raise e
  end.

(** *** PyJWT *)

(** The keys [jwt.encode] signs with under HS256: not empty, and not an
    asymmetric key or certificate; the others raise [InvalidKeyError]. *)
Definition hmac_key_ok (secret : string) : bool :=
  Text.nonempty secret && negb (jwt_asymmetric secret).

(** *** Configuration (lines 15-22) *)

Definition getenv (w : World) (k : string) : option string := environ w !! k.

Definition truthy (o : option string) : bool :=
  match o with Some s => Text.nonempty s | None => false end.

(** Lines 21-22. *)
Definition azure_sslmode (dsn : option string) : option string :=
  match dsn with
  | Some d =>
      if Text.nonempty d
         && Text.contains "postgres.database.azure.com" d
         && negb (Text.contains "sslmode=" d)
      then Some (Text.strip d ++ " sslmode=require")%string
      else Some d
  | None => None
  end.

(** *** Connecting (lines 32-79) *)

(** The statements of [try_connect_pg] on a fresh connection: both tables
    are created if missing and the row with [id = 1] is inserted unless it
    is there. *)
Definition ensure_schema (now : Z) (d : Database) : Database :=
  {| users := users d;
     users_id_seq := users_id_seq d;
     site_counters :=
       match site_counters d !! 1 with
       | Some _ => site_counters d
       | None => <[1 := {| c_total := 0; c_updated_at := now |}]> (site_counters d)
       end;
     lc_ctype := lc_ctype d |}.

Definition try_connect_pg (w : World) : M (option PgConnection) :=
  dsn ← get PG_DSN;
  if negb (truthy dsn) then mret None
  else
    let d := default EmptyString dsn in
    try_except
      (emit (PgConnect d);;
       (if pg_accepts w d then mret tt else raise DatabaseError);;
       modify (set_pg (Some {| conn_dsn := d |}));;
       modify (fun s => set_store (ensure_schema (db_now w) (store s)) s);;
       emit (LogInfo "PG connected and schema ensured");;
       get pg)
      (fun e =>
         emit (LogError "PG connect/init failed: %s");;
         modify (set_pg None);;
         mret None).

Definition try_connect_redis (w : World) : M (option RedisClient) :=
  url ← get REDIS_URL;
  if negb (truthy url) then mret None
  else
    let u := default EmptyString url in
    try_except
      (emit (RedisConnect u);;
       (if redis_accepts w u then mret tt else raise RedisError);;
       modify (set_r (Some {| client_url := u |}));;
       emit (LogInfo "Redis connected");;
       get r)
      (fun e =>
         emit (LogError "Redis connect failed: %s");;
         modify (set_r None);;
         mret None).

(** Import time: lines 15-29 and 82-83, on given contents of the two
    backing stores. *)
Definition startup (w : World) (db0 : Database) (cache0 : gmap string Z) : State :=
  let s0 :=
    {| JWT_SECRET := default "change_me" (getenv w "JWT_SECRET");
       SECURE_COOKIES :=
         String.eqb (Text.lower (default "false" (getenv w "SECURE_COOKIES"))) "true";
       PG_DSN := azure_sslmode (getenv w "PG_DSN");
       REDIS_URL := getenv w "REDIS_URL";
       pg := None;
       r := None;
       memory_counters := 0;
       store := db0;
       cache := cache0;
       trace := [] |} in
  fst ((try_connect_pg w;; try_connect_redis w) s0).

(** *** /healthz (lines 95-97) *)

Definition healthz : M Json :=
  p ← get pg;
  c ← get r;
  mret (JObj [("ok", JBool true); ("pg", JBool (available p));
              ("redis", JBool (available c))]).

(** *** require_pg (lines 114-119) *)

Definition require_pg (w : World) : M unit :=
  p ← get pg;
  (if negb (available p) then try_connect_pg w;; mret tt else mret tt);;
  p ← get pg;
  if negb (available p)
  then raise (HTTPException 503 "PostgreSQL is not configured/available.")
  else mret tt.

(** *** Statements on the open connection *)

(** A statement and its commit on [pg]; the driver raising, for whatever
    reason, leaves the contents of the store as they were. *)
Definition pg_statement {A} (w : World) (stmt : Database -> Database * Result A) : M A :=
  if pg_fault w then raise DatabaseError
  else fun s =>
    let '(d, res) := stmt (store s) in (set_store d s, res).

(** [INSERT INTO users(email,password_hash) VALUES(LOWER(%s), %s)].  LOWER
    is the database's, under its character type; the sequence advances
    before the UNIQUE check on [email]. *)
Definition insert_user (now : Z) (email pw : string) (d : Database)
  : Database * Result unit :=
  let e := Text.sql_lower (lc_ctype d) email in
  let uid := users_id_seq d + 1 in
  if existsb (fun u => String.eqb (u_email u) e) (users d) then
    ({| users := users d; users_id_seq := uid; site_counters := site_counters d;
        lc_ctype := lc_ctype d |},
     Raise UniqueViolation)
  else
    ({| users := users d ++
           [{| u_id := uid; u_email := e; u_password_hash := pw; u_created_at := now |}];
        users_id_seq := uid;
        site_counters := site_counters d;
        lc_ctype := lc_ctype d |},
     Return tt).

(** [SELECT id, password_hash FROM users WHERE email=LOWER(%s)] and
    [fetchone()]. *)
Definition select_user (email : string) (d : Database)
  : Database * Result (option (Z * string)) :=
  (d, Return ((fun u => (u_id u, u_password_hash u)) <$>
                find (fun u => String.eqb (u_email u)
                                 (Text.sql_lower (lc_ctype d) email)) (users d))).

(** [UPDATE site_counters SET total=total+1, updated_at=now() WHERE id=1] *)
Definition bump_site_counter (now : Z) (d : Database) : Database * Result unit :=
  ({| users := users d; users_id_seq := users_id_seq d;
      site_counters :=
        alter (fun row => {| c_total := c_total row + 1; c_updated_at := now |})
              1 (site_counters d);
      lc_ctype := lc_ctype d |},
   Return tt).

(** [SELECT total FROM site_counters WHERE id=1] and [fetchone()]. *)
Definition select_total (d : Database) : Database * Result (option Z) :=
  (d, Return (c_total <$> site_counters d !! 1)).

(** *** Commands on the Redis client *)

Definition redis_incr (w : World) (key : string) : M unit :=
  if redis_fault w then raise RedisError
  else modify (fun s =>
         set_cache (<[key := default 0 (cache s !! key) + 1]> (cache s)) s).

Definition redis_get (w : World) (key : string) : M (option Z) :=
  if redis_fault w then raise RedisError
  else get (fun s => cache s !! key).

(** *** /auth/register (lines 122-132) *)

Record Credentials := { email : string; password : string }.

Definition register (w : World) (body : Credentials) : M Json :=
  require_pg w;;
  hashed ← match hashpw (Utf8.encode (password body)) (gensalt w) with
           | Return h => mret h
           | Raise e => raise e
           end;
  pw ← match Utf8.decode hashed with
       | Some t => mret t
       | None => raise UnicodeDecodeError
       end;
  pg_statement w (insert_user (db_now w) (email body) pw);;
  mret (JObj [("ok", JBool true)]).

(** *** /auth/login (lines 134-147) *)

Record Cookie := {
  cookie_key : string;
  cookie_value : string;
  httponly : bool;
  samesite : string;
  secure : bool
}.

(** The [Response] object the framework passes in: the cookies set on it. *)
Definition Response := list Cookie.

Definition login (w : World) (body : Credentials) (response : Response)
  : M (Response * Json) :=
  require_pg w;;
  row ← pg_statement w (select_user (email body));
  match row with
  | None => mret (response, JObj [("ok", JBool false)])
  | Some (uid, hashv) =>
      matches ← match checkpw (Utf8.encode (password body)) (Utf8.encode hashv) with
                | Return b => mret b
                | Raise e => raise e
                end;
      if negb matches
      then mret (response, JObj [("ok", JBool false)])
      else
        secret ← get JWT_SECRET;
        (if hmac_key_ok secret then mret tt else raise InvalidKeyError);;
        sec ← get SECURE_COOKIES;
        let token := jwt_encode uid secret in
        mret ((response ++
                [{| cookie_key := "access_token"; cookie_value := token;
                    httponly := true; samesite := "Lax"; secure := sec |}])%list,
              JObj [("ok", JBool true)])
  end.

(** *** /metrics/visit (lines 150-161) *)

Definition visit (w : World) : M Json :=
  c ← get r;
  (if available c then redis_incr w "visits:total"
   else modify (fun s => set_memory_counters (memory_counters s + 1) s));;
  p ← get pg;
  (if available p then pg_statement w (bump_site_counter (db_now w))
   else mret tt);;
  mret (JObj [("ok", JBool true)]).

(** *** /metrics/total (lines 163-175) *)

Definition total (w : World) : M Json :=
  c ← get r;
  val ← (if available c then redis_get w "visits:total" else mret None);
  match val with
  | Some v => mret (JObj [("total", JInt v)])
  | None =>
      p ← get pg;
      row ← (if available p then pg_statement w select_total else mret None);
      match row with
      | Some t => mret (JObj [("total", JInt t)])
      | None =>
          m ← get memory_counters;
          mret (JObj [("total", JInt m)])
      end
  end.

(** *** /time/now (lines 100-111) *)

Definition cities : list (string * string) :=
  [("New York", "America/New_York");
   ("Beijing",  "Asia/Shanghai");
   ("Sydney",   "Australia/Sydney");
   ("Delhi",    "Asia/Kolkata")].

(** [datetime.now(ZoneInfo(tz)).isoformat()] on the [k]-th clock reading. *)
Definition now_iso (w : World) (k : nat) (tz : string) : M string :=
  match zoneinfo w tz with
  | None => raise ZoneInfoNotFoundError
  | Some off =>
      let t := clock w k in
      match Time.localize t (off (Time.epoch t)) with
      | Some d => mret (Time.isoformat d)
      | None => raise ValueError
      end
  end.

(** The list comprehension: one entry per city, in list order, each with
    its own clock reading. *)
Fixpoint time_entries (w : World) (k : nat) (cs : list (string * string))
  : M (list Json) :=
  match cs with
  | [] => mret []
  | (label, tz) :: cs' =>
      iso ← now_iso w k tz;
      rest ← time_entries w (S k) cs';
      mret (JObj [("label", JStr label); ("tz", JStr tz); ("iso", JStr iso)] :: rest)
  end.

Definition time_now (w : World) : M Json :=
  times ← time_entries w 0 cities;
  mret (JObj [("times", JList times)]).

End Program.

(* ===================================================================== *)
(** ** Vocabulary of the statements *)
(* ===================================================================== *)

(** The state after a connect that the server accepted. *)
Definition connected (w : World) (d : string) (s : State) : State :=
  {| JWT_SECRET := JWT_SECRET s; SECURE_COOKIES := SECURE_COOKIES s;
     PG_DSN := PG_DSN s; REDIS_URL := REDIS_URL s;
     pg := Some {| conn_dsn := d |}; r := r s;
     memory_counters := memory_counters s;
     store := ensure_schema (db_now w) (store s); cache := cache s;
     trace := LogInfo "PG connected and schema ensured" :: PgConnect d :: trace s |}.

(** The state after a connect that failed. *)
Definition refused (d : string) (s : State) : State :=
  {| JWT_SECRET := JWT_SECRET s; SECURE_COOKIES := SECURE_COOKIES s;
     PG_DSN := PG_DSN s; REDIS_URL := REDIS_URL s;
     pg := None; r := r s;
     memory_counters := memory_counters s;
     store := store s; cache := cache s;
     trace := LogError "PG connect/init failed: %s" :: PgConnect d :: trace s |}.

(** The cache has nothing to offer: no client, or no value under the key. *)
Definition cache_miss (w : World) (s : State) : Prop :=
  r s = None \/ (redis_fault w = false /\ cache s !! "visits:total" = None).

(** The [site_counters] row after one visit at store time [now]. *)
Definition visited (now : Z) (row : CounterRow) : CounterRow :=
  {| c_total := c_total row + 1; c_updated_at := now |}.

(** The row [fetchone()] returns for an email, if any. *)
Definition stored_user (e : string) (d : Database) : option UserRow :=
  find (fun u => String.eqb (u_email u) (Text.sql_lower (lc_ctype d) e)) (users d).

(** Some row of [users] already has the lower-cased email. *)
Definition email_taken (e : string) (d : Database) : bool :=
  existsb (fun u => String.eqb (u_email u) (Text.sql_lower (lc_ctype d) e)) (users d).

(** The store after the INSERT of a new row. *)
Definition with_user (u : UserRow) (d : Database) : Database :=
  {| users := users d ++ [u]; users_id_seq := u_id u;
     site_counters := site_counters d; lc_ctype := lc_ctype d |}.

(** The cookie of a successful login. *)
Definition session_cookie (token : string) (sec : bool) : Cookie :=
  {| cookie_key := "access_token"; cookie_value := token;
     httponly := true; samesite := "Lax"; secure := sec |}.

(** The connection strings dialled in a trace, newest first. *)
Fixpoint dialled (t : list Event) : list string :=
  match t with
  | [] => []
  | PgConnect d :: t' => d :: dialled t'
  | _ :: t' => dialled t'
  end.

(** How many connections to the relational store a trace records. *)
Definition pg_connects (t : list Event) : nat := length (dialled t).

(** [needle] occurs in [hay]. *)
Definition occurs_in (needle hay : string) : Prop :=
  exists pre post, hay = (pre ++ needle ++ post)%string.

(** [t] is [s] without its leading and trailing white space. *)
Definition stripped_of (s t : string) : Prop :=
  exists l r, s = (l ++ t ++ r)%string
    /\ Text.all_space l = true /\ Text.all_space r = true
    /\ (forall c, Text.first_char t = Some c -> Text.isspace c = false)
    /\ (forall c, Text.last_char t = Some c -> Text.isspace c = false).

(** The zone resolves, and the [k]-th clock reading falls, in UTC and in
    that zone, within what a [datetime] can hold. *)
Definition zone_ready (w : World) (k : nat) (tz : string) : Prop :=
  exists off, zoneinfo w tz = Some off /\
    let t := clock w k in
    Time.MIN_LOCAL <= Time.epoch t <= Time.MAX_LOCAL
    /\ -86400 < off (Time.epoch t) < 86400
    /\ Time.MIN_LOCAL <= Time.epoch t + off (Time.epoch t) <= Time.MAX_LOCAL
    /\ 0 <= Time.micro t < 1000000.

(** [iso] is the rendering of the [k]-th clock reading in zone [tz]: it is
    the [isoformat] of a datetime that denotes that very instant at the
    zone's offset, and it reads back as that datetime. *)
Definition rendered (w : World) (k : nat) (tz iso : string) : Prop :=
  exists off d, zoneinfo w tz = Some off
    /\ Time.localize (clock w k) (off (Time.epoch (clock w k))) = Some d
    /\ iso = Time.isoformat d
    /\ Time.fromisoformat iso = Some d
    /\ Time.utcoffset d = off (Time.epoch (clock w k))
    /\ Time.timestamp d = Time.epoch (clock w k)
    /\ Time.microsecond d = Time.micro (clock w k)
    /\ Time.in_range d.

Definition time_entry (label tz iso : string) : Json :=
  JObj [("label", JStr label); ("tz", JStr tz); ("iso", JStr iso)].

(** The 503 of [require_pg]. *)
Definition unavailable_503 : Exn :=
  HTTPException 503 "PostgreSQL is not configured/available.".

Definition is_http_error {A} (res : Result A) : bool :=
  match res with Raise (HTTPException _ _) => true | _ => false end.

Definition ok_body (b : bool) : Json := JObj [("ok", JBool b)].
Definition total_body (n : Z) : Json := JObj [("total", JInt n)].

(* ===================================================================== *)
(** ** The HTTP surface and runs of the process *)
(* ===================================================================== *)

(** The six routes (lines 95, 100, 122, 134, 150 and 163). *)
Inductive Request :=
| GET_healthz
| GET_time_now
| POST_auth_register (body : Credentials)
| POST_auth_login (body : Credentials)
| POST_metrics_visit
| GET_metrics_total.

Section Surface.

Variable bcrypt_digest : list byte -> list byte -> list byte.
Variable jwt_encode : Z -> string -> string.
Variable bcrypt_salt_ok : list byte -> bool.
Variable jwt_asymmetric : string -> bool.

(** One request: the handler of its route, on a fresh [Response]. *)
Definition serve (w : World) (req : Request) : M (Response * Json) :=
  match req with
  | GET_healthz => j ← healthz; mret ([], j)
  | GET_time_now => j ← time_now w; mret ([], j)
  | POST_auth_register body =>
      j ← register bcrypt_digest bcrypt_salt_ok w body; mret ([], j)
  | POST_auth_login body =>
      login bcrypt_digest jwt_encode bcrypt_salt_ok jwt_asymmetric w body []
  | POST_metrics_visit => j ← visit w; mret ([], j)
  | GET_metrics_total => j ← total w; mret ([], j)
  end.

(** Requests served one after the other, each in the world of its time; a
    request that raises leaves the state it had reached. *)
Fixpoint serve_all (reqs : list (World * Request)) (s : State) : State :=
  match reqs with
  | [] => s
  | (w, req) :: rest => serve_all rest (fst (serve w req s))
  end.

End Surface.

(** The two routes that call [require_pg]. *)
Definition is_auth (req : Request) : bool :=
  match req with
  | POST_auth_register _ | POST_auth_login _ => true
  | _ => false
  end.

(** [n] visits, one per world of the list. *)
Definition visits (ws : list World) : list (World * Request) :=
  map (fun w => (w, POST_metrics_visit)) ws.

(** The elementary changes of state. *)
Inductive change : State -> State -> Prop :=
| change_connected w d s :
    pg s = None -> PG_DSN s = Some d -> change s (connected w d s)
| change_refused d s :
    pg s = None -> PG_DSN s = Some d -> change s (refused d s)
| change_sequence s :
    is_Some (pg s) ->
    change s (set_store {| users := users (store s);
                           users_id_seq := users_id_seq (store s) + 1;
                           site_counters := site_counters (store s);
                           lc_ctype := lc_ctype (store s) |} s)
| change_insert e h now s :
    is_Some (pg s) -> email_taken e (store s) = false ->
    change s (set_store
                (with_user {| u_id := users_id_seq (store s) + 1;
                              u_email := Text.sql_lower (lc_ctype (store s)) e;
                              u_password_hash := h; u_created_at := now |}
                   (store s)) s)
| change_incr s :
    is_Some (r s) ->
    change s (set_cache (<["visits:total" :=
                            default 0 (cache s !! "visits:total") + 1]> (cache s)) s)
| change_memory s :
    r s = None ->
    change s (set_memory_counters (memory_counters s + 1) s)
| change_bump now s :
    is_Some (pg s) ->
    change s (set_store (fst (bump_site_counter now (store s))) s).

(** Nothing of the second state is lost or lowered with respect to the
    first: users are only appended, counter rows and cache keys stay and
    their values do not decrease. *)
Definition grows (s s' : State) : Prop :=
  (exists more, users (store s') = (users (store s) ++ more)%list)
  /\ users_id_seq (store s) <= users_id_seq (store s')
  /\ (forall i row, site_counters (store s) !! i = Some row ->
        exists row', site_counters (store s') !! i = Some row'
                     /\ c_total row <= c_total row')
  /\ (forall k v, cache s !! k = Some v ->
        exists v', cache s' !! k = Some v' /\ v <= v')
  /\ memory_counters s <= memory_counters s'.

(** The configuration read at import time. *)
Definition config (s : State) : string * bool * option string * option string :=
  (JWT_SECRET s, SECURE_COOKIES s, PG_DSN s, REDIS_URL s).

(** Stored emails are in lower case and pairwise different. *)
Definition emails_normalised (d : Database) : Prop :=
  Forall (fun u => Text.lower (u_email u) = u_email u) (users d)
  /\ NoDup (map u_email (users d)).

(** Identifiers are pairwise different and not beyond the sequence. *)
Definition ids_fresh (d : Database) : Prop :=
  Forall (fun u => u_id u <= users_id_seq d) (users d)
  /\ NoDup (map u_id (users d)).

(** With the connection open, the row the visit updates is there. *)
Definition counter_row_ready (s : State) : Prop :=
  is_Some (pg s) -> is_Some (site_counters (store s) !! 1).

(* ===================================================================== *)
(** ** Sample worlds and states *)
(* ===================================================================== *)

Module Sample.

(** Stand-ins for the two libraries. *)
Definition digest (salt pw : list byte) : list byte := rev pw.
Definition token (uid : Z) (secret : string) : string := secret.
Definition salt_ok (salt : list byte) : bool := (length salt =? 29)%nat.
Definition asymmetric (secret : string) : bool := String.prefix "-----BEGIN" secret.

(** Two character types: C, which folds the ASCII capitals only, and one
    that folds the capitals of U+00C0..U+00DE as well. *)
Definition ctype_C : Text.CType :=
  {| Text.towlower := Text.lower_char; Text.towlower_small := eq_refl |}.

Definition lower_latin (c : ascii) : ascii :=
  let n := N_of_ascii c in
  if ((192 <=? n) && (n <=? 222) && negb (n =? 215))%N then ascii_of_N (n + 32)
  else Text.lower_char c.

Definition ctype_latin : Text.CType :=
  {| Text.towlower := lower_latin; Text.towlower_small := eq_refl |}.

Definition salt : list byte := list_byte_of_string "$2b$12$abcdefghijklmnopqrstuv".

(** The emails U+00C4 "@x.com" and U+00E4 "@x.com": A and a with diaeresis. *)
Definition email_AE : string := String (ascii_of_nat 196) "@x.com".
Definition email_ae : string := String (ascii_of_nat 228) "@x.com".

(** A password of 73 bytes. *)
Definition long_password : string := string_of_list_ascii (repeat "a"%char 73).

(** Fixed offsets for the four zones, and nothing else. *)
Definition tzdb (key : string) : option (Z -> Z) :=
  if String.eqb key "America/New_York" then Some (fun _ => -18000)
  else if String.eqb key "Asia/Shanghai" then Some (fun _ => 28800)
  else if String.eqb key "Australia/Sydney" then Some (fun _ => 39600)
  else if String.eqb key "Asia/Kolkata" then Some (fun _ => 19800)
  else None.

Definition clock0 (k : nat) : Time.Instant :=
  {| Time.epoch := 1793730123 + Z.of_nat k; Time.micro := 250 * Z.of_nat k |}.

Definition world (env : gmap string string) (accept pgf rf : bool) : World :=
  {| environ := env;
     pg_accepts := fun _ => accept; redis_accepts := fun _ => accept;
     pg_fault := pgf; redis_fault := rf;
     gensalt := salt; db_now := 1793730123;
     zoneinfo := tzdb; clock := clock0 |}.

Definition empty_db : Database :=
  {| users := []; users_id_seq := 0; site_counters := ∅; lc_ctype := ctype_latin |}.

(** A store as try_connect_pg leaves it, after seven visits. *)
Definition db7 : Database :=
  {| users := []; users_id_seq := 0;
     site_counters := {[ 1 := {| c_total := 7; c_updated_at := 1793000000 |} ]};
     lc_ctype := ctype_latin |}.

Definition state (p : option PgConnection) (c : option RedisClient)
    (dsn : option string) (d : Database) (k : gmap string Z) : State :=
  {| JWT_SECRET := "change_me"; SECURE_COOKIES := false;
     PG_DSN := dsn; REDIS_URL := None;
     pg := p; r := c; memory_counters := 3;
     store := d; cache := k; trace := [] |}.

(** A store with one registered user, whose password is "secret". *)
Definition db1 : Database :=
  {| users := [{| u_id := 1; u_email := "a@x.com";
                  u_password_hash := "$2b$12$abcdefghijklmnopqrstuvterces";
                  u_created_at := 1793000000 |}];
     users_id_seq := 1;
     site_counters := {[ 1 := {| c_total := 7; c_updated_at := 1793000000 |} ]};
     lc_ctype := ctype_latin |}.

Definition conn : PgConnection := {| conn_dsn := "host=db dbname=appdb" |}.
Definition client : RedisClient := {| client_url := "redis://cache:6379/0" |}.

End Sample.

(* ===================================================================== *)
(** ** Properties *)
(* ===================================================================== *)

(** *** The definitions at sample inputs *)

Example strip_sample : Text.strip "  host=db  dbname=appdb " = "host=db  dbname=appdb".
Proof. reflexivity. Qed.

Example contains_sample :
  Text.contains "sslmode=" "host=db sslmode=require" = true
  /\ Text.contains "sslmode=" "host=db sslmode" = false.
Proof. split; reflexivity. Qed.

Example lower_sample : Text.lower "A.Bc@X.COM" = "a.bc@x.com".
Proof. reflexivity. Qed.

Example azure_sslmode_sample :
  azure_sslmode (Some " host=srv.postgres.database.azure.com dbname=appdb ")
    = Some "host=srv.postgres.database.azure.com dbname=appdb sslmode=require"
  /\ azure_sslmode (Some "host=srv.postgres.database.azure.com sslmode=disable ")
    = Some "host=srv.postgres.database.azure.com sslmode=disable "
  /\ azure_sslmode (Some " host=db ") = Some " host=db ".
Proof. repeat split; reflexivity. Qed.

Example civil_from_days_sample :
  Time.civil_from_days 0 = (1970, 1, 1)
  /\ Time.civil_from_days 20760 = (2026, 11, 3)
  /\ Time.civil_from_days 19782 = (2024, 2, 29)
  /\ Time.civil_from_days (Time.MIN_LOCAL / 86400) = (1, 1, 1)
  /\ Time.civil_from_days (Time.MAX_LOCAL / 86400) = (9999, 12, 31).
Proof. repeat split; reflexivity. Qed.

Example isoformat_sample :
  Time.isoformat <$> Time.localize {| Time.epoch := 1793730123; Time.micro := 42 |} (-18000)
    = Some "2026-11-03T13:22:03.000042-05:00"
  /\ Time.isoformat <$> Time.localize {| Time.epoch := 1793730123; Time.micro := 0 |} 19800
    = Some "2026-11-03T23:52:03+05:30".
Proof. split; reflexivity. Qed.

Example time_now_sample :
  snd (time_now (Sample.world ∅ true false false)
         (Sample.state None None None Sample.empty_db ∅))
  = Return (JObj [("times", JList
      [time_entry "New York" "America/New_York" "2026-11-03T13:22:03-05:00";
       time_entry "Beijing" "Asia/Shanghai" "2026-11-04T02:22:04.000250+08:00";
       time_entry "Sydney" "Australia/Sydney" "2026-11-04T05:22:05.000500+11:00";
       time_entry "Delhi" "Asia/Kolkata" "2026-11-03T23:52:06.000750+05:30"])]).
Proof. reflexivity. Qed.

Example duplicate_register_sample :
  snd (register Sample.digest Sample.salt_ok (Sample.world ∅ true false false)
         {| email := "A@X.com"; password := "other" |}
         (Sample.state (Some Sample.conn) None None Sample.db1 ∅))
  = Raise UniqueViolation.
Proof. reflexivity. Qed.

(** Whether U+00E4 logs in for U+00C4 is the character type's choice. *)
Example login_diaeresis_sample :
  let w := Sample.world ∅ true false false in
  let register := register Sample.digest Sample.salt_ok in
  let login := login Sample.digest Sample.token Sample.salt_ok Sample.asymmetric in
  let body := {| email := Sample.email_AE; password := "secret" |} in
  let body' := {| email := Sample.email_ae; password := "secret" |} in
  let s := Sample.state (Some Sample.conn) None None Sample.empty_db ∅ in
  let sC := Sample.state (Some Sample.conn) None None
              {| users := []; users_id_seq := 0; site_counters := ∅;
                 lc_ctype := Sample.ctype_C |} ∅ in
  snd (login w body' [] (fst (register w body s)))
    = Return ([session_cookie "change_me" false], ok_body true)
  /\ snd (login w body' [] (fst (register w body sC))) = Return ([], ok_body false).
Proof. split; reflexivity. Qed.

(** An empty signing key is refused once the password has been checked. *)
Example login_empty_secret_sample :
  let w := Sample.world ∅ true false false in
  let s := {| JWT_SECRET := ""; SECURE_COOKIES := false;
              PG_DSN := None; REDIS_URL := None;
              pg := Some Sample.conn; r := None; memory_counters := 0;
              store := Sample.db1; cache := ∅; trace := [] |} in
  let login := login Sample.digest Sample.token Sample.salt_ok Sample.asymmetric in
  login w {| email := "a@x.com"; password := "secret" |} [] s = (s, Raise InvalidKeyError)
  /\ login w {| email := "a@x.com"; password := "guess" |} [] s
     = (s, Return ([], ok_body false)).
Proof. split; reflexivity. Qed.

(** Running a handler. *)
Ltac run :=
  unfold mbind, M_bind, mret, M_ret, get, modify, raise, emit, try_except;
  cbn.

(** Rewrite with the facts at hand while evaluating. *)
Ltac exec :=
  repeat (cbn; match goal with
               | H : ?x = _ |- context [?x] => rewrite H
               end); cbn.

Ltac open_register := unfold register.
Ltac open_login := unfold login.

Lemma set_store_id (s : State) : set_store (store s) s = s.
Proof. destruct s; reflexivity. Qed.

(** *** Text and bytes *)

Lemma byte_of_to_N b : Utf8.byte_of (Byte.to_N b) = b.
Proof. unfold Utf8.byte_of. rewrite Byte.of_to_N. reflexivity. Qed.

Lemma to_N_lt b : (Byte.to_N b < 256)%N.
Proof. pose proof (Byte.to_N_bounded b). lia. Qed.

Lemma encode_char_low b :
  (Byte.to_N b <? 128)%N = true ->
  Utf8.encode_char (ascii_of_N (Byte.to_N b)) = [b].
Proof.
  intros H. unfold Utf8.encode_char.
  rewrite N_ascii_embedding by apply to_N_lt.
  rewrite H. rewrite byte_of_to_N. reflexivity.
Qed.

Lemma encode_char_high b0 b1 :
  ((194 <=? Byte.to_N b0) && (Byte.to_N b0 <=? 195)
   && (128 <=? Byte.to_N b1) && (Byte.to_N b1 <=? 191))%N = true ->
  Utf8.encode_char (ascii_of_N ((Byte.to_N b0 - 192) * 64 + (Byte.to_N b1 - 128)))
  = [b0; b1].
Proof.
  intros H. apply andb_prop in H as [H H4]. apply andb_prop in H as [H H3].
  apply andb_prop in H as [H1 H2].
  apply N.leb_le in H1, H2, H3, H4.
  set (n0 := Byte.to_N b0) in *. set (n1 := Byte.to_N b1) in *.
  unfold Utf8.encode_char.
  rewrite N_ascii_embedding by lia.
  assert (E : ((n0 - 192) * 64 + (n1 - 128) <? 128)%N = false).
  { apply N.ltb_ge; lia. }
  rewrite E.
  assert (Hq : (((n0 - 192) * 64 + (n1 - 128)) / 64 = n0 - 192)%N).
  { symmetry. apply (N.div_unique _ 64 _ (n1 - 128))%N; lia. }
  assert (Hr : (((n0 - 192) * 64 + (n1 - 128)) mod 64 = n1 - 128)%N).
  { symmetry. apply (N.mod_unique _ 64 (n0 - 192) _)%N; lia. }
  rewrite Hq, Hr.
  replace (192 + (n0 - 192))%N with n0 by lia.
  replace (128 + (n1 - 128))%N with n1 by lia.
  subst n0 n1. rewrite !byte_of_to_N. reflexivity.
Qed.

Lemma decode_encode_le (n : nat) : forall b s,
  (length b <= n)%nat -> Utf8.decode b = Some s -> Utf8.encode s = b.
Proof.
  induction n as [|n IH]; intros b s Hlen Hd.
  - destruct b; [|cbn in Hlen; lia]. cbn in Hd. injection Hd as <-. reflexivity.
  - destruct b as [|b0 rest]; [cbn in Hd; injection Hd as <-; reflexivity|].
    cbn [Utf8.decode] in Hd. cbn in Hlen.
    destruct (Byte.to_N b0 <? 128)%N eqn:E0.
    + destruct (Utf8.decode rest) as [s0|] eqn:Er; [|discriminate].
      injection Hd as <-. cbn [Utf8.encode].
      rewrite (encode_char_low b0 E0). rewrite (IH rest s0); [reflexivity|lia|exact Er].
    + destruct rest as [|b1 rest']; [discriminate|].
      match type of Hd with (if ?c then _ else _) = _ => destruct c eqn:E1 end; [|discriminate].
      destruct (Utf8.decode rest') as [s0|] eqn:Er; [|discriminate].
      injection Hd as <-. cbn [Utf8.encode].
      rewrite (encode_char_high b0 b1 E1). cbn in Hlen.
      rewrite (IH rest' s0); [reflexivity|lia|exact Er].
Qed.

Lemma decode_encode b s : Utf8.decode b = Some s -> Utf8.encode s = b.
Proof. apply (decode_encode_le (length b)). lia. Qed.

Lemma lower_char_same_letter a b : Text.same_letter a b -> Text.lower_char a = Text.lower_char b.
Proof.
  intros [-> | (k & Hk & [[-> ->] | [-> ->]])]; [reflexivity| |];
    unfold Text.lower_char; rewrite !N_ascii_embedding by lia.
  - assert (E1 : ((65 <=? 65 + k) && (65 + k <=? 90))%N = true).
    { apply andb_true_intro; split; apply N.leb_le; lia. }
    assert (E2 : ((65 <=? 97 + k) && (97 + k <=? 90))%N = false).
    { apply andb_false_intro2. apply N.leb_gt. lia. }
    rewrite E1, E2. f_equal. lia.
  - assert (E1 : ((65 <=? 65 + k) && (65 + k <=? 90))%N = true).
    { apply andb_true_intro; split; apply N.leb_le; lia. }
    assert (E2 : ((65 <=? 97 + k) && (97 + k <=? 90))%N = false).
    { apply andb_false_intro2. apply N.leb_gt. lia. }
    rewrite E1, E2. f_equal. lia.
Qed.

Lemma lower_case_variant s t : Text.case_variant s t -> Text.lower s = Text.lower t.
Proof.
  induction 1 as [|a b s t Hab _ IH]; [reflexivity|].
  cbn. rewrite (lower_char_same_letter a b Hab), IH. reflexivity.
Qed.

Lemma case_variant_refl s : Text.case_variant s s.
Proof. induction s; constructor; [left; reflexivity|assumption]. Qed.

Lemma append_cons c (a b : string) : (String c a ++ b = String c (a ++ b))%string.
Proof. reflexivity. Qed.

Lemma append_nil (b : string) : (EmptyString ++ b = b)%string.
Proof. reflexivity. Qed.

Lemma prefix_cons c n c' h :
  String.prefix (String c n) (String c' h) =
  if ascii_dec c c' then String.prefix n h else false.
Proof. reflexivity. Qed.

Lemma prefix_spec n h : String.prefix n h = true <-> exists post, h = (n ++ post)%string.
Proof.
  revert h. induction n as [|c n IH]; intros h; cbn.
  - split; [intros _; exists h; reflexivity|intros _; destruct h; reflexivity].
  - destruct h as [|c' h]; [split; [discriminate|intros [post H]; discriminate]|].
    rewrite prefix_cons.
    destruct (ascii_dec c c') as [->|Hne].
    + rewrite IH. split; intros [post H]; exists post; [rewrite H; reflexivity|].
      rewrite append_cons in H. injection H as ->. reflexivity.
    + split; [discriminate|]. intros [post H]. rewrite append_cons in H. congruence.
Qed.

Lemma contains_spec n h :
  Text.contains n h = true <-> exists pre post, h = (pre ++ n ++ post)%string.
Proof.
  induction h as [|c h IH]; cbn [Text.contains].
  - rewrite orb_false_r, prefix_spec. split.
    + intros [post H]. exists EmptyString, post. exact H.
    + intros (pre & post & H). destruct pre; [exists post; exact H|discriminate].
  - rewrite orb_true_iff, prefix_spec, IH. split.
    + intros [[post H] | (pre & post & H)].
      * exists EmptyString, post. exact H.
      * exists (String c pre), post. cbn. rewrite H. reflexivity.
    + intros (pre & post & H). destruct pre as [|c' pre].
      * left. exists post. exact H.
      * right. cbn in H. injection H as _ H. exists pre, post. exact H.
Qed.

Lemma lstrip_spec s :
  exists l, s = (l ++ Text.lstrip s)%string /\ Text.all_space l = true
    /\ (forall c, Text.first_char (Text.lstrip s) = Some c -> Text.isspace c = false).
Proof.
  induction s as [|c s (l & Hl & Hsp & Hf)]; cbn [Text.lstrip].
  - exists EmptyString. repeat split. intros c H. discriminate.
  - destruct (Text.isspace c) eqn:E.
    + exists (String c l). cbn. rewrite E, Hsp. repeat split; [|exact Hf].
      rewrite Hl at 1. reflexivity.
    + exists EmptyString. repeat split. intros c' H. cbn in H. injection H as <-. exact E.
Qed.

Lemma rstrip_spec s :
  exists t, s = (Text.rstrip s ++ t)%string /\ Text.all_space t = true
    /\ (forall c, Text.last_char (Text.rstrip s) = Some c -> Text.isspace c = false).
Proof.
  induction s as [|c s (t & Ht & Hsp & Hl)]; cbn [Text.rstrip].
  - exists EmptyString. repeat split. intros c H. discriminate.
  - destruct (Text.rstrip s) as [|c' s'] eqn:Er.
    + destruct (Text.isspace c) eqn:E.
      * exists (String c t). cbn. rewrite E, Hsp. repeat split; [|intros ? H; discriminate].
        rewrite Ht at 1. reflexivity.
      * exists t. repeat split; [rewrite Ht at 1; reflexivity|exact Hsp|].
        intros c0 H. cbn in H. injection H as <-. exact E.
    + exists t. repeat split; [rewrite Ht at 1; reflexivity|exact Hsp|].
      intros c0 H. apply Hl. exact H.
Qed.

Lemma last_char_app l t :
  t <> EmptyString -> Text.last_char (l ++ t)%string = Text.last_char t.
Proof.
  intros Ht. induction l as [|c l IH]; [reflexivity|].
  rewrite append_cons. cbn [Text.last_char].
  destruct (l ++ t)%string eqn:E; [|exact IH].
  destruct l; [rewrite append_nil in E; contradiction|rewrite append_cons in E; discriminate].
Qed.

Lemma app_assoc_string (a b c : string) : ((a ++ b) ++ c = a ++ (b ++ c))%string.
Proof.
  induction a as [|x a IH]; [reflexivity|].
  rewrite !append_cons. f_equal. exact IH.
Qed.

Lemma strip_spec s :
  exists l t, s = (l ++ Text.strip s ++ t)%string
    /\ Text.all_space l = true /\ Text.all_space t = true
    /\ (forall c, Text.first_char (Text.strip s) = Some c -> Text.isspace c = false)
    /\ (forall c, Text.last_char (Text.strip s) = Some c -> Text.isspace c = false).
Proof.
  destruct (rstrip_spec s) as (t & Ht & Hts & Hlast).
  destruct (lstrip_spec (Text.rstrip s)) as (l & Hl & Hls & Hfirst).
  exists l, t. unfold Text.strip. repeat split; try assumption.
  - rewrite <- app_assoc_string, <- Hl. exact Ht.
  - intros c Hc. apply Hlast.
    destruct (Text.lstrip (Text.rstrip s)) eqn:E; [discriminate|].
    rewrite Hl. rewrite last_char_app; [exact Hc|discriminate].
Qed.

(** *** Calendar and rendering *)

Lemma civil_month_day z :
  let '(y, m, d) := Time.civil_from_days z in 1 <= m <= 12 /\ 1 <= d <= 31.
Proof.
  unfold Time.civil_from_days.
  set (z' := z + 719468).
  set (era := z' / 146097).
  set (doe := z' - era * 146097).
  assert (Hdoe : 0 <= doe <= 146096).
  { subst doe era. pose proof (Z.div_mod z' 146097 ltac:(lia)).
    pose proof (Z.mod_pos_bound z' 146097 ltac:(lia)). lia. }
  clearbody doe. clear z' era.
  set (yoe := (doe - doe / 1460 + doe / 36524 - doe / 146096) / 365).
  set (doy := doe - (365 * yoe + yoe / 4 - yoe / 100)).
  assert (Hyoe : 0 <= yoe <= 399 /\ 0 <= doy <= 365).
  { subst doy yoe. Z.div_mod_to_equations. lia. }
  clearbody doy. clearbody yoe. 
  set (mp := (5 * doy + 2) / 153).
  assert (Hmp : 0 <= mp <= 11) by (subst mp; Z.div_mod_to_equations; lia).
  assert (Hd : 1 <= doy - (153 * mp + 2) / 5 + 1 <= 31).
  { subst mp. Z.div_mod_to_equations. lia. }
  destruct (mp <? 10) eqn:E.
  - apply Z.ltb_lt in E. destruct (mp + 3 <=? 2); lia.
  - apply Z.ltb_ge in E. destruct (mp - 9 <=? 2); lia.
Qed.

Lemma civil_year z :
  -719162 <= z <= 2932896 ->
  let '(y, m, d) := Time.civil_from_days z in 1 <= y <= 9999.
Proof.
  intros Hz. unfold Time.civil_from_days.
  set (z' := z + 719468).
  assert (Hz' : 306 <= z' <= 3652364) by (subst z'; lia).
  clearbody z'. clear z Hz.
  set (era := z' / 146097).
  assert (Hera : 0 <= era <= 24) by (subst era; Z.div_mod_to_equations; lia).
  set (doe := z' - era * 146097).
  assert (Hdoe : 0 <= doe <= 146096 /\ (era = 0 -> 306 <= doe) /\ (era = 24 -> doe <= 146036)).
  { subst doe era. Z.div_mod_to_equations. lia. }
  clearbody doe. clearbody era. clear z' Hz'.
  set (yoe := (doe - doe / 1460 + doe / 36524 - doe / 146096) / 365).
  set (doy := doe - (365 * yoe + yoe / 4 - yoe / 100)).
  assert (Hyoe : 0 <= yoe <= 399 /\ 0 <= doy <= 365
                 /\ (yoe = 0 -> doy = doe) /\ (yoe = 399 -> doy = doe - 145731)).
  { subst doy yoe. Z.div_mod_to_equations. lia. }
  clearbody doy. clearbody yoe.
  set (mp := (5 * doy + 2) / 153).
  assert (Hmp : 0 <= mp <= 11 /\ (306 <= doy -> 10 <= mp) /\ (doy <= 305 -> mp <= 9)).
  { subst mp. Z.div_mod_to_equations. lia. }
  clearbody mp.
  destruct (mp <? 10) eqn:E.
  - apply Z.ltb_lt in E. destruct (mp + 3 <=? 2) eqn:E2; [apply Z.leb_le in E2; lia|].
    lia.
  - apply Z.ltb_ge in E. destruct (mp - 9 <=? 2) eqn:E2; [|apply Z.leb_gt in E2; lia].
    lia.
Qed.

Lemma localize_in_range t off d :
  Time.localize t off = Some d -> 0 <= Time.micro t < 1000000 ->
  Time.in_range d /\ 0 <= Time.microsecond d < 1000000 /\ Time.utcoffset d = off
  /\ -86400 < Time.utcoffset d < 86400.
Proof.
  unfold Time.localize. intros H Hm.
  destruct (_ && _) eqn:E; [|discriminate].
  apply andb_prop in E as [E E4]. apply andb_prop in E as [E E3].
  apply andb_prop in E as [E E2]. apply andb_prop in E as [_ E1].
  apply Z.ltb_lt in E1, E2. apply Z.leb_le in E3, E4.
  unfold Time.MIN_LOCAL, Time.MAX_LOCAL in *.
  set (l := Time.epoch t + off) in *.
  assert (Hday : -719162 <= l / 86400 <= 2932896) by (Z.div_mod_to_equations; lia).
  pose proof (civil_year (l / 86400) Hday) as Hy.
  pose proof (civil_month_day (l / 86400)) as Hmd.
  destruct (Time.civil_from_days (l / 86400)) as [[y m] dd].
  injection H as <-. unfold Time.in_range. cbn.
  pose proof (Z.mod_pos_bound l 86400 ltac:(lia)) as Hs.
  set (sod := l mod 86400) in *. clearbody sod.
  repeat split; try lia; Z.div_mod_to_equations; lia.
Qed.

Lemma is_digit_digit n : Time.is_digit (Time.digit n) = true.
Proof.
  unfold Time.is_digit, Time.digit.
  pose proof (Z.mod_pos_bound n 10 ltac:(lia)) as H.
  rewrite N_ascii_embedding by lia.
  apply andb_true_intro. split; apply N.leb_le; lia.
Qed.

Lemma eat_char_lit c rest : Time.eat_char c (String c EmptyString ++ rest) = Some rest.
Proof.
  rewrite append_cons, append_nil. unfold Time.eat_char.
  rewrite Ascii.eqb_refl. reflexivity.
Qed.

Lemma append_empty_r (a : string) : (a ++ EmptyString)%string = a.
Proof. induction a as [|c a IH]; [reflexivity|]. rewrite append_cons, IH. reflexivity. Qed.

Lemma days_from_civil_from_days z :
  let '(y, m, d) := Time.civil_from_days z in Time.days_from_civil y m d = z.
Proof.
  unfold Time.civil_from_days, Time.days_from_civil.
  set (z' := z + 719468).
  set (era := z' / 146097).
  set (doe := z' - era * 146097).
  assert (Hdoe : 0 <= doe <= 146096).
  { subst doe era. pose proof (Z.div_mod z' 146097 ltac:(lia)).
    pose proof (Z.mod_pos_bound z' 146097 ltac:(lia)). lia. }
  assert (Hz : z = era * 146097 + doe - 719468) by (subst doe z'; lia).
  clearbody doe. clearbody era. clear z'. subst z.
  set (yoe := (doe - doe / 1460 + doe / 36524 - doe / 146096) / 365).
  set (doy := doe - (365 * yoe + yoe / 4 - yoe / 100)).
  assert (Hyoe : 0 <= yoe <= 399 /\ 0 <= doy <= 365).
  { subst doy yoe. Z.div_mod_to_equations. lia. }
  assert (Hdoe' : doe = yoe * 365 + yoe / 4 - yoe / 100 + doy) by (subst doy; lia).
  clearbody doy. clearbody yoe.
  set (mp := (5 * doy + 2) / 153).
  assert (Hmp : 0 <= mp <= 11) by (subst mp; Z.div_mod_to_equations; lia).
  clearbody mp.
  assert (Hera : forall y, y = yoe + era * 400 -> y / 400 = era).
  { intros y ->. Z.div_mod_to_equations. lia. }
  destruct (mp <? 10) eqn:E.
  - apply Z.ltb_lt in E.
    assert (E1 : (mp + 3 <=? 2) = false) by (apply Z.leb_gt; lia).
    assert (E2 : (2 <? mp + 3) = true) by (apply Z.ltb_lt; lia).
    rewrite E1, E2. rewrite (Hera _ eq_refl).
    replace (mp + 3 - 3) with mp by lia.
    replace (yoe + era * 400 - era * 400) with yoe by lia. lia.
  - apply Z.ltb_ge in E.
    assert (E1 : (mp - 9 <=? 2) = true) by (apply Z.leb_le; lia).
    assert (E2 : (2 <? mp - 9) = false) by (apply Z.ltb_ge; lia).
    rewrite E1, E2. replace (yoe + era * 400 + 1 - 1) with (yoe + era * 400) by lia.
    rewrite (Hera _ eq_refl).
    replace (mp - 9 + 9) with mp by lia.
    replace (yoe + era * 400 - era * 400) with yoe by lia. lia.
Qed.

Lemma localize_timestamp t off d :
  Time.localize t off = Some d ->
  Time.timestamp d = Time.epoch t /\ Time.microsecond d = Time.micro t /\ Time.utcoffset d = off.
Proof.
  unfold Time.localize. intros H.
  destruct (_ && _); [|discriminate].
  pose proof (days_from_civil_from_days ((Time.epoch t + off) / 86400)) as Hd.
  destruct (Time.civil_from_days _) as [[y m] dd].
  injection H as <-. unfold Time.timestamp. cbn. rewrite Hd.
  split; [|split; reflexivity].
  Z.div_mod_to_equations. lia.
Qed.

Lemma digit_value n : Z.of_N (N_of_ascii (Time.digit n)) - 48 = n mod 10.
Proof.
  unfold Time.digit. pose proof (Z.mod_pos_bound n 10 ltac:(lia)) as H.
  rewrite N_ascii_embedding by lia. lia.
Qed.

Lemma read_digits_fixed_more w : forall k acc n rest,
  0 <= n < 10 ^ Z.of_nat w ->
  Time.read_digits (w + k) acc (Time.fixed w n ++ rest) = Time.read_digits k (acc * 10 ^ Z.of_nat w + n) rest.
Proof.
  induction w as [|w IH]; intros k acc n rest Hn.
  - cbn in Hn. replace n with 0 by lia. cbn [Time.fixed Nat.add]. rewrite append_nil.
    f_equal. cbn. lia.
  - cbn [Time.fixed]. rewrite app_assoc_string, append_cons, append_nil.
    replace (S w + k)%nat with (w + S k)%nat by lia.
    assert (Hp : 10 ^ Z.of_nat (S w) = 10 * 10 ^ Z.of_nat w).
    { rewrite Nat2Z.inj_succ, Z.pow_succ_r by lia. reflexivity. }
    rewrite IH by (rewrite Hp in Hn; Z.div_mod_to_equations; lia).
    cbn [Time.read_digits]. rewrite is_digit_digit, digit_value. f_equal.
    rewrite Hp. Z.div_mod_to_equations. lia.
Qed.

Lemma read_digits_fixed w n rest :
  0 <= n < 10 ^ Z.of_nat w ->
  Time.read_digits w 0 (Time.fixed w n ++ rest) = Some (n, rest).
Proof.
  intros Hn. pose proof (read_digits_fixed_more w 0 0 n rest Hn) as H.
  rewrite Nat.add_0_r in H. exact H.
Qed.

Lemma read_optional_hit c n rest :
  Time.read_optional c n (String c EmptyString ++ rest) = Time.read_digits n 0 rest.
Proof.
  rewrite append_cons, append_nil. unfold Time.read_optional.
  rewrite Ascii.eqb_refl. reflexivity.
Qed.

Lemma format_offset_reads off :
  -86400 < off < 86400 ->
  ('(sign, s) ← Time.read_sign (Time.format_offset off);
   '(oh, s) ← Time.read_digits 2 0 s; s ← Time.eat_char ":" s;
   '(om, s) ← Time.read_digits 2 0 s;
   '(os, s) ← Time.read_optional ":" 2 s;
   match s with
   | EmptyString => Some (sign * (oh * 3600 + om * 60 + os))
   | _ => None
   end) = Some off.
Proof.
  intros Ho. unfold Time.format_offset. cbn zeta.
  assert (Hs : forall rest,
    Time.read_sign ((if off <? 0 then "-" else "+") ++ rest)
    = Some (if off <? 0 then -1 else 1, rest)).
  { intros rest. destruct (off <? 0); reflexivity. }
  rewrite Hs. cbn [mbind option_bind]. clear Hs.
  set (a := Z.abs off).
  set (sg := if off <? 0 then -1 else 1).
  assert (Ha : 0 <= a < 86400) by (subst a; lia).
  assert (Hoff : off = sg * a).
  { subst a sg. destruct (off <? 0) eqn:E; [apply Z.ltb_lt in E|apply Z.ltb_ge in E]; lia. }
  clearbody sg. clearbody a. subst off.
  rewrite read_digits_fixed by (cbn; Z.div_mod_to_equations; lia).
  cbn [mbind option_bind]. rewrite eat_char_lit. cbn [mbind option_bind].
  destruct (a mod 60 =? 0) eqn:E60.
  - apply Z.eqb_eq in E60.
    rewrite read_digits_fixed by (cbn; Z.div_mod_to_equations; lia).
    cbn [mbind option_bind Time.read_optional]. f_equal. f_equal.
    Z.div_mod_to_equations. lia.
  - rewrite read_digits_fixed by (cbn; Z.div_mod_to_equations; lia).
    cbn [mbind option_bind]. rewrite read_optional_hit.
    rewrite <- (append_empty_r (Time.fixed 2 (a mod 60))).
    rewrite read_digits_fixed by (cbn; Z.div_mod_to_equations; lia).
    cbn [mbind option_bind]. f_equal. f_equal.
    Z.div_mod_to_equations. lia.
Qed.

Lemma fromisoformat_isoformat d :
  Time.in_range d -> 0 <= Time.microsecond d < 1000000 -> -86400 < Time.utcoffset d < 86400 ->
  Time.fromisoformat (Time.isoformat d) = Some d.
Proof.
  intros (Hy & Hm & Hd & Hh & Hmi & Hs) Hus Hoff.
  unfold Time.fromisoformat, Time.isoformat. cbn zeta.
  repeat (first [ rewrite read_digits_fixed by (cbn; lia) | rewrite eat_char_lit ];
          cbn [mbind option_bind]).
  pose proof (format_offset_reads (Time.utcoffset d) Hoff) as Hfo.
  assert (Hdot : forall rest,
    Time.read_optional "." 6 (Time.format_offset (Time.utcoffset d) ++ rest)
    = Some (0, (Time.format_offset (Time.utcoffset d) ++ rest)%string)).
  { intros rest. unfold Time.format_offset. cbn zeta.
    destruct (Time.utcoffset d <? 0); reflexivity. }
  destruct (Time.microsecond d =? 0) eqn:E.
  - apply Z.eqb_eq in E. rewrite append_nil.
    rewrite <- (append_empty_r (Time.format_offset _)), Hdot, append_empty_r.
    cbn [mbind option_bind].
    destruct (Time.read_sign (Time.format_offset (Time.utcoffset d))) as [[sg s1]|]; [|discriminate].
    cbn [mbind option_bind] in *.
    destruct (Time.read_digits 2 0 s1) as [[oh s2]|]; [|discriminate].
    cbn [mbind option_bind] in *.
    destruct (Time.eat_char ":" s2) as [s3|]; [|discriminate].
    cbn [mbind option_bind] in *.
    destruct (Time.read_digits 2 0 s3) as [[om s4]|]; [|discriminate].
    cbn [mbind option_bind] in *.
    destruct (Time.read_optional ":" 2 s4) as [[os s5]|]; [|discriminate].
    cbn [mbind option_bind] in *.
    destruct s5; [|discriminate]. injection Hfo as Hfo. rewrite Hfo, <- E.
    destruct d; reflexivity.
  - rewrite app_assoc_string, read_optional_hit.
    rewrite read_digits_fixed by (cbn; lia). cbn [mbind option_bind].
    destruct (Time.read_sign (Time.format_offset (Time.utcoffset d))) as [[sg s1]|]; [|discriminate].
    cbn [mbind option_bind] in *.
    destruct (Time.read_digits 2 0 s1) as [[oh s2]|]; [|discriminate].
    cbn [mbind option_bind] in *.
    destruct (Time.eat_char ":" s2) as [s3|]; [|discriminate].
    cbn [mbind option_bind] in *.
    destruct (Time.read_digits 2 0 s3) as [[om s4]|]; [|discriminate].
    cbn [mbind option_bind] in *.
    destruct (Time.read_optional ":" 2 s4) as [[os s5]|]; [|discriminate].
    cbn [mbind option_bind] in *.
    destruct s5; [|discriminate]. injection Hfo as Hfo. rewrite Hfo.
    destruct d; reflexivity.
Qed.

Lemma database_eta (d : Database) :
  {| users := users d; users_id_seq := users_id_seq d;
     site_counters := site_counters d; lc_ctype := lc_ctype d |} = d.
Proof. destruct d; reflexivity. Qed.

(** *** The character type of the database *)

Lemma code_points_all (c : ascii) : In c Text.code_points.
Proof.
  unfold Text.code_points. rewrite <- (ascii_nat_embedding c).
  apply in_map. apply in_seq. pose proof (nat_ascii_bounded c). lia.
Qed.

Lemma towlower_not_capital (ct : Text.CType) (c : ascii) :
  Text.is_capital (Text.towlower ct c) = false.
Proof.
  pose proof (Text.towlower_small ct) as H. unfold Text.never_capital in H.
  rewrite forallb_forall in H. specialize (H c (code_points_all c)).
  apply negb_true_iff in H. exact H.
Qed.

Lemma lower_char_small (c : ascii) : Text.is_capital c = false -> Text.lower_char c = c.
Proof. unfold Text.is_capital, Text.lower_char. intros ->. reflexivity. Qed.

Lemma lower_sql_lower (ct : Text.CType) (s : string) :
  Text.lower (Text.sql_lower ct s) = Text.sql_lower ct s.
Proof.
  induction s as [|c s IH]; cbn; [reflexivity|].
  rewrite IH, (lower_char_small _ (towlower_not_capital ct c)). reflexivity.
Qed.

Lemma same_letter_towlower (ct : Text.CType) (a b : ascii) :
  Text.folds_ascii ct -> Text.same_letter a b -> Text.towlower ct a = Text.towlower ct b.
Proof.
  intros Hf [->|(k & Hk & [[-> ->]|[-> ->]])]; [reflexivity| |].
  all: rewrite !Hf by (rewrite N_ascii_embedding by lia; lia).
  all: unfold Text.lower_char; rewrite !N_ascii_embedding by lia.
  all: destruct (65 <=? 65 + k)%N eqn:E1; [|apply N.leb_gt in E1; lia].
  all: destruct (65 + k <=? 90)%N eqn:E2; [|apply N.leb_gt in E2; lia].
  all: destruct (97 + k <=? 90)%N eqn:E3; [apply N.leb_le in E3; lia|].
  all: rewrite ?andb_false_r; cbn [andb]; f_equal; lia.
Qed.

(** Under a character type that folds ASCII the usual way, the case
    variants of a text are folded alike. *)
Lemma case_variant_sql_lower (ct : Text.CType) (e e' : string) :
  Text.folds_ascii ct -> Text.case_variant e e' ->
  Text.sql_lower ct e' = Text.sql_lower ct e.
Proof.
  intros Hf Hv. induction Hv as [|a b s t Hab _ IH]; cbn; [reflexivity|].
  rewrite IH, (same_letter_towlower ct a b Hf Hab). reflexivity.
Qed.

Section Properties.

Variable bcrypt_digest : list byte -> list byte -> list byte.
Variable jwt_encode : Z -> string -> string.
Variable bcrypt_salt_ok : list byte -> bool.
Variable jwt_asymmetric : string -> bool.

Local Abbreviation register := (register bcrypt_digest bcrypt_salt_ok).
Local Abbreviation login := (login bcrypt_digest jwt_encode bcrypt_salt_ok jwt_asymmetric).

(** *** The reconnect *)

Lemma try_connect_pg_unset w s :
  truthy (PG_DSN s) = false -> try_connect_pg w s = (s, Return None).
Proof. intros H. unfold try_connect_pg. run. rewrite H. reflexivity. Qed.

Lemma try_connect_pg_accepted w s d :
  PG_DSN s = Some d -> Text.nonempty d = true -> pg_accepts w d = true ->
  try_connect_pg w s = (connected w d s, Return (Some {| conn_dsn := d |})).
Proof.
  intros Hd Hn Ha. unfold try_connect_pg. run. rewrite Hd. cbn. rewrite Hn. cbn.
  rewrite Ha. reflexivity.
Qed.

Lemma try_connect_pg_refused w s d :
  PG_DSN s = Some d -> Text.nonempty d = true -> pg_accepts w d = false ->
  try_connect_pg w s = (refused d s, Return None).
Proof.
  intros Hd Hn Ha. unfold try_connect_pg. run. rewrite Hd. cbn. rewrite Hn. cbn.
  rewrite Ha. reflexivity.
Qed.

Lemma require_pg_available w s :
  is_Some (pg s) -> require_pg w s = (s, Return tt).
Proof. intros [c Hc]. unfold require_pg. run. rewrite Hc. cbn. rewrite Hc. reflexivity. Qed.

Lemma require_pg_unset w s :
  pg s = None -> truthy (PG_DSN s) = false ->
  require_pg w s =
    (s, Raise (HTTPException 503 "PostgreSQL is not configured/available.")).
Proof.
  intros Hp Hd. unfold require_pg. run. rewrite Hp. cbn.
  rewrite (try_connect_pg_unset w s Hd). rewrite Hp. reflexivity.
Qed.

Lemma require_pg_accepted w s d :
  pg s = None -> PG_DSN s = Some d -> Text.nonempty d = true ->
  pg_accepts w d = true ->
  require_pg w s = (connected w d s, Return tt).
Proof.
  intros Hp Hd Hn Ha. unfold require_pg. run. rewrite Hp. cbn.
  rewrite (try_connect_pg_accepted w s d Hd Hn Ha). reflexivity.
Qed.

Lemma require_pg_refused w s d :
  pg s = None -> PG_DSN s = Some d -> Text.nonempty d = true ->
  pg_accepts w d = false ->
  require_pg w s =
    (refused d s, Raise (HTTPException 503 "PostgreSQL is not configured/available.")).
Proof.
  intros Hp Hd Hn Ha. unfold require_pg. run. rewrite Hp. cbn.
  rewrite (try_connect_pg_refused w s d Hd Hn Ha). reflexivity.
Qed.

Lemma require_pg_returns w s s1 :
  require_pg w s = (s1, Return tt) -> is_Some (pg s1).
Proof.
  unfold require_pg. run.
  destruct (pg s) eqn:Ep; cbn.
  - rewrite Ep. cbn. intros [= <-]. rewrite Ep. eauto.
  - destruct (try_connect_pg w s) as [s2 [o|x]]; cbn; [|discriminate].
    destruct (pg s2) eqn:Ep2; cbn; [|discriminate].
    intros [= <-]. rewrite Ep2. eauto.
Qed.

(** C10: /healthz answers from the two flags alone, leaves every global,
    both stores and the trace as they were, and so keeps reporting the store
    as unavailable in a state from which require_pg would reconnect. *)
Theorem healthz_pure_read (w : World) (s : State) :
  healthz s =
    (s, Return (JObj [("ok", JBool true);
                      ("pg", JBool (available (pg s)));
                      ("redis", JBool (available (r s)))]))
  /\ (forall d, pg s = None -> PG_DSN s = Some d -> Text.nonempty d = true ->
        pg_accepts w d = true ->
        healthz s =
          (s, Return (JObj [("ok", JBool true); ("pg", JBool false);
                            ("redis", JBool (available (r s)))]))
        /\ is_Some (pg (fst (require_pg w s)))).
Proof.
  split; [reflexivity|].
  intros d Hp Hd Hn Ha. split.
  - unfold healthz. run. rewrite Hp. reflexivity.
  - rewrite (require_pg_accepted w s d Hp Hd Hn Ha). cbn. eauto.
Qed.

(** *** The visit counter *)

Lemma pg_statement_ok {A} w (stmt : Database -> Database * Result A) s :
  pg_fault w = false ->
  pg_statement w stmt s = (set_store (fst (stmt (store s))) s, snd (stmt (store s))).
Proof. intros H. unfold pg_statement. rewrite H. destruct (stmt (store s)); reflexivity. Qed.

Lemma pg_statement_fault {A} w (stmt : Database -> Database * Result A) s :
  pg_fault w = true -> pg_statement w stmt s = (s, Raise DatabaseError).
Proof. intros H. unfold pg_statement. rewrite H. reflexivity. Qed.

(** C2: /metrics/total answers from the first source that has a value:
    the cache key, else the SiteCounter row, else the in-process counter. *)
Theorem total_first_available_source (w : World) (s : State) :
  (forall v, is_Some (r s) -> redis_fault w = false ->
     cache s !! "visits:total" = Some v ->
     total w s = (s, Return (total_body v)))
  /\ (forall row, cache_miss w s -> is_Some (pg s) -> pg_fault w = false ->
     site_counters (store s) !! 1 = Some row ->
     total w s = (s, Return (total_body (c_total row))))
  /\ (cache_miss w s ->
     pg s = None \/ (pg_fault w = false /\ site_counters (store s) !! 1 = None) ->
     total w s = (s, Return (total_body (memory_counters s)))).
Proof.
  unfold total, redis_get, pg_statement, select_total, cache_miss.
  split; [|split].
  - intros v [c Hc] Hf Hv. run. exec. reflexivity.
  - intros row Hm [p Hp] Hf Hrow.
    destruct Hm as [Hr | [Hrf Hk]]; [|destruct (r s) eqn:Hr];
      run; exec; rewrite set_store_id; reflexivity.
  - intros Hm Hpg.
    destruct Hm as [Hr | [Hrf Hk]]; [|destruct (r s) eqn:Hr];
      (destruct Hpg as [Hp | [Hf Hrow]]; [|destruct (pg s) eqn:Hp]);
      run; exec; rewrite ?set_store_id; reflexivity.
Qed.

(** C3: a visit adds one to the cache key when the cache client is there
    and to the in-process counter otherwise, never to both; and, whatever
    that choice was, adds one to the SiteCounter row with id 1 and stamps it
    when the store connection is there. *)
Theorem visit_increments (w : World) (s : State) :
  (is_Some (r s) -> redis_fault w = false) ->
  (is_Some (pg s) -> pg_fault w = false) ->
  exists s', visit w s = (s', Return (ok_body true))
    /\ pg s' = pg s /\ r s' = r s
    /\ (is_Some (r s) ->
          cache s' !! "visits:total" = Some (default 0 (cache s !! "visits:total") + 1)
          /\ (forall k, k <> "visits:total" -> cache s' !! k = cache s !! k)
          /\ memory_counters s' = memory_counters s)
    /\ (r s = None ->
          cache s' = cache s /\ memory_counters s' = memory_counters s + 1)
    /\ (is_Some (pg s) ->
          site_counters (store s') !! 1 = visited (db_now w) <$> site_counters (store s) !! 1
          /\ (forall i, i <> 1 -> site_counters (store s') !! i = site_counters (store s) !! i)
          /\ users (store s') = users (store s))
    /\ (pg s = None -> store s' = store s).
Proof.
  intros Hr Hp.
  unfold visit, redis_incr, pg_statement, bump_site_counter.
  destruct (r s) as [c|] eqn:Er; destruct (pg s) as [p|] eqn:Ep;
    try (rewrite Hr by eauto); try (rewrite Hp by eauto);
    run; exec; eexists; (split; [reflexivity|]); cbn;
    repeat split; try tauto; try (intros [? ?]; discriminate);
    try (intros; discriminate); intros.
  all: first [ apply lookup_insert_eq
             | apply lookup_insert_ne; congruence
             | rewrite lookup_alter; case_decide; (reflexivity || congruence)
             | match goal with
               | H : is_Some None |- _ => destruct H; discriminate
               | H : Some _ = None |- _ => discriminate H
               end ].
Qed.

(** C4 (amended): a fault raised by a cache or store operation inside a
    counter endpoint is not caught.  It reaches the caller as an error; the
    flags [pg] and [r] and the log stay as they were, so nothing is
    downgraded and no fallback is tried.  The endpoints fall back without an
    error only for a dependency whose flag is already unset, and return
    normally whenever no operation faults. *)
Theorem counter_faults_propagate (w : World) (s : State) :
  (is_Some (r s) -> redis_fault w = true ->
     visit w s = (s, Raise RedisError) /\ total w s = (s, Raise RedisError))
  /\ (is_Some (pg s) -> pg_fault w = true ->
      r s = None \/ redis_fault w = false ->
      snd (visit w s) = Raise DatabaseError
      /\ store (fst (visit w s)) = store s
      /\ (cache_miss w s -> total w s = (s, Raise DatabaseError)))
  /\ (pg (fst (visit w s)) = pg s /\ r (fst (visit w s)) = r s
      /\ trace (fst (visit w s)) = trace s)
  /\ fst (total w s) = s
  /\ (r s = None \/ redis_fault w = false ->
      pg s = None \/ pg_fault w = false ->
      (exists s', visit w s = (s', Return (ok_body true)))
      /\ (exists n, total w s = (s, Return (total_body n)))).
Proof.
  unfold visit, total, redis_incr, redis_get, pg_statement, bump_site_counter,
    select_total, cache_miss.
  destruct (r s) as [c|] eqn:Er; destruct (pg s) as [p|] eqn:Ep;
    destruct (redis_fault w) eqn:Erf; destruct (pg_fault w) eqn:Epf;
    run; exec;
    repeat match goal with
           | |- _ /\ _ => split
           | |- _ -> _ => intro
           | H : is_Some None |- _ => destruct H; discriminate
           | H : _ \/ _ |- _ => destruct H
           | H : _ /\ _ |- _ => destruct H
           | H : Some _ = None |- _ => discriminate H
           | H : true = false |- _ => discriminate H
           | H : false = true |- _ => discriminate H
           end;
    exec; rewrite ?set_store_id; try reflexivity; eauto.
  all: destruct (cache s !! "visits:total") eqn:Ek; exec;
    try destruct (site_counters (store s) !! 1) eqn:Es; exec;
    rewrite ?set_store_id; eauto.
Qed.

(** *** bcrypt *)

Lemma bytes_eqb_eq (a b : list byte) : bytes_eqb a b = true <-> a = b.
Proof.
  revert b. induction a as [|x a IH]; intros [|y b]; cbn; try (split; congruence).
  rewrite andb_true_iff, IH. split.
  - intros [Hxy ->]. apply Byte.byte_dec_bl in Hxy. congruence.
  - intros H. injection H as -> ->. split; [apply Byte.byte_dec_lb|]; reflexivity.
Qed.

Lemma hashpw_returns (p salt : list byte) :
  (length p <= 72)%nat -> bcrypt_salt_ok (firstn 29 salt) = true ->
  hashpw bcrypt_digest bcrypt_salt_ok p salt
  = Return (firstn 29 salt ++ bcrypt_digest (firstn 29 salt) p)%list.
Proof.
  intros Hl Hs. unfold hashpw.
  destruct (72 <? length p)%nat eqn:E; [apply Nat.ltb_lt in E; lia|].
  rewrite Hs. reflexivity.
Qed.

Lemma hashpw_long (p salt : list byte) :
  (72 < length p)%nat -> hashpw bcrypt_digest bcrypt_salt_ok p salt = Raise ValueError.
Proof. intros H. unfold hashpw. apply Nat.ltb_lt in H. rewrite H. reflexivity. Qed.

Lemma firstn_salt (salt x : list byte) :
  length salt = 29%nat -> firstn 29 (salt ++ x)%list = salt.
Proof.
  intros Hlen. rewrite firstn_app, (firstn_all2 salt) by lia.
  replace (29 - length salt)%nat with 0%nat by lia.
  cbn. apply app_nil_r.
Qed.

(** ValueError is all bcrypt raises. *)
Lemma hashpw_outcome (p salt : list byte) :
  (exists h, hashpw bcrypt_digest bcrypt_salt_ok p salt = Return h)
  \/ hashpw bcrypt_digest bcrypt_salt_ok p salt = Raise ValueError.
Proof.
  unfold hashpw. destruct (72 <? length p)%nat; [auto|].
  destruct (bcrypt_salt_ok _); eauto.
Qed.

Lemma checkpw_outcome (p hashed : list byte) :
  (exists b, checkpw bcrypt_digest bcrypt_salt_ok p hashed = Return b)
  \/ checkpw bcrypt_digest bcrypt_salt_ok p hashed = Raise ValueError.
Proof.
  unfold checkpw. destruct (hashpw_outcome p hashed) as [[h ->]| ->]; eauto.
Qed.

(** The password that was hashed checks against its hash. *)
Lemma checkpw_same (p salt : list byte) :
  length salt = 29%nat -> (length p <= 72)%nat -> bcrypt_salt_ok salt = true ->
  checkpw bcrypt_digest bcrypt_salt_ok p (salt ++ bcrypt_digest salt p)%list = Return true.
Proof.
  intros Hlen Hl Hs. unfold checkpw.
  rewrite hashpw_returns; rewrite ?firstn_salt by exact Hlen; try assumption.
  f_equal. apply bytes_eqb_eq. reflexivity.
Qed.

(** A password bcrypt takes and digests to something else does not. *)
Lemma checkpw_other (p p' salt : list byte) :
  length salt = 29%nat -> (length p' <= 72)%nat -> bcrypt_salt_ok salt = true ->
  bcrypt_digest salt p' <> bcrypt_digest salt p ->
  checkpw bcrypt_digest bcrypt_salt_ok p' (salt ++ bcrypt_digest salt p)%list = Return false.
Proof.
  intros Hlen Hl Hs Hne. unfold checkpw.
  rewrite hashpw_returns; rewrite ?firstn_salt by exact Hlen; try assumption.
  f_equal. apply not_true_is_false. intros H. apply bytes_eqb_eq in H.
  apply app_inv_head in H. contradiction.
Qed.

(** A password of more than 72 bytes is refused, whatever the hash. *)
Lemma checkpw_long (p hashed : list byte) :
  (72 < length p)%nat ->
  checkpw bcrypt_digest bcrypt_salt_ok p hashed = Raise ValueError.
Proof. intros H. unfold checkpw. rewrite (hashpw_long p hashed H). reflexivity. Qed.

(** *** Registration and login *)

Lemma find_app_fresh {A} (f : A -> bool) (l : list A) (x : A) :
  existsb f l = false -> f x = true -> find f (l ++ [x])%list = Some x.
Proof.
  induction l as [|y l IH]; cbn; intros He Hx.
  - rewrite Hx. reflexivity.
  - apply orb_false_elim in He as [Hy He]. rewrite Hy. apply IH; assumption.
Qed.

Lemma register_available w s e pw hb h :
  is_Some (pg s) -> pg_fault w = false ->
  hashpw bcrypt_digest bcrypt_salt_ok (Utf8.encode pw) (gensalt w) = Return hb ->
  Utf8.decode hb = Some h ->
  email_taken e (store s) = false ->
  register w {| email := e; password := pw |} s =
    (set_store
       (with_user {| u_id := users_id_seq (store s) + 1;
                     u_email := Text.sql_lower (lc_ctype (store s)) e;
                     u_password_hash := h; u_created_at := db_now w |} (store s)) s,
     Return (ok_body true)).
Proof.
  intros Hp Hf Hh Hd Ht. open_register. run.
  rewrite (require_pg_available w s Hp). cbn. rewrite Hh. cbn. rewrite Hd.
  rewrite pg_statement_ok by exact Hf. unfold insert_user.
  unfold email_taken in Ht. rewrite Ht. reflexivity.
Qed.

(** A password bcrypt refuses ends the registration before the INSERT. *)
Lemma register_refused w s body x :
  is_Some (pg s) ->
  hashpw bcrypt_digest bcrypt_salt_ok (Utf8.encode (password body)) (gensalt w) = Raise x ->
  register w body s = (s, Raise x).
Proof.
  intros Hp Hh. open_register. run.
  rewrite (require_pg_available w s Hp). cbn. rewrite Hh. reflexivity.
Qed.

(** What login answers once require_pg has let it through. *)
Lemma login_available w s body resp :
  is_Some (pg s) -> pg_fault w = false ->
  login w body resp s =
    (s, match stored_user (email body) (store s) with
        | None => Return (resp, ok_body false)
        | Some u =>
            match checkpw bcrypt_digest bcrypt_salt_ok (Utf8.encode (password body))
                    (Utf8.encode (u_password_hash u)) with
            | Raise x => Raise x
            | Return false => Return (resp, ok_body false)
            | Return true =>
                if hmac_key_ok jwt_asymmetric (JWT_SECRET s)
                then Return ((resp ++ [session_cookie (jwt_encode (u_id u) (JWT_SECRET s))
                                         (SECURE_COOKIES s)])%list,
                             ok_body true)
                else Raise InvalidKeyError
            end
        end).
Proof.
  intros Hp Hf. open_login. run.
  rewrite (require_pg_available w s Hp). cbn.
  rewrite pg_statement_ok by exact Hf. unfold select_user, stored_user. cbn.
  rewrite set_store_id.
  destruct (find _ (users (store s))) as [u|]; cbn; [|reflexivity].
  destruct (checkpw _ _ _ _) as [[|]|x]; cbn; try reflexivity.
  destruct (hmac_key_ok _ _); reflexivity.
Qed.

Lemma login_after_require w s s1 body resp :
  require_pg w s = (s1, Return tt) ->
  login w body resp s = login w body resp s1.
Proof.
  intros H. open_login. run. rewrite H.
  pose proof (require_pg_returns w s s1 H) as Hs1.
  rewrite (require_pg_available w s1 Hs1). reflexivity.
Qed.

Lemma stored_user_fresh (e e' : string) (u : UserRow) (d : Database) :
  email_taken e d = false ->
  Text.sql_lower (lc_ctype d) e' = Text.sql_lower (lc_ctype d) e ->
  u_email u = Text.sql_lower (lc_ctype d) e ->
  stored_user e' (with_user u d) = Some u.
Proof.
  intros Ht Hv Hu. unfold stored_user, email_taken in *. cbn.
  rewrite Hv. apply find_app_fresh; [exact Ht|]. rewrite Hu. apply String.eqb_refl.
Qed.



Lemma login_after_refusal w s s1 e body resp :
  require_pg w s = (s1, Raise e) -> login w body resp s = (s1, Raise e).
Proof. intros H. open_login. run. rewrite H. reflexivity. Qed.

Lemma register_after_require w s s1 body :
  require_pg w s = (s1, Return tt) -> register w body s = register w body s1.
Proof.
  intros H. open_register. run. rewrite H.
  rewrite (require_pg_available w s1 (require_pg_returns w s s1 H)). reflexivity.
Qed.

Lemma register_after_refusal w s s1 e body :
  require_pg w s = (s1, Raise e) -> register w body s = (s1, Raise e).
Proof. intros H. open_register. run. rewrite H. reflexivity. Qed.

Lemma login_fault w s body resp :
  is_Some (pg s) -> pg_fault w = true ->
  login w body resp s = (s, Raise DatabaseError).
Proof.
  intros Hp Hf. open_login. run.
  rewrite (require_pg_available w s Hp). cbn.
  rewrite pg_statement_fault by exact Hf. reflexivity.
Qed.

(** On an open connection login changes nothing, and what it returns is
    one of the two answers. *)
Lemma login_on_connection w s body resp :
  is_Some (pg s) ->
  fst (login w body resp s) = s
  /\ (forall resp' j, snd (login w body resp s) = Return (resp', j) ->
        (j = ok_body false /\ resp' = resp)
        \/ (j = ok_body true /\
            exists uid, resp' = (resp ++ [session_cookie (jwt_encode uid (JWT_SECRET s))
                                            (SECURE_COOKIES s)])%list)).
Proof.
  intros Hp. destruct (pg_fault w) eqn:Hf.
  - rewrite (login_fault w s body resp Hp Hf). split; [reflexivity|]. discriminate.
  - rewrite (login_available w s body resp Hp Hf). split; [reflexivity|].
    cbn. intros resp' j.
    destruct (stored_user _ _) as [u|];
      [destruct (checkpw _ _ _ _) as [[|]|x];
       [destruct (hmac_key_ok _ _)| |]|];
      intros H; try discriminate H; injection H as <- <-; eauto.
Qed.

Lemma ensure_schema_keeps now d i row :
  site_counters d !! i = Some row ->
  site_counters (ensure_schema now d) !! i = Some row.
Proof.
  intros H. unfold ensure_schema. cbn.
  destruct (site_counters d !! 1) eqn:E; [exact H|].
  rewrite lookup_insert_ne; [exact H|]. intros <-. congruence.
Qed.

(** C9 (amended): login sets the access_token cookie on the success path
    only, and never writes the users table, the cache, the in-process
    counter, the cache flag or an existing SiteCounter row.  With the store
    connection open at call time it changes no state at all; without it,
    what changes is what the on-demand reconnect of require_pg changes. *)
Theorem login_frame (w : World) (s : State) (body : Credentials) (resp : Response) :
  let s' := fst (login w body resp s) in
  (users (store s') = users (store s)
   /\ users_id_seq (store s') = users_id_seq (store s)
   /\ cache s' = cache s /\ memory_counters s' = memory_counters s /\ r s' = r s
   /\ (forall i row, site_counters (store s) !! i = Some row ->
         site_counters (store s') !! i = Some row))
  /\ (is_Some (pg s) -> s' = s)
  /\ (pg s = None -> s' = fst (require_pg w s))
  /\ (forall resp' j, snd (login w body resp s) = Return (resp', j) ->
        (j = ok_body false /\ resp' = resp)
        \/ (j = ok_body true /\
            exists uid, resp' = (resp ++ [session_cookie (jwt_encode uid (JWT_SECRET s))
                                            (SECURE_COOKIES s)])%list)).
Proof.
  cbn zeta. destruct (pg s) as [c|] eqn:Ep.
  - assert (Hp : is_Some (pg s)) by (rewrite Ep; eauto).
    destruct (login_on_connection w s body resp Hp) as [Hs Hj].
    rewrite Hs. repeat split; try reflexivity; try discriminate; try exact Hj.
    intros i row H. exact H.
  - destruct (truthy (PG_DSN s)) eqn:Ed.
    + destruct (PG_DSN s) as [d|] eqn:Edsn; [|discriminate]. cbn in Ed.
      destruct (pg_accepts w d) eqn:Ea.
      * pose proof (require_pg_accepted w s d Ep Edsn Ed Ea) as Hreq.
        rewrite (login_after_require w s _ body resp Hreq), Hreq.
        assert (Hp : is_Some (pg (connected w d s))) by (cbn; eauto).
        destruct (login_on_connection w (connected w d s) body resp Hp) as [Hs Hj].
        rewrite Hs. repeat split; try reflexivity; try exact Hj.
        -- intros i row H. cbn. apply ensure_schema_keeps. exact H.
        -- intros [? ?]; discriminate.
      * pose proof (require_pg_refused w s d Ep Edsn Ed Ea) as Hreq.
        rewrite (login_after_refusal w s _ _ body resp Hreq), Hreq.
        repeat split; try reflexivity; try discriminate; try (intros [? ?]; discriminate).
        intros i row H. exact H.
    + pose proof (require_pg_unset w s Ep Ed) as Hreq.
      rewrite (login_after_refusal w s _ _ body resp Hreq), Hreq.
      repeat split; try reflexivity; try discriminate; try (intros [? ?]; discriminate).
      intros i row H. exact H.
Qed.

Lemma register_on_connection w s body :
  is_Some (pg s) ->
  trace (fst (register w body s)) = trace s
  /\ pg (fst (register w body s)) = pg s
  /\ is_http_error (snd (register w body s)) = false.
Proof.
  intros Hp. open_register. run.
  rewrite (require_pg_available w s Hp). cbn.
  destruct (hashpw_outcome (Utf8.encode (password body)) (gensalt w)) as [[hb ->]| ->];
    cbn; [|auto].
  destruct (Utf8.decode _) as [h|]; cbn; [|auto].
  unfold pg_statement. destruct (pg_fault w); cbn; [auto|].
  unfold insert_user. destruct (existsb _ _); cbn; auto.
Qed.

(** C5 (amended): with the store flag unset, register and login call the
    reconnect once.  Without a connection string from import time nothing
    is dialled and the answer is the 503 with its message, whatever the
    process environment holds by now; with one, exactly one connection is
    attempted with it: if it is refused the answer is the same 503, and if
    it is accepted the flag is set and the call goes on exactly as it would
    on an open connection, without answering 503. *)
Theorem auth_reconnects_when_unavailable
    (w : World) (s : State) (body : Credentials) (resp : Response) :
  pg s = None ->
  (truthy (PG_DSN s) = false ->
     register w body s = (s, Raise unavailable_503)
     /\ login w body resp s = (s, Raise unavailable_503))
  /\ (forall d, PG_DSN s = Some d -> Text.nonempty d = true ->
      (pg_accepts w d = false ->
         register w body s = (refused d s, Raise unavailable_503)
         /\ login w body resp s = (refused d s, Raise unavailable_503)
         /\ pg_connects (trace (refused d s)) = S (pg_connects (trace s)))
      /\ (pg_accepts w d = true ->
         register w body s = register w body (connected w d s)
         /\ login w body resp s = login w body resp (connected w d s)
         /\ is_Some (pg (fst (register w body s)))
         /\ is_Some (pg (fst (login w body resp s)))
         /\ pg_connects (trace (fst (register w body s))) = S (pg_connects (trace s))
         /\ pg_connects (trace (fst (login w body resp s))) = S (pg_connects (trace s))
         /\ is_http_error (snd (register w body s)) = false
         /\ is_http_error (snd (login w body resp s)) = false)).
Proof.
  intros Hp. split.
  - intros Hd. pose proof (require_pg_unset w s Hp Hd) as Hreq. split.
    + exact (register_after_refusal w s _ _ body Hreq).
    + exact (login_after_refusal w s _ _ body resp Hreq).
  - intros d Hd Hn. split; intros Ha.
    + pose proof (require_pg_refused w s d Hp Hd Hn Ha) as Hreq.
      repeat split.
      * exact (register_after_refusal w s _ _ body Hreq).
      * exact (login_after_refusal w s _ _ body resp Hreq).
    + pose proof (require_pg_accepted w s d Hp Hd Hn Ha) as Hreq.
      assert (Hc : is_Some (pg (connected w d s))) by (cbn; eauto).
      rewrite (register_after_require w s _ body Hreq).
      rewrite (login_after_require w s _ body resp Hreq).
      destruct (register_on_connection w (connected w d s) body Hc) as (Ht & Hpg & Hr).
      destruct (login_on_connection w (connected w d s) body resp Hc) as [Hs Hj].
      rewrite Ht, Hpg, Hs, Hr. repeat split; try exact Hc.
      destruct (snd (login w body resp (connected w d s))) as [a|x] eqn:El;
        [reflexivity|].
      destruct (pg_fault w) eqn:Hf.
      * rewrite (login_fault w _ body resp Hc Hf) in El. cbn in El.
        injection El as <-. reflexivity.
      * rewrite (login_available w _ body resp Hc Hf) in El. cbn [snd] in El.
        destruct (stored_user _ _) as [u|]; [|discriminate El].
        destruct (checkpw_outcome (Utf8.encode (password body))
                    (Utf8.encode (u_password_hash u))) as [[b Hb]|Hb];
          rewrite Hb in El.
        -- destruct b; [|discriminate El].
           destruct (hmac_key_ok _ _); [discriminate El|].
           injection El as <-. reflexivity.
        -- injection El as <-. reflexivity.
Qed.

(** *** The connection string *)

Lemma try_connect_pg_dials w s :
  exists s1 o, try_connect_pg w s = (s1, Return o)
    /\ PG_DSN s1 = PG_DSN s /\ REDIS_URL s1 = REDIS_URL s
    /\ dialled (trace s1) =
         ((if truthy (PG_DSN s) then [default EmptyString (PG_DSN s)] else [])
            ++ dialled (trace s))%list.
Proof.
  destruct (truthy (PG_DSN s)) eqn:Ed.
  - destruct (PG_DSN s) as [d|] eqn:E; [|discriminate]. cbn in Ed.
    destruct (pg_accepts w d) eqn:Ea.
    + rewrite (try_connect_pg_accepted w s d E Ed Ea). eauto 10.
    + rewrite (try_connect_pg_refused w s d E Ed Ea). eauto 10.
  - rewrite (try_connect_pg_unset w s Ed). eauto 10.
Qed.

Lemma try_connect_redis_dials w s :
  exists s1 o, try_connect_redis w s = (s1, Return o)
    /\ PG_DSN s1 = PG_DSN s /\ dialled (trace s1) = dialled (trace s).
Proof.
  unfold try_connect_redis. run.
  destruct (truthy (REDIS_URL s)); cbn; [|eauto 10].
  destruct (redis_accepts w _); cbn; eauto 10.
Qed.

Lemma startup_dials w db0 cache0 :
  let s := startup w db0 cache0 in
  PG_DSN s = azure_sslmode (getenv w "PG_DSN")
  /\ dialled (trace s) =
       if truthy (azure_sslmode (getenv w "PG_DSN"))
       then [default EmptyString (azure_sslmode (getenv w "PG_DSN"))] else [].
Proof.
  cbn zeta. unfold startup.
  match goal with |- context [fst (_ ?s0)] => set (s0' := s0) end.
  destruct (try_connect_pg_dials w s0') as (s1 & o & E1 & Hd1 & _ & Ht1).
  destruct (try_connect_redis_dials w s1) as (s2 & o2 & E2 & Hd2 & Ht2).
  run. rewrite E1, E2. cbn. rewrite Hd2, Hd1, Ht2, Ht1. cbn.
  split; [reflexivity|]. rewrite app_nil_r. reflexivity.
Qed.

Lemma nonempty_append a b : Text.nonempty b = true -> Text.nonempty (a ++ b) = true.
Proof. intros H. destruct a; [exact H|reflexivity]. Qed.

(** C8: a configured connection string that names the Azure endpoint and
    has no sslmode parameter is replaced, at import time, by itself without
    surrounding white space followed by " sslmode=require"; any other
    configured string is kept as it is.  The string so obtained is the one
    the process dials, at import time and at every later reconnect. *)
Theorem azure_dsn_gets_sslmode
    (w : World) (db0 : Database) (cache0 : gmap string Z) (d : string) :
  getenv w "PG_DSN" = Some d -> Text.nonempty d = true ->
  let s := startup w db0 cache0 in
  exists d',
    PG_DSN s = Some d'
    /\ (occurs_in "postgres.database.azure.com" d -> ~ occurs_in "sslmode=" d ->
        stripped_of d (Text.strip d)
        /\ d' = (Text.strip d ++ " sslmode=require")%string)
    /\ (~ (occurs_in "postgres.database.azure.com" d /\ ~ occurs_in "sslmode=" d) ->
        d' = d)
    /\ dialled (trace s) = [d']
    /\ (forall w' s', PG_DSN s' = PG_DSN s ->
          dialled (trace (fst (try_connect_pg w' s'))) = d' :: dialled (trace s')).
Proof.
  intros Hg Hn. cbn zeta.
  destruct (startup_dials w db0 cache0) as [Hdsn Htr]. rewrite Hg in Hdsn, Htr.
  unfold azure_sslmode in Hdsn, Htr. rewrite Hn in Hdsn, Htr. cbn [andb] in Hdsn, Htr.
  destruct (Text.contains "postgres.database.azure.com" d) eqn:Ea;
    destruct (Text.contains "sslmode=" d) eqn:Es; cbn in Hdsn, Htr.
  all: try (rewrite Hn in Htr).
  all: try (rewrite nonempty_append in Htr by reflexivity).
  all: eexists; split; [exact Hdsn|]; split; [|split; [|split; [exact Htr|]]].
  all: try (intros w' s' Hs';
            destruct (try_connect_pg_dials w' s') as (s1 & o & E1 & _ & _ & Ht1);
            rewrite E1; cbn [fst]; rewrite Ht1, Hs', Hdsn; cbn;
            rewrite ?Hn, ?nonempty_append by reflexivity; reflexivity).
  - intros _ Hno. exfalso. apply Hno. apply contains_spec. exact Es.
  - reflexivity.
  - intros _ _. split; [apply strip_spec|reflexivity].
  - intros Hc. exfalso. apply Hc. split.
    + apply contains_spec. exact Ea.
    + intros Hx. apply contains_spec in Hx. congruence.
  - intros Hyes. apply contains_spec in Hyes. congruence.
  - reflexivity.
  - intros Hyes. apply contains_spec in Hyes. congruence.
  - reflexivity.
Qed.

(** *** The time endpoint *)

Lemma now_iso_ready w k tz s :
  zone_ready w k tz ->
  exists iso, now_iso w k tz s = (s, Return iso) /\ rendered w k tz iso.
Proof.
  intros (off & Hz & Hu & Ho & Hl & Hm). unfold now_iso. rewrite Hz.
  destruct (Time.localize (clock w k) (off (Time.epoch (clock w k)))) as [d|] eqn:E.
  - exists (Time.isoformat d). split; [reflexivity|].
    destruct (localize_in_range _ _ _ E Hm) as (Hr & Hmu & Hoff & Hob).
    destruct (localize_timestamp _ _ _ E) as (Hts & Hus & _).
    exists off, d. split; [exact Hz|]. split; [exact E|]. split; [reflexivity|].
    split; [exact (fromisoformat_isoformat d Hr Hmu Hob)|].
    split; [exact Hoff|]. split; [exact Hts|]. split; [exact Hus|exact Hr].
  - exfalso. unfold Time.localize in E.
    destruct (_ && _) eqn:C; [destruct (Time.civil_from_days _) as [[? ?] ?]; discriminate|].
    assert (C' : ((Time.MIN_LOCAL <=? Time.epoch (clock w k))
                  && (Time.epoch (clock w k) <=? Time.MAX_LOCAL)
                  && (-86400 <? off (Time.epoch (clock w k)))
                  && (off (Time.epoch (clock w k)) <? 86400)
                  && (Time.MIN_LOCAL <=? Time.epoch (clock w k) + off (Time.epoch (clock w k)))
                  && (Time.epoch (clock w k) + off (Time.epoch (clock w k)) <=? Time.MAX_LOCAL))
                 = true).
    { repeat (apply andb_true_intro; split);
        first [apply Z.ltb_lt | apply Z.leb_le]; lia. }
    congruence.
Qed.


End Properties.

(* ===================================================================== *)
(** ** The statements at sample inputs *)
(* ===================================================================== *)

Lemma healthz_pure_read_witness :
  let w := Sample.world ∅ true false false in
  let s := Sample.state None None (Some "host=db dbname=appdb") Sample.empty_db ∅ in
  pg_accepts w "host=db dbname=appdb" = true
  /\ healthz s =
       (s, Return (JObj [("ok", JBool true); ("pg", JBool false); ("redis", JBool false)]))
  /\ is_Some (pg (fst (require_pg w s))).
Proof.
  cbn zeta. split; [reflexivity|].
  apply (proj2 (healthz_pure_read
                  (Sample.world ∅ true false false)
                  (Sample.state None None (Some "host=db dbname=appdb") Sample.empty_db ∅))
               "host=db dbname=appdb"); reflexivity.
Defined.

Lemma total_first_available_source_witness :
  let w := Sample.world ∅ true false false in
  total w (Sample.state (Some Sample.conn) (Some Sample.client) None Sample.db7
             {[ "visits:total" := 12 ]})
    = (Sample.state (Some Sample.conn) (Some Sample.client) None Sample.db7
         {[ "visits:total" := 12 ]}, Return (total_body 12))
  /\ total w (Sample.state (Some Sample.conn) (Some Sample.client) None Sample.db7 ∅)
    = (Sample.state (Some Sample.conn) (Some Sample.client) None Sample.db7 ∅,
       Return (total_body 7))
  /\ total w (Sample.state None None None Sample.db7 ∅)
    = (Sample.state None None None Sample.db7 ∅, Return (total_body 3)).
Proof.
  cbn zeta. split; [|split].
  - apply (proj1 (total_first_available_source _ _)); [cbn; eauto|reflexivity|reflexivity].
  - apply (proj1 (proj2 (total_first_available_source _ _))
             {| c_total := 7; c_updated_at := 1793000000 |});
      [right; split; reflexivity|cbn; eauto|reflexivity|reflexivity].
  - apply (proj2 (proj2 (total_first_available_source
                           (Sample.world ∅ true false false)
                           (Sample.state None None None Sample.db7 ∅))));
      left; reflexivity.
Defined.

Lemma visit_increments_witness :
  let w := Sample.world ∅ true false false in
  let s := Sample.state (Some Sample.conn) (Some Sample.client) None Sample.db7
             {[ "visits:total" := 12 ]} in
  exists s', visit w s = (s', Return (ok_body true))
    /\ cache s' !! "visits:total" = Some 13
    /\ memory_counters s' = 3
    /\ site_counters (store s') !! 1 = Some {| c_total := 8; c_updated_at := 1793730123 |}.
Proof.
  cbn zeta.
  destruct (visit_increments
              (Sample.world ∅ true false false)
              (Sample.state (Some Sample.conn) (Some Sample.client) None Sample.db7
                 {[ "visits:total" := 12 ]}))
    as (s' & Hv & _ & _ & Hc & _ & Hs & _); [reflexivity|reflexivity|].
  exists s'. split; [exact Hv|].
  destruct Hc as (Hc1 & _ & Hc3); [cbn; eauto|].
  destruct Hs as (Hs1 & _); [cbn; eauto|].
  split; [exact Hc1|]. split; [exact Hc3|exact Hs1].
Defined.

(** C4 as claimed fails: with the cache client in place and its command
    raising, the visit ends in the error, the flag is still set and nothing
    has been logged or counted. *)
Lemma counter_fault_surfaces_counterexample :
  let w := Sample.world ∅ true false true in
  let s := Sample.state None (Some Sample.client) None Sample.empty_db
             {[ "visits:total" := 12 ]} in
  redis_fault w = true
  /\ visit w s = (s, Raise RedisError)
  /\ total w s = (s, Raise RedisError)
  /\ r (fst (visit w s)) = Some Sample.client
  /\ trace (fst (visit w s)) = []
  /\ ~ (exists s' body, visit w s = (s', Return body) /\ r s' = None).
Proof.
  cbn zeta. repeat split; try reflexivity.
  intros (s' & body & H & _). discriminate H.
Qed.

Lemma counter_faults_propagate_witness :
  let w := Sample.world ∅ true true false in
  let s := Sample.state (Some Sample.conn) (Some Sample.client) None Sample.db7 ∅ in
  snd (visit w s) = Raise DatabaseError
  /\ store (fst (visit w s)) = store s
  /\ total w s = (s, Raise DatabaseError)
  /\ pg (fst (visit w s)) = Some Sample.conn.
Proof.
  cbn zeta.
  pose proof (counter_faults_propagate
                (Sample.world ∅ true true false)
                (Sample.state (Some Sample.conn) (Some Sample.client) None Sample.db7 ∅))
    as (_ & Hpg & (Hflag & _) & _).
  destruct Hpg as (H1 & H2 & H3); [cbn; eauto|reflexivity|right; reflexivity|].
  split; [exact H1|]. split; [exact H2|]. split; [|exact Hflag].
  apply H3. right. split; reflexivity.
Defined.

(** C5 as claimed fails: PG_DSN is read at import time only.  A process
    started without it answers 503 to both auth endpoints, without dialling,
    after the variable has been set to a string the server accepts; a process
    started with it is connected. *)
Lemma dsn_set_after_import_counterexample :
  let w0 := Sample.world ∅ true false false in
  let w1 := Sample.world {[ "PG_DSN" := "host=db dbname=appdb" ]} true false false in
  let s0 := startup w0 Sample.empty_db ∅ in
  let body := {| email := "a@x.com"; password := "secret" |} in
  getenv w0 "PG_DSN" = None
  /\ getenv w1 "PG_DSN" = Some "host=db dbname=appdb"
  /\ pg_accepts w1 "host=db dbname=appdb" = true
  /\ register Sample.digest Sample.salt_ok w1 body s0 = (s0, Raise unavailable_503)
  /\ login Sample.digest Sample.token Sample.salt_ok Sample.asymmetric w1 body [] s0 = (s0, Raise unavailable_503)
  /\ pg_connects (trace (fst (register Sample.digest Sample.salt_ok w1 body s0))) = 0%nat
  /\ available (pg (startup w1 Sample.empty_db ∅)) = true.
Proof.
  cbn zeta. repeat split; reflexivity.
Qed.

Lemma auth_reconnects_when_unavailable_witness :
  let w := Sample.world ∅ true false false in
  let s := Sample.state None None (Some "host=db dbname=appdb") Sample.empty_db ∅ in
  let body := {| email := "a@x.com"; password := "secret" |} in
  pg s = None
  /\ register Sample.digest Sample.salt_ok w body s = register Sample.digest Sample.salt_ok w body (connected w "host=db dbname=appdb" s)
  /\ pg_connects (trace (fst (register Sample.digest Sample.salt_ok w body s))) = 1%nat
  /\ is_http_error (snd (login Sample.digest Sample.token Sample.salt_ok Sample.asymmetric w body [] s)) = false.
Proof.
  cbn zeta. split; [reflexivity|].
  pose proof (auth_reconnects_when_unavailable Sample.digest Sample.token Sample.salt_ok Sample.asymmetric
                (Sample.world ∅ true false false)
                (Sample.state None None (Some "host=db dbname=appdb") Sample.empty_db ∅)
                {| email := "a@x.com"; password := "secret" |} [] eq_refl)
    as (_ & H).
  destruct (H "host=db dbname=appdb" eq_refl eq_refl) as (_ & Ha).
  destruct (Ha eq_refl) as (H1 & _ & _ & _ & H5 & _ & _ & H8).
  split; [exact H1|]. split; [exact H5|exact H8].
Defined.




Lemma sample_zone_ready (k : nat) (tz : string) (off : Z) :
  Sample.tzdb tz = Some (fun _ => off) ->
  (k < 4)%nat -> -86400 < off < 86400 ->
  zone_ready (Sample.world ∅ true false false) k tz.
Proof.
  intros Hz Hk Ho. exists (fun _ => off). split; [exact Hz|].
  cbn. unfold Time.MIN_LOCAL, Time.MAX_LOCAL. lia.
Defined.


Lemma azure_dsn_gets_sslmode_witness :
  let d := "  host=srv.postgres.database.azure.com dbname=appdb " in
  let w := Sample.world {[ "PG_DSN" := d ]} true false false in
  let s := startup w Sample.empty_db ∅ in
  exists d',
    PG_DSN s = Some d'
    /\ (occurs_in "postgres.database.azure.com" d -> ~ occurs_in "sslmode=" d ->
        stripped_of d (Text.strip d)
        /\ d' = (Text.strip d ++ " sslmode=require")%string)
    /\ (~ (occurs_in "postgres.database.azure.com" d /\ ~ occurs_in "sslmode=" d) ->
        d' = d)
    /\ dialled (trace s) = [d']
    /\ (forall w' s', PG_DSN s' = PG_DSN s ->
          dialled (trace (fst (try_connect_pg w' s'))) = d' :: dialled (trace s')).
Proof.
  cbn zeta.
  apply (azure_dsn_gets_sslmode
           (Sample.world {[ "PG_DSN" := "  host=srv.postgres.database.azure.com dbname=appdb " ]}
              true false false)
           Sample.empty_db ∅
           "  host=srv.postgres.database.azure.com dbname=appdb "); reflexivity.
Defined.

(** C9 as claimed fails: a login that answers ok: false and sets no cookie
    has, through the reconnect, set the store flag, logged, and inserted the
    missing SiteCounter row. *)
Lemma login_reconnect_writes_counterexample :
  let w := Sample.world ∅ true false false in
  let s := Sample.state None None (Some "host=db dbname=appdb") Sample.empty_db ∅ in
  let out := login Sample.digest Sample.token Sample.salt_ok Sample.asymmetric w
               {| email := "nobody@x.com"; password := "secret" |} [] s in
  snd out = Return ([], ok_body false)
  /\ pg s = None
  /\ pg (fst out) = Some Sample.conn
  /\ site_counters (store s) !! 1 = None
  /\ site_counters (store (fst out)) !! 1 = Some {| c_total := 0; c_updated_at := 1793730123 |}
  /\ trace (fst out) <> trace s.
Proof.
  cbn zeta. repeat split; try reflexivity. discriminate.
Qed.

Lemma login_frame_witness :
  let w := Sample.world ∅ true false false in
  let s := Sample.state (Some Sample.conn) None None Sample.db1 ∅ in
  let out := login Sample.digest Sample.token Sample.salt_ok Sample.asymmetric w
               {| email := "a@x.com"; password := "guess" |} [] s in
  fst out = s /\ users (store (fst out)) = users Sample.db1.
Proof.
  cbn zeta.
  pose proof (login_frame Sample.digest Sample.token Sample.salt_ok Sample.asymmetric
                (Sample.world ∅ true false false)
                (Sample.state (Some Sample.conn) None None Sample.db1 ∅)
                {| email := "a@x.com"; password := "guess" |} [])
    as ((Hu & _) & Hs & _).
  split; [apply Hs; cbn; eauto|exact Hu].
Defined.



(* ===================================================================== *)
(** ** Runs of the process *)
(* ===================================================================== *)

Ltac open_serve := unfold serve.

Section Runs.

Variable bcrypt_digest : list byte -> list byte -> list byte.
Variable jwt_encode : Z -> string -> string.
Variable bcrypt_salt_ok : list byte -> bool.
Variable jwt_asymmetric : string -> bool.

Local Abbreviation serve := (serve bcrypt_digest jwt_encode bcrypt_salt_ok jwt_asymmetric).
Local Abbreviation serve_all := (serve_all bcrypt_digest jwt_encode bcrypt_salt_ok jwt_asymmetric).

(** *** Every request is a sequence of elementary changes *)

Lemma time_entries_state w cs : forall k s, fst (time_entries w k cs s) = s.
Proof.
  induction cs as [|[label tz] cs IH]; intros k s; [reflexivity|].
  cbn [time_entries]. run. unfold now_iso.
  destruct (zoneinfo w tz) as [off|]; [|reflexivity].
  destruct (Time.localize _ _) as [d|]; [|reflexivity].
  cbn. specialize (IH (S k) s).
  destruct (time_entries w (S k) cs s) as [s1 [l|e]]; cbn in *; exact IH.
Qed.

Lemma fst_bind {A B} (m : M A) (f : A -> M B) (s : State) :
  fst ((m ≫= f) s) =
  match m s with
  | (s', Return a) => fst (f a s')
  | (s', Raise _) => s'
  end.
Proof.
  unfold mbind, M_bind. destruct (m s) as [s' [a|e]]; reflexivity.
Qed.

Lemma time_now_state w s : fst (time_now w s) = s.
Proof.
  unfold time_now. rewrite fst_bind.
  pose proof (time_entries_state w cities 0%nat s) as H.
  destruct (time_entries w 0 cities s) as [s1 [l|e]]; exact H.
Qed.

Lemma require_pg_changes w s :
  rtc change s (fst (require_pg w s)).
Proof.
  destruct (pg s) as [c|] eqn:Ep.
  - rewrite require_pg_available by (rewrite Ep; eauto). apply rtc_refl.
  - destruct (truthy (PG_DSN s)) eqn:Ed.
    + destruct (PG_DSN s) as [d|] eqn:Edsn; [|discriminate]. cbn in Ed.
      destruct (pg_accepts w d) eqn:Ea.
      * rewrite (require_pg_accepted w s d Ep Edsn Ed Ea).
        apply rtc_once. apply change_connected; assumption.
      * rewrite (require_pg_refused w s d Ep Edsn Ed Ea).
        apply rtc_once. apply change_refused; assumption.
    + rewrite (require_pg_unset w s Ep Ed). apply rtc_refl.
Qed.

Lemma require_pg_outcome w s :
  (exists s1, require_pg w s = (s1, Return tt) /\ is_Some (pg s1))
  \/ (exists s1, require_pg w s = (s1, Raise unavailable_503) /\ pg s1 = None).
Proof.
  destruct (pg s) as [c|] eqn:Ep.
  - left. exists s. rewrite require_pg_available by (rewrite Ep; eauto).
    rewrite Ep. eauto.
  - destruct (truthy (PG_DSN s)) eqn:Ed.
    + destruct (PG_DSN s) as [d|] eqn:Edsn; [|discriminate]. cbn in Ed.
      destruct (pg_accepts w d) eqn:Ea.
      * left. rewrite (require_pg_accepted w s d Ep Edsn Ed Ea).
        eexists. split; [reflexivity|cbn; eauto].
      * right. rewrite (require_pg_refused w s d Ep Edsn Ed Ea).
        eexists. split; reflexivity.
    + right. rewrite (require_pg_unset w s Ep Ed). eauto.
Qed.

Lemma register_connected_changes w s body :
  is_Some (pg s) -> rtc change s (fst (register bcrypt_digest bcrypt_salt_ok w body s)).
Proof.
  intros Hp. open_register. run.
  rewrite (require_pg_available w s Hp). cbn.
  destruct (hashpw _ _ _ _) as [hb|x]; cbn; [|apply rtc_refl].
  destruct (Utf8.decode _) as [h|]; cbn; [|apply rtc_refl].
  unfold pg_statement. destruct (pg_fault w); cbn; [apply rtc_refl|].
  unfold insert_user.
  destruct (existsb _ _) eqn:Et; cbn; apply rtc_once.
  - apply change_sequence. exact Hp.
  - apply (change_insert (email body) h (db_now w) s Hp). exact Et.
Qed.

Lemma register_changes w s body :
  rtc change s (fst (register bcrypt_digest bcrypt_salt_ok w body s)).
Proof.
  destruct (require_pg_outcome w s) as [(s1 & Hr & Hp) | (s1 & Hr & Hp)].
  - rewrite (register_after_require bcrypt_digest bcrypt_salt_ok w s s1 body Hr).
    eapply rtc_trans; [|apply register_connected_changes; exact Hp].
    pose proof (require_pg_changes w s) as H. rewrite Hr in H. exact H.
  - rewrite (register_after_refusal bcrypt_digest bcrypt_salt_ok w s s1 _ body Hr).
    pose proof (require_pg_changes w s) as H. rewrite Hr in H. exact H.
Qed.

Lemma login_changes w s body resp :
  rtc change s (fst (login bcrypt_digest jwt_encode bcrypt_salt_ok jwt_asymmetric w body resp s)).
Proof.
  destruct (require_pg_outcome w s) as [(s1 & Hr & Hp) | (s1 & Hr & Hp)].
  - rewrite (login_after_require bcrypt_digest jwt_encode bcrypt_salt_ok jwt_asymmetric w s s1 body resp Hr).
    destruct (login_on_connection bcrypt_digest jwt_encode bcrypt_salt_ok jwt_asymmetric w s1 body resp Hp) as [-> _].
    pose proof (require_pg_changes w s) as H. rewrite Hr in H. exact H.
  - rewrite (login_after_refusal bcrypt_digest jwt_encode bcrypt_salt_ok jwt_asymmetric w s s1 _ body resp Hr).
    pose proof (require_pg_changes w s) as H. rewrite Hr in H. exact H.
Qed.

Lemma visit_changes w s : rtc change s (fst (visit w s)).
Proof.
  unfold visit, redis_incr, pg_statement. run.
  destruct (r s) as [c|] eqn:Er; cbn.
  - destruct (redis_fault w); cbn; [apply rtc_refl|].
    eapply rtc_l; [apply change_incr; rewrite Er; eauto|].
    destruct (pg s) as [p|] eqn:Ep; cbn; [|apply rtc_refl].
    destruct (pg_fault w); cbn; [apply rtc_refl|].
    apply rtc_once.
    match goal with |- change ?a _ =>
      exact (change_bump (db_now w) a ltac:(cbn; rewrite Ep; eauto)) end.
  - eapply rtc_l; [apply change_memory; exact Er|].
    destruct (pg s) as [p|] eqn:Ep; cbn; [|apply rtc_refl].
    destruct (pg_fault w); cbn; [apply rtc_refl|].
    apply rtc_once.
    match goal with |- change ?a _ =>
      exact (change_bump (db_now w) a ltac:(cbn; rewrite Ep; eauto)) end.
Qed.

Lemma total_state w s : fst (total w s) = s.
Proof.
  unfold total, redis_get, pg_statement, select_total. run.
  destruct (r s); destruct (redis_fault w); cbn; try reflexivity;
    try (destruct (cache s !! "visits:total"); cbn; try reflexivity);
    destruct (pg s); destruct (pg_fault w); cbn; try reflexivity;
    destruct (site_counters (store s) !! 1); cbn; rewrite ?set_store_id; reflexivity.
Qed.

Lemma serve_changes w req s : rtc change s (fst (serve w req s)).
Proof.
  destruct req as [| |body|body| |]; open_serve; rewrite ?fst_bind.
  - apply rtc_refl.
  - pose proof (time_now_state w s) as H.
    destruct (time_now w s) as [s1 [j|e]]; cbn in *; subst s1; apply rtc_refl.
  - pose proof (register_changes w s body) as H.
    destruct (register bcrypt_digest bcrypt_salt_ok w body s) as [s1 [j|e]]; exact H.
  - apply login_changes.
  - pose proof (visit_changes w s) as H.
    destruct (visit w s) as [s1 [j|e]]; exact H.
  - pose proof (total_state w s) as H.
    destruct (total w s) as [s1 [j|e]]; cbn in *; subst s1; apply rtc_refl.
Qed.

Lemma serve_all_changes reqs : forall s, rtc change s (serve_all reqs s).
Proof.
  induction reqs as [|[w req] reqs IH]; intros s; [apply rtc_refl|].
  cbn. eapply rtc_trans; [apply serve_changes|apply IH].
Qed.

Lemma invariant_of_changes (P : State -> Prop) :
  (forall s s', change s s' -> P s -> P s') ->
  forall s s', rtc change s s' -> P s -> P s'.
Proof.
  intros Hstep s s' Hrtc. induction Hrtc as [|s s1 s2 Hc _ IH]; [auto|].
  intros Hs. apply IH. exact (Hstep _ _ Hc Hs).
Qed.

(** *** What a change keeps *)

Lemma change_keeps_config s s' :
  change s s' -> config s' = config s /\ r s' = r s.
Proof. destruct 1; split; reflexivity. Qed.

Lemma change_keeps_cache_without_client s s' :
  change s s' -> r s = None -> cache s' = cache s /\ r s' = None.
Proof.
  destruct 1; intros Hr; try (split; [reflexivity|exact Hr]).
  rewrite Hr in H. destruct H; discriminate.
Qed.

Lemma grows_refl s : grows s s.
Proof.
  split; [exists []; rewrite app_nil_r; reflexivity|].
  split; [lia|]. split; [|split; [|lia]].
  - intros i row H. exists row. split; [exact H|lia].
  - intros k v H. exists v. split; [exact H|lia].
Qed.

(** A state whose store and counters differ from [s] in a way each part of
    which is no loss. *)
Lemma grows_intro s s' more :
  users (store s') = (users (store s) ++ more)%list ->
  users_id_seq (store s) <= users_id_seq (store s') ->
  (forall i row, site_counters (store s) !! i = Some row ->
     exists row', site_counters (store s') !! i = Some row' /\ c_total row <= c_total row') ->
  (forall k v, cache s !! k = Some v -> exists v', cache s' !! k = Some v' /\ v <= v') ->
  memory_counters s <= memory_counters s' ->
  grows s s'.
Proof. intros H1 H2 H3 H4 H5. repeat split; eauto. Qed.

Lemma same_rows (m : gmap Z CounterRow) i row :
  m !! i = Some row -> exists row', m !! i = Some row' /\ c_total row <= c_total row'.
Proof. intros H. exists row. split; [exact H|lia]. Qed.

Lemma same_keys (m : gmap string Z) k v :
  m !! k = Some v -> exists v', m !! k = Some v' /\ v <= v'.
Proof. intros H. exists v. split; [exact H|lia]. Qed.

Lemma grows_trans s1 s2 s3 : grows s1 s2 -> grows s2 s3 -> grows s1 s3.
Proof.
  intros ((m1 & Hu1) & Hq1 & Hc1 & Hk1 & Hm1) ((m2 & Hu2) & Hq2 & Hc2 & Hk2 & Hm2).
  repeat split; try lia.
  - exists (m1 ++ m2)%list. rewrite Hu2, Hu1, <- app_assoc. reflexivity.
  - intros i row H. destruct (Hc1 i row H) as (row1 & H1 & Hle1).
    destruct (Hc2 i row1 H1) as (row2 & H2 & Hle2). exists row2. split; [exact H2|lia].
  - intros k v H. destruct (Hk1 k v H) as (v1 & H1 & Hle1).
    destruct (Hk2 k v1 H1) as (v2 & H2 & Hle2). exists v2. split; [exact H2|lia].
Qed.

Lemma change_grows s s' : change s s' -> grows s s'.
Proof.
  destruct 1.
  - apply (grows_intro _ _ []); cbn; try lia;
      [rewrite app_nil_r; reflexivity| |apply same_keys].
    intros i row Hi. exists row. split; [|lia]. apply ensure_schema_keeps. exact Hi.
  - apply (grows_intro _ _ []); cbn; try lia;
      [rewrite app_nil_r; reflexivity|apply same_rows|apply same_keys].
  - apply (grows_intro _ _ []); cbn; try lia;
      [rewrite app_nil_r; reflexivity|apply same_rows|apply same_keys].
  - eapply grows_intro; cbn; try lia; [reflexivity|apply same_rows|apply same_keys].
  - apply (grows_intro _ _ []); cbn; try lia;
      [rewrite app_nil_r; reflexivity|apply same_rows|].
    intros k v Hk. destruct (decide (k = "visits:total")) as [->|Hne].
    + rewrite lookup_insert_eq, Hk. cbn. eexists. split; [reflexivity|lia].
    + rewrite lookup_insert_ne by congruence. exists v. split; [exact Hk|lia].
  - apply (grows_intro _ _ []); cbn; try lia;
      [rewrite app_nil_r; reflexivity|apply same_rows|apply same_keys].
  - apply (grows_intro _ _ []); cbn; try lia;
      [rewrite app_nil_r; reflexivity| |apply same_keys].
    intros i row Hi. rewrite lookup_alter. case_decide.
    + subst i. rewrite Hi. cbn. eexists. split; [reflexivity|cbn; lia].
    + exists row. split; [exact Hi|lia].
Qed.

Lemma change_keeps_counter_row s s' :
  change s s' -> counter_row_ready s -> counter_row_ready s'.
Proof.
  destruct 1; unfold counter_row_ready; cbn; intros Hs Hp; auto.
  - destruct (site_counters (store s) !! 1) eqn:E; [rewrite E; eauto|].
    rewrite lookup_insert_eq. eauto.
  - destruct Hp; discriminate.
  - rewrite lookup_alter. case_decide; [|congruence].
    destruct (Hs Hp) as [row ->]. cbn. eauto.
Qed.

Lemma not_taken_not_in (e : string) (l : list UserRow) :
  existsb (fun u => String.eqb (u_email u) e) l = false -> ~ In e (map u_email l).
Proof.
  induction l as [|u l IH]; cbn; [tauto|].
  intros H. apply orb_false_elim in H as [Hu Hl].
  intros [Heq | Hin]; [|exact (IH Hl Hin)].
  rewrite Heq, String.eqb_refl in Hu. discriminate.
Qed.

Lemma change_keeps_emails s s' :
  change s s' -> emails_normalised (store s) -> emails_normalised (store s').
Proof.
  destruct 1; unfold emails_normalised; cbn; try tauto.
  intros [Hl Hn]. split.
  - apply Forall_app. split; [exact Hl|]. repeat constructor. cbn.
    apply lower_sql_lower.
  - rewrite map_app. cbn. apply NoDup_app. split; [exact Hn|]. split.
    + intros x Hx Hx'. apply list_elem_of_In in Hx.
      apply list_elem_of_In in Hx'. cbn in Hx'. destruct Hx' as [<-|[]].
      exact (not_taken_not_in _ _ H0 Hx).
    + apply NoDup_singleton.
Qed.

Lemma change_keeps_ids s s' :
  change s s' -> ids_fresh (store s) -> ids_fresh (store s').
Proof.
  destruct 1; unfold ids_fresh; cbn; try tauto.
  - intros [Hl Hn]. split; [|exact Hn].
    eapply Forall_impl; [exact Hl|]. cbn. intros u Hu. lia.
  - intros [Hl Hn]. split.
    + apply Forall_app. split.
      * eapply Forall_impl; [exact Hl|]. cbn. intros u Hu. lia.
      * repeat constructor. cbn. lia.
    + rewrite map_app. cbn. apply NoDup_app. split; [exact Hn|]. split.
      * intros x Hx Hx'. apply list_elem_of_In in Hx.
        apply list_elem_of_In in Hx'. cbn in Hx'. destruct Hx' as [<-|[]].
        apply in_map_iff in Hx as (u & Hu & Hin).
        rewrite Forall_forall in Hl. specialize (Hl u).
        apply list_elem_of_In in Hin. specialize (Hl Hin). lia.
      * apply NoDup_singleton.
Qed.

(** *** Case variants and lower case *)

Lemma lower_char_eq a b :
  Text.lower_char a = Text.lower_char b -> Text.same_letter a b.
Proof.
  unfold Text.lower_char, Text.same_letter.
  pose proof (N_ascii_bounded a) as Ba. pose proof (N_ascii_bounded b) as Bb.
  pose proof (ascii_N_embedding a) as Ea. pose proof (ascii_N_embedding b) as Eb.
  set (na := N_of_ascii a) in *. set (nb := N_of_ascii b) in *.
  destruct ((65 <=? na) && (na <=? 90))%N eqn:Ua;
    destruct ((65 <=? nb) && (nb <=? 90))%N eqn:Ub; intros H.
  - left. apply (f_equal N_of_ascii) in H.
    rewrite !N_ascii_embedding in H by (apply andb_prop in Ua as [_ U]; apply andb_prop in Ub as [_ V];
                                         apply N.leb_le in U, V; lia).
    rewrite <- Ea, <- Eb. f_equal. lia.
  - apply andb_prop in Ua as [U1 U2]. apply N.leb_le in U1, U2.
    right. exists (na - 65)%N. split; [lia|]. left. split.
    + rewrite <- Ea. f_equal. lia.
    + rewrite <- H. f_equal. lia.
  - apply andb_prop in Ub as [U1 U2]. apply N.leb_le in U1, U2.
    right. exists (nb - 65)%N. split; [lia|]. right. split.
    + rewrite H. f_equal. lia.
    + rewrite <- Eb. f_equal. lia.
  - left. exact H.
Qed.

Lemma case_variant_lower s : forall t,
  Text.lower s = Text.lower t -> Text.case_variant s t.
Proof.
  induction s as [|a s IH]; intros [|b t] H; cbn in H; try discriminate.
  - constructor.
  - injection H as Hc Hs. constructor; [apply lower_char_eq; exact Hc|apply IH; exact Hs].
Qed.

Lemma case_variant_iff_lower s t :
  Text.case_variant s t <-> Text.lower s = Text.lower t.
Proof. split; [apply lower_case_variant|apply case_variant_lower]. Qed.

(** *** Import time *)

Lemma try_connect_redis_outcome w s :
  exists s1 o, try_connect_redis w s = (s1, Return o)
    /\ (truthy (REDIS_URL s) = false -> s1 = s /\ o = None)
    /\ (truthy (REDIS_URL s) = true ->
          o = r s1
          /\ available (r s1) = redis_accepts w (default EmptyString (REDIS_URL s)))
    /\ pg s1 = pg s /\ store s1 = store s /\ cache s1 = cache s
    /\ memory_counters s1 = memory_counters s /\ config s1 = config s.
Proof.
  unfold try_connect_redis. run.
  destruct (truthy (REDIS_URL s)) eqn:E; cbn.
  - destruct (redis_accepts w _) eqn:Ea; cbn;
      (eexists; eexists; split; [reflexivity|]); cbn;
      repeat split; try discriminate; try reflexivity.
  - exists s, None. repeat split; try discriminate; reflexivity.
Qed.

Lemma try_connect_pg_outcome w s :
  exists s1 o, try_connect_pg w s = (s1, Return o)
    /\ (truthy (PG_DSN s) = false -> s1 = s /\ o = None)
    /\ (truthy (PG_DSN s) = true ->
          o = pg s1
          /\ available (pg s1) = pg_accepts w (default EmptyString (PG_DSN s))
          /\ store s1 = (if pg_accepts w (default EmptyString (PG_DSN s))
                         then ensure_schema (db_now w) (store s) else store s))
    /\ r s1 = r s /\ cache s1 = cache s
    /\ memory_counters s1 = memory_counters s /\ config s1 = config s.
Proof.
  destruct (truthy (PG_DSN s)) eqn:Ed.
  - destruct (PG_DSN s) as [d|] eqn:E; [|discriminate]. cbn in Ed. cbn [default].
    destruct (pg_accepts w d) eqn:Ea.
    + rewrite (try_connect_pg_accepted w s d E Ed Ea).
      eexists; eexists; split; [reflexivity|]. cbn. unfold config. cbn.
      rewrite ?Ea. repeat split; try discriminate; try reflexivity.
    + rewrite (try_connect_pg_refused w s d E Ed Ea).
      eexists; eexists; split; [reflexivity|]. cbn. unfold config. cbn.
      rewrite ?Ea. repeat split; try discriminate; try reflexivity.
  - rewrite (try_connect_pg_unset w s Ed).
    exists s, None. repeat split; try discriminate; reflexivity.
Qed.

(** The state import time produces, field by field. *)
Lemma startup_fields w db0 cache0 :
  let s := startup w db0 cache0 in
  let dsn := azure_sslmode (getenv w "PG_DSN") in
  let url := getenv w "REDIS_URL" in
  config s = (default "change_me" (getenv w "JWT_SECRET"),
              String.eqb (Text.lower (default "false" (getenv w "SECURE_COOKIES"))) "true",
              dsn, url)
  /\ available (pg s) = truthy dsn && pg_accepts w (default EmptyString dsn)
  /\ available (r s) = truthy url && redis_accepts w (default EmptyString url)
  /\ store s = (if truthy dsn && pg_accepts w (default EmptyString dsn)
                then ensure_schema (db_now w) db0 else db0)
  /\ cache s = cache0
  /\ memory_counters s = 0.
Proof.
  cbn zeta. unfold startup.
  match goal with |- context [fst (_ ?s0)] => set (s0' := s0) end.
  destruct (try_connect_pg_outcome w s0') as (s1 & o & E1 & Hu1 & Hc1 & Hr1 & Hk1 & Hm1 & Hg1).
  destruct (try_connect_redis_outcome w s1)
    as (s2 & o2 & E2 & Hu2 & Hc2 & Hp2 & Hs2 & Hk2 & Hm2 & Hg2).
  assert (Hurl : REDIS_URL s1 = getenv w "REDIS_URL").
  { unfold config in Hg1. injection Hg1 as _ _ _ H. exact H. }
  assert (Hfst : fst ((try_connect_pg w;; try_connect_redis w) s0') = s2).
  { unfold mbind, M_bind. rewrite E1, E2. reflexivity. }
  rewrite !Hfst. clear Hfst.
  rewrite Hg2, Hg1, Hp2, Hs2, Hk2, Hk1, Hm2, Hm1.
  split; [reflexivity|].
  change (PG_DSN s0') with (azure_sslmode (getenv w "PG_DSN")) in *.
  change (store s0') with db0 in *. change (r s0') with (@None RedisClient) in *.
  rewrite Hurl in *.
  split; [|split; [|split; [|split; reflexivity]]].
  - destruct (truthy (azure_sslmode (getenv w "PG_DSN"))) eqn:Ed.
    + destruct (Hc1 eq_refl) as (_ & Ha & _). exact Ha.
    + destruct (Hu1 eq_refl) as [-> _]. reflexivity.
  - destruct (truthy (getenv w "REDIS_URL")) eqn:Eu.
    + destruct (Hc2 eq_refl) as (_ & Ha). exact Ha.
    + destruct (Hu2 eq_refl) as [-> _]. rewrite Hr1. reflexivity.
  - destruct (truthy (azure_sslmode (getenv w "PG_DSN"))) eqn:Ed.
    + destruct (Hc1 eq_refl) as (_ & _ & Hst). exact Hst.
    + destruct (Hu1 eq_refl) as [-> _]. reflexivity.
Qed.

(** *** Invariants of a run *)

(** X1: no request changes what was read from the environment at import
    time: signing secret, cookie flag and both connection strings are the
    same after any sequence of requests. *)
Theorem run_keeps_config (reqs : list (World * Request)) (s : State) :
  config (serve_all reqs s) = config s.
Proof.
  apply (invariant_of_changes (fun s' => config s' = config s)) with (s := s);
    [|apply serve_all_changes|reflexivity].
  intros s1 s2 Hc H. rewrite <- H. apply (change_keeps_config _ _ Hc).
Qed.

(** X2: no request ever sets or clears the cache client: try_connect_redis
    runs at import time only.  A process that came up without the cache
    never reaches it again, and its cache contents stay untouched whatever
    is requested. *)
Theorem run_never_reconnects_redis (reqs : list (World * Request)) (s : State) :
  r (serve_all reqs s) = r s
  /\ (r s = None -> cache (serve_all reqs s) = cache s).
Proof.
  split.
  - apply (invariant_of_changes (fun s' => r s' = r s)) with (s := s);
      [|apply serve_all_changes|reflexivity].
    intros s1 s2 Hc H. rewrite <- H. apply (change_keeps_config _ _ Hc).
  - intros Hr.
    apply (invariant_of_changes (fun s' => r s' = None /\ cache s' = cache s))
      with (s := s); [|apply serve_all_changes|split; [exact Hr|reflexivity]].
    intros s1 s2 Hc [H1 H2].
    destruct (change_keeps_cache_without_client _ _ Hc H1) as [Hk Hn].
    split; [exact Hn|congruence].
Qed.

(** X3: nothing is deleted or lowered by any sequence of requests: the
    users table only gets rows appended, the id sequence, the totals of the
    counter rows, the values under the cache keys and the in-process counter
    never decrease. *)
Theorem run_grows (reqs : list (World * Request)) (s : State) :
  grows s (serve_all reqs s).
Proof.
  apply (invariant_of_changes (fun s' => grows s s')) with (s := s);
    [|apply serve_all_changes|apply grows_refl].
  intros s1 s2 Hc H. exact (grows_trans _ _ _ H (change_grows _ _ Hc)).
Qed.

(** X4: in every state a process reaches from import time, an open store
    connection comes with the site_counters row of id 1, the row the visit
    updates and the total reads. *)
Theorem counter_row_always_ready
    (w : World) (db0 : Database) (cache0 : gmap string Z)
    (reqs : list (World * Request)) :
  counter_row_ready (serve_all reqs (startup w db0 cache0)).
Proof.
  apply (invariant_of_changes counter_row_ready) with (s := startup w db0 cache0);
    [apply change_keeps_counter_row|apply serve_all_changes|].
  destruct (startup_fields w db0 cache0) as (_ & Hp & _ & Hs & _).
  unfold counter_row_ready. intros [c Hc]. rewrite Hc in Hp. cbn in Hp.
  rewrite <- Hp in Hs. rewrite Hs. unfold ensure_schema. cbn.
  destruct (site_counters db0 !! 1) eqn:E; [rewrite E; eauto|].
  rewrite lookup_insert_eq. eauto.
Qed.

(** X5: if the stored emails are in lower case and pairwise different, they
    still are after any sequence of requests. *)
Theorem run_keeps_emails_normalised (reqs : list (World * Request)) (s : State) :
  emails_normalised (store s) -> emails_normalised (store (serve_all reqs s)).
Proof.
  intros H.
  apply (invariant_of_changes (fun s' => emails_normalised (store s'))) with (s := s);
    [apply change_keeps_emails|apply serve_all_changes|exact H].
Qed.

(** X6: if the user ids are pairwise different and none is beyond the id
    sequence, the same holds after any sequence of requests: every
    registration gets an id no row has. *)
Theorem run_keeps_ids_fresh (reqs : list (World * Request)) (s : State) :
  ids_fresh (store s) -> ids_fresh (store (serve_all reqs s)).
Proof.
  intros H.
  apply (invariant_of_changes (fun s' => ids_fresh (store s'))) with (s := s);
    [apply change_keeps_ids|apply serve_all_changes|exact H].
Qed.

(** X7: import time never fails and loses nothing.  Each flag is set
    exactly when its connection string is non-empty and the server accepted
    it; the in-process counter starts at zero; the cache is as found; the
    users and every counter row already in the store are as found. *)
Theorem startup_keeps_data (w : World) (db0 : Database) (cache0 : gmap string Z) :
  let s := startup w db0 cache0 in
  let dsn := azure_sslmode (getenv w "PG_DSN") in
  let url := getenv w "REDIS_URL" in
  available (pg s) = truthy dsn && pg_accepts w (default EmptyString dsn)
  /\ available (r s) = truthy url && redis_accepts w (default EmptyString url)
  /\ memory_counters s = 0
  /\ cache s = cache0
  /\ users (store s) = users db0
  /\ users_id_seq (store s) = users_id_seq db0
  /\ (forall i row, site_counters db0 !! i = Some row ->
        site_counters (store s) !! i = Some row).
Proof.
  cbn zeta. destruct (startup_fields w db0 cache0) as (_ & Hp & Hr & Hs & Hk & Hm).
  rewrite Hs. split; [exact Hp|]. split; [exact Hr|]. split; [exact Hm|].
  split; [exact Hk|].
  destruct (truthy _ && pg_accepts w _); cbn; repeat split; auto.
  intros i row H. apply ensure_schema_keeps. exact H.
Qed.

(** *** Counting visits *)

Lemma serve_visit_state w s :
  fst (serve w POST_metrics_visit s) = fst (visit w s).
Proof. open_serve. rewrite fst_bind. destruct (visit w s) as [s1 [j|e]]; reflexivity. Qed.

(** The state a visit leaves, whether it returns or raises. *)
Lemma visit_state w s :
  let s' := fst (visit w s) in
  let counted := negb (available (r s) && redis_fault w) in
  pg s' = pg s /\ r s' = r s
  /\ memory_counters s' = memory_counters s + (if available (r s) then 0 else 1)
  /\ cache s' = (if available (r s) && negb (redis_fault w)
                 then <["visits:total" := default 0 (cache s !! "visits:total") + 1]> (cache s)
                 else cache s)
  /\ store s' = (if counted && available (pg s) && negb (pg_fault w)
                 then fst (bump_site_counter (db_now w) (store s))
                 else store s).
Proof.
  cbn zeta. unfold visit, redis_incr, pg_statement. run.
  destruct (r s) as [c|] eqn:Er; destruct (redis_fault w) eqn:Erf; cbn;
    destruct (pg s) as [p|] eqn:Ep; destruct (pg_fault w) eqn:Epf; cbn;
    rewrite ?Ep, ?Er; cbn; repeat split; try lia; reflexivity.
Qed.

Lemma serve_all_cons w req reqs s :
  serve_all ((w, req) :: reqs) s = serve_all reqs (fst (serve w req s)).
Proof. reflexivity. Qed.

Lemma serve_all_visit w ws s :
  serve_all (visits (w :: ws)) s = serve_all (visits ws) (fst (visit w s)).
Proof.
  change (visits (w :: ws)) with ((w, POST_metrics_visit) :: visits ws).
  rewrite serve_all_cons, serve_visit_state. reflexivity.
Qed.

Lemma visits_without_client ws : forall s,
  r s = None ->
  let s' := serve_all (visits ws) s in
  r s' = None /\ pg s' = pg s /\ cache s' = cache s
  /\ memory_counters s' = memory_counters s + Z.of_nat (length ws).
Proof.
  induction ws as [|w ws IH]; intros s Hr; cbn zeta.
  - cbn. repeat split; try reflexivity; [exact Hr|lia].
  - rewrite serve_all_visit.
    destruct (visit_state w s) as (Hp & Hr' & Hm & Hc & _).
    rewrite Hr in Hm, Hc, Hr'. cbn in Hm, Hc.
    destruct (IH (fst (visit w s)) Hr') as (H1 & H2 & H3 & H4).
    rewrite H1, H2, H3, H4, Hp, Hc, Hm. cbn [length].
    repeat split; try reflexivity. lia.
Qed.

Lemma visits_with_client ws : forall s,
  is_Some (r s) ->
  Forall (fun w => redis_fault w = false) ws ->
  let s' := serve_all (visits ws) s in
  r s' = r s /\ pg s' = pg s /\ memory_counters s' = memory_counters s
  /\ (ws <> [] ->
      cache s' !! "visits:total"
      = Some (default 0 (cache s !! "visits:total") + Z.of_nat (length ws))).
Proof.
  induction ws as [|w ws IH]; intros s Hr Hf; cbn zeta.
  - cbn. repeat split; try reflexivity. intros H. contradiction.
  - rewrite serve_all_visit. inversion Hf as [|? ? Hw Hws]; subst.
    destruct (visit_state w s) as (Hp & Hr' & Hm & Hc & _).
    destruct Hr as [c Hr]. rewrite Hr in Hm, Hc. rewrite Hw in Hc. cbn in Hm, Hc.
    assert (Hr1 : is_Some (r (fst (visit w s)))) by (rewrite Hr', Hr; eauto).
    destruct (IH (fst (visit w s)) Hr1 Hws) as (H1 & H2 & H3 & H4).
    rewrite H1, H2, H3, Hp, Hr', Hm.
    repeat split; try reflexivity; try lia.
    intros _. destruct ws as [|w' ws'].
    + cbn. rewrite Hc, lookup_insert_eq. first [reflexivity | f_equal; lia].
    + rewrite H4 by discriminate. rewrite Hc, lookup_insert_eq. cbn [default length].
      unfold id. f_equal. lia.
Qed.

Lemma visits_on_connection ws : forall s row,
  is_Some (pg s) ->
  site_counters (store s) !! 1 = Some row ->
  Forall (fun w => pg_fault w = false /\ (is_Some (r s) -> redis_fault w = false)) ws ->
  let s' := serve_all (visits ws) s in
  pg s' = pg s /\ r s' = r s
  /\ c_total <$> site_counters (store s') !! 1
     = Some (c_total row + Z.of_nat (length ws))
  /\ users (store s') = users (store s).
Proof.
  induction ws as [|w ws IH]; intros s row Hp Hrow Hf; cbn zeta.
  - cbn. rewrite Hrow. cbn. repeat split; try reflexivity. f_equal. lia.
  - rewrite serve_all_visit. inversion Hf as [|? ? [Hw1 Hw2] Hws]; subst.
    destruct (visit_state w s) as (Hp' & Hr' & _ & _ & Hst).
    assert (Hcounted : negb (available (r s) && redis_fault w) = true).
    { destruct (r s) as [c|]; cbn; [|reflexivity].
      rewrite Hw2 by eauto. reflexivity. }
    destruct Hp as [p Hp]. rewrite Hcounted, Hp, Hw1 in Hst. cbn in Hst.
    assert (Hp1 : is_Some (pg (fst (visit w s)))) by (rewrite Hp', Hp; eauto).
    assert (Hrow1 : site_counters (store (fst (visit w s))) !! 1
                    = Some (visited (db_now w) row)).
    { rewrite Hst. cbn. rewrite lookup_alter. case_decide; [|congruence].
      rewrite Hrow. reflexivity. }
    assert (Hf1 : Forall (fun w0 => pg_fault w0 = false
                            /\ (is_Some (r (fst (visit w s))) -> redis_fault w0 = false)) ws).
    { rewrite Hr'. exact Hws. }
    destruct (IH (fst (visit w s)) _ Hp1 Hrow1 Hf1) as (H1 & H2 & H3 & H4).
    rewrite H1, H2, H3, H4, Hp', Hr', Hst. cbn.
    repeat split; try reflexivity. f_equal. lia.
Qed.

Lemma total_fallback w s :
  r s = None -> pg s = None ->
  total w s = (s, Return (total_body (memory_counters s))).
Proof. intros Hr Hp. unfold total. run. exec. reflexivity. Qed.

Lemma total_cached w s v :
  is_Some (r s) -> redis_fault w = false -> cache s !! "visits:total" = Some v ->
  total w s = (s, Return (total_body v)).
Proof.
  intros [c Hc] Hf Hv. unfold total, redis_get. run. exec. reflexivity.
Qed.

Lemma total_stored w s t :
  r s = None -> is_Some (pg s) -> pg_fault w = false ->
  c_total <$> site_counters (store s) !! 1 = Some t ->
  total w s = (s, Return (total_body t)).
Proof.
  intros Hr [p Hp] Hf Ht. unfold total, pg_statement, select_total. run. exec.
  rewrite set_store_id. reflexivity.
Qed.

(** X8: with neither cache client nor store connection, n visits raise
    the in-process counter by exactly n, whatever the worlds they run in, and
    the total read afterwards is the old counter plus n. *)
Theorem fallback_counts_visits (ws : list World) (w : World) (s : State) :
  r s = None -> pg s = None ->
  let s' := serve_all (visits ws) s in
  memory_counters s' = memory_counters s + Z.of_nat (length ws)
  /\ total w s' = (s', Return (total_body (memory_counters s + Z.of_nat (length ws)))).
Proof.
  intros Hr Hp. cbn zeta.
  destruct (visits_without_client ws s Hr) as (H1 & H2 & _ & H4).
  split; [exact H4|].
  rewrite (total_fallback w _ H1 (eq_trans H2 Hp)), H4. reflexivity.
Qed.

(** X9: with the cache client in place and its command not raising, n
    visits add exactly n to the cache key (a missing key counts as zero) and
    leave the in-process counter alone, whether or not the store update of a
    visit raised; the total read afterwards is that cache value whatever the
    state of the store connection. *)
Theorem cache_counts_visits (ws : list World) (w : World) (s : State) :
  is_Some (r s) ->
  Forall (fun w0 => redis_fault w0 = false) ws ->
  ws <> [] ->
  redis_fault w = false ->
  let s' := serve_all (visits ws) s in
  let n := default 0 (cache s !! "visits:total") + Z.of_nat (length ws) in
  cache s' !! "visits:total" = Some n
  /\ memory_counters s' = memory_counters s
  /\ total w s' = (s', Return (total_body n)).
Proof.
  intros Hr Hf Hne Hw. cbn zeta.
  destruct (visits_with_client ws s Hr Hf) as (H1 & _ & H3 & H4).
  specialize (H4 Hne). split; [exact H4|]. split; [exact H3|].
  apply total_cached; [rewrite H1; exact Hr|exact Hw|exact H4].
Qed.

(** X10: with the store connection open, row 1 present and no operation
    raising, n visits add exactly n to the row's total and leave the users
    table alone; without a cache client the total read afterwards is that
    sum. *)
Theorem store_counts_visits
    (ws : list World) (w : World) (s : State) (row : CounterRow) :
  is_Some (pg s) ->
  site_counters (store s) !! 1 = Some row ->
  Forall (fun w0 => pg_fault w0 = false /\ (is_Some (r s) -> redis_fault w0 = false)) ws ->
  let s' := serve_all (visits ws) s in
  c_total <$> site_counters (store s') !! 1 = Some (c_total row + Z.of_nat (length ws))
  /\ users (store s') = users (store s)
  /\ (r s = None -> pg_fault w = false ->
      total w s' = (s', Return (total_body (c_total row + Z.of_nat (length ws))))).
Proof.
  intros Hp Hrow Hf. cbn zeta.
  destruct (visits_on_connection ws s row Hp Hrow Hf) as (H1 & H2 & H3 & H4).
  split; [exact H3|]. split; [exact H4|].
  intros Hr Hw. apply total_stored; [congruence|rewrite H1; exact Hp|exact Hw|exact H3].
Qed.

(** X11: a visit whose store update raises has already been counted: the
    caller gets the error, the store is as before, and the cache key (or,
    without a cache client, the in-process counter) is one higher. *)
Theorem failed_visit_is_counted (w : World) (s : State) :
  is_Some (pg s) -> pg_fault w = true ->
  (is_Some (r s) -> redis_fault w = false) ->
  let s' := fst (visit w s) in
  snd (visit w s) = Raise DatabaseError
  /\ store s' = store s
  /\ (is_Some (r s) ->
      cache s' !! "visits:total" = Some (default 0 (cache s !! "visits:total") + 1)
      /\ memory_counters s' = memory_counters s)
  /\ (r s = None ->
      memory_counters s' = memory_counters s + 1 /\ cache s' = cache s).
Proof.
  intros [p Hp] Hf Hr. cbn zeta.
  destruct (visit_state w s) as (_ & _ & Hm & Hc & Hst).
  rewrite Hf in Hst. rewrite andb_false_r in Hst.
  split.
  - unfold visit, redis_incr, pg_statement. run.
    destruct (r s) as [c|] eqn:Er; cbn.
    + rewrite Hr by eauto. cbn. rewrite Hp. cbn. rewrite Hf. reflexivity.
    + rewrite Hp. cbn. rewrite Hf. reflexivity.
  - split; [exact Hst|]. split.
    + intros Hs. destruct Hs as [c Hc']. rewrite Hc' in Hm, Hc, Hr.
      rewrite Hr in Hc by eauto. cbn in Hm, Hc.
      rewrite Hc, lookup_insert_eq. split; [reflexivity|lia].
    + intros Hn. rewrite Hn in Hm, Hc. cbn in Hm, Hc. split; [lia|exact Hc].
Qed.

(** *** Registration and login, continued *)

Lemma email_taken_after_insert (e e' : string) (u : UserRow) (d : Database) :
  u_email u = Text.sql_lower (lc_ctype d) e ->
  Text.sql_lower (lc_ctype d) e' = Text.sql_lower (lc_ctype d) e ->
  email_taken e' (with_user u d) = true.
Proof.
  intros Hu Hv. unfold email_taken, with_user. cbn.
  rewrite existsb_app. cbn. rewrite Hu, Hv, String.eqb_refl.
  rewrite orb_true_r. reflexivity.
Qed.

Lemma email_taken_stored (e : string) (d : Database) :
  email_taken e d = false -> stored_user e d = None.
Proof.
  unfold email_taken, stored_user. induction (users d) as [|u l IH]; cbn; [reflexivity|].
  intros H. apply orb_false_elim in H as [Hu Hl]. rewrite Hu. exact (IH Hl).
Qed.

Lemma register_taken w s e pw hb h :
  is_Some (pg s) -> pg_fault w = false ->
  hashpw bcrypt_digest bcrypt_salt_ok (Utf8.encode pw) (gensalt w) = Return hb ->
  Utf8.decode hb = Some h ->
  email_taken e (store s) = true ->
  register bcrypt_digest bcrypt_salt_ok w {| email := e; password := pw |} s =
    (set_store {| users := users (store s);
                  users_id_seq := users_id_seq (store s) + 1;
                  site_counters := site_counters (store s);
                  lc_ctype := lc_ctype (store s) |} s,
     Raise UniqueViolation).
Proof.
  intros Hp Hf Hh Hd Ht. open_register. run.
  rewrite (require_pg_available w s Hp). cbn. rewrite Hh. cbn. rewrite Hd.
  rewrite pg_statement_ok by exact Hf. unfold insert_user.
  unfold email_taken in Ht. rewrite Ht. reflexivity.
Qed.

(** X12: registering a second time an email that the database's LOWER()
    folds to the text of a registered one, with a password bcrypt hashes,
    raises the store's uniqueness violation to the caller: no row is added
    or changed, the first password stays the valid one, and the id sequence
    has moved on by one all the same.  With a password of more than 72
    bytes the ValueError of bcrypt comes first: the INSERT is not reached
    and the sequence stays. *)
Theorem duplicate_registration_faults
    (w1 w2 : World) (s : State) (e e' pw pw' h : string) (hb : list byte) :
  is_Some (pg s) ->
  pg_fault w1 = false -> pg_fault w2 = false ->
  hashpw bcrypt_digest bcrypt_salt_ok (Utf8.encode pw) (gensalt w1) = Return hb ->
  Utf8.decode hb = Some h ->
  email_taken e (store s) = false ->
  Text.sql_lower (lc_ctype (store s)) e' = Text.sql_lower (lc_ctype (store s)) e ->
  let u := {| u_id := users_id_seq (store s) + 1;
              u_email := Text.sql_lower (lc_ctype (store s)) e;
              u_password_hash := h; u_created_at := db_now w1 |} in
  let s1 := fst (register bcrypt_digest bcrypt_salt_ok w1 {| email := e; password := pw |} s) in
  let out := register bcrypt_digest bcrypt_salt_ok w2 {| email := e'; password := pw' |} s1 in
  (forall hb' h',
     hashpw bcrypt_digest bcrypt_salt_ok (Utf8.encode pw') (gensalt w2) = Return hb' ->
     Utf8.decode hb' = Some h' ->
     snd out = Raise UniqueViolation
     /\ users (store (fst out)) = (users (store s) ++ [u])%list
     /\ users_id_seq (store (fst out)) = users_id_seq (store s) + 2
     /\ stored_user e' (store (fst out)) = Some u)
  /\ ((72 < length (Utf8.encode pw'))%nat ->
      out = (s1, Raise ValueError)
      /\ users_id_seq (store s1) = users_id_seq (store s) + 1).
Proof.
  intros Hp Hf1 Hf2 Hh1 Hd1 Ht Hv. cbn zeta.
  rewrite (register_available bcrypt_digest bcrypt_salt_ok w1 s e pw hb h Hp Hf1 Hh1 Hd1 Ht).
  cbn [fst].
  set (u := {| u_id := users_id_seq (store s) + 1;
               u_email := Text.sql_lower (lc_ctype (store s)) e;
               u_password_hash := h; u_created_at := db_now w1 |}).
  set (s1 := set_store (with_user u (store s)) s).
  assert (Hp1 : is_Some (pg s1)) by exact Hp.
  split.
  - intros hb' h' Hh2 Hd2.
    assert (Ht1 : email_taken e' (store s1) = true).
    { exact (email_taken_after_insert e e' u (store s) eq_refl Hv). }
    rewrite (register_taken w2 s1 e' pw' hb' h' Hp1 Hf2 Hh2 Hd2 Ht1). cbn.
    repeat split; try reflexivity; try lia.
    exact (stored_user_fresh e e' u (store s) Ht Hv eq_refl).
  - intros Hl. split; [|reflexivity].
    apply (register_refused bcrypt_digest bcrypt_salt_ok w2 s1 _ ValueError Hp1).
    apply hashpw_long. exact Hl.
Qed.

(** X13: after a fresh registration, a login with the registered password
    for an email that was not in the table before succeeds when the
    database's LOWER() folds that email to the same text as the registered
    one, and answers ok: false without a cookie when it does not.  Under a
    character type that folds ASCII the usual way the ASCII case variants
    of the registered email are among those that succeed. *)
Theorem login_matches_folded_emails_only
    (w1 w2 : World) (s : State) (e e' pw h : string) (resp : Response) :
  is_Some (pg s) ->
  pg_fault w1 = false -> pg_fault w2 = false ->
  (length (Utf8.encode pw) <= 72)%nat ->
  length (gensalt w1) = 29%nat ->
  bcrypt_salt_ok (gensalt w1) = true ->
  Utf8.decode (gensalt w1 ++ bcrypt_digest (gensalt w1) (Utf8.encode pw))%list = Some h ->
  hmac_key_ok jwt_asymmetric (JWT_SECRET s) = true ->
  email_taken e (store s) = false ->
  email_taken e' (store s) = false ->
  let ct := lc_ctype (store s) in
  let s1 := fst (register bcrypt_digest bcrypt_salt_ok w1 {| email := e; password := pw |} s) in
  let out := login bcrypt_digest jwt_encode bcrypt_salt_ok jwt_asymmetric w2
               {| email := e'; password := pw |} resp s1 in
  let granted :=
    (s1, Return ((resp ++ [session_cookie
                             (jwt_encode (users_id_seq (store s) + 1) (JWT_SECRET s))
                             (SECURE_COOKIES s)])%list,
                 ok_body true)) in
  (Text.sql_lower ct e' = Text.sql_lower ct e -> out = granted)
  /\ (Text.sql_lower ct e' <> Text.sql_lower ct e -> out = (s1, Return (resp, ok_body false)))
  /\ (Text.folds_ascii ct -> Text.case_variant e e' -> out = granted).
Proof.
  intros Hp Hf1 Hf2 Hl Hlen Hs Hd Hk Ht Ht'. cbn zeta.
  assert (Hhash : hashpw bcrypt_digest bcrypt_salt_ok (Utf8.encode pw) (gensalt w1)
                  = Return (gensalt w1 ++ bcrypt_digest (gensalt w1) (Utf8.encode pw))%list).
  { rewrite (hashpw_returns bcrypt_digest bcrypt_salt_ok);
      rewrite ?firstn_all2 by lia; auto. }
  rewrite (register_available bcrypt_digest bcrypt_salt_ok w1 s e pw _ h Hp Hf1 Hhash Hd Ht).
  cbn [fst].
  set (u := {| u_id := users_id_seq (store s) + 1;
               u_email := Text.sql_lower (lc_ctype (store s)) e;
               u_password_hash := h; u_created_at := db_now w1 |}).
  set (s1 := set_store (with_user u (store s)) s).
  assert (Hp1 : is_Some (pg s1)) by exact Hp.
  rewrite (login_available bcrypt_digest jwt_encode bcrypt_salt_ok jwt_asymmetric w2 s1 _ resp Hp1 Hf2).
  cbn [email password]. change (store s1) with (with_user u (store s)).
  assert (Hyes : Text.sql_lower (lc_ctype (store s)) e' = Text.sql_lower (lc_ctype (store s)) e ->
                 (s1, match stored_user e' (with_user u (store s)) with
                      | None => Return (resp, ok_body false)
                      | Some u0 =>
                          match checkpw bcrypt_digest bcrypt_salt_ok (Utf8.encode pw)
                                  (Utf8.encode (u_password_hash u0)) with
                          | Raise x => Raise x
                          | Return false => Return (resp, ok_body false)
                          | Return true =>
                              if hmac_key_ok jwt_asymmetric (JWT_SECRET s1)
                              then Return ((resp ++ [session_cookie
                                                       (jwt_encode (u_id u0) (JWT_SECRET s1))
                                                       (SECURE_COOKIES s1)])%list,
                                           ok_body true)
                              else Raise InvalidKeyError
                          end
                      end)
                 = (s1, Return ((resp ++ [session_cookie
                                            (jwt_encode (users_id_seq (store s) + 1)
                                               (JWT_SECRET s))
                                            (SECURE_COOKIES s)])%list,
                                ok_body true))).
  { intros Hv. rewrite (stored_user_fresh e e' u (store s) Ht Hv eq_refl).
    cbn [u_password_hash u]. rewrite (decode_encode _ _ Hd).
    rewrite (checkpw_same bcrypt_digest bcrypt_salt_ok _ _ Hlen Hl Hs).
    change (JWT_SECRET s1) with (JWT_SECRET s). rewrite Hk. reflexivity. }
  split; [exact Hyes|]. split.
  - intros Hnv.
    assert (Hnone : stored_user e' (with_user u (store s)) = None).
    { unfold stored_user, with_user. cbn [users lc_ctype].
      pose proof (email_taken_stored e' (store s) Ht') as Hold.
      unfold stored_user in Hold.
      induction (users (store s)) as [|x l IH]; cbn in *.
      - destruct (String.eqb (Text.sql_lower (lc_ctype (store s)) e)
                             (Text.sql_lower (lc_ctype (store s)) e')) eqn:E; [|reflexivity].
        apply String.eqb_eq in E. symmetry in E. contradiction.
      - destruct (String.eqb (u_email x) (Text.sql_lower (lc_ctype (store s)) e'));
          [discriminate|].
        apply IH. exact Hold. }
    rewrite Hnone. reflexivity.
  - intros Hfold Hcv. apply Hyes. apply case_variant_sql_lower; assumption.
Qed.

Lemma login_outcome w s body resp resp' j :
  snd (login bcrypt_digest jwt_encode bcrypt_salt_ok jwt_asymmetric w body resp s) = Return (resp', j) ->
  (j = ok_body false /\ resp' = resp)
  \/ (j = ok_body true /\
      exists uid, resp' = (resp ++ [session_cookie (jwt_encode uid (JWT_SECRET s))
                                      (SECURE_COOKIES s)])%list).
Proof.
  destruct (require_pg_outcome w s) as [(s1 & Hr & Hp) | (s1 & Hr & Hp)].
  - rewrite (login_after_require bcrypt_digest jwt_encode bcrypt_salt_ok jwt_asymmetric w s s1 body resp Hr).
    destruct (login_on_connection bcrypt_digest jwt_encode bcrypt_salt_ok jwt_asymmetric w s1 body resp Hp) as [_ Hj].
    intros H. specialize (Hj _ _ H).
    assert (Hcfg : config s1 = config s).
    { pose proof (require_pg_changes w s) as Hc. rewrite Hr in Hc. cbn in Hc.
      apply (invariant_of_changes (fun s' => config s' = config s)) with (s := s);
        [|exact Hc|reflexivity].
      intros a b Hab Ha. rewrite <- Ha. apply (change_keeps_config _ _ Hab). }
    unfold config in Hcfg. injection Hcfg as H1 H2 _ _. rewrite H1, H2 in Hj. exact Hj.
  - rewrite (login_after_refusal bcrypt_digest jwt_encode bcrypt_salt_ok jwt_asymmetric w s s1 _ body resp Hr).
    discriminate.
Qed.

Lemma secure_cookies_spec (v : option string) :
  String.eqb (Text.lower (default "false" v)) "true" = true
  <-> exists t, v = Some t /\ Text.case_variant "true" t.
Proof.
  rewrite String.eqb_eq. split.
  - destruct v as [t|]; [|discriminate]. unfold default, id. cbn [from_option]. intros H.
    exists t. split; [reflexivity|]. apply case_variant_lower. rewrite H. reflexivity.
  - intros (t & -> & Hv). unfold default, id. cbn [from_option].
    rewrite <- (lower_case_variant _ _ Hv). reflexivity.
Qed.

(** X14: whatever has been requested since import time, a login sets at
    most one cookie, and only with the answer ok: true; the cookie is named
    access_token, is HTTP-only with SameSite Lax, and is marked secure
    exactly when SECURE_COOKIES was set, at import time, to "true" in any
    letter case. *)
Theorem login_cookie_attributes
    (w0 w : World) (db0 : Database) (cache0 : gmap string Z)
    (reqs : list (World * Request)) (body : Credentials)
    (resp' : Response) (j : Json) :
  snd (serve w (POST_auth_login body) (serve_all reqs (startup w0 db0 cache0)))
    = Return (resp', j) ->
  (j = ok_body false /\ resp' = [])
  \/ (j = ok_body true /\
      exists c, resp' = [c]
        /\ cookie_key c = "access_token" /\ httponly c = true /\ samesite c = "Lax"
        /\ (secure c = true <->
            exists t, getenv w0 "SECURE_COOKIES" = Some t /\ Text.case_variant "true" t)).
Proof.
  open_serve. intros H. apply login_outcome in H.
  destruct H as [[-> ->] | (-> & uid & ->)]; [left; split; reflexivity|].
  right. split; [reflexivity|]. eexists. split; [reflexivity|]. cbn.
  set (s := serve_all reqs (startup w0 db0 cache0)).
  assert (Hcfg : config s = config (startup w0 db0 cache0)).
  { apply (invariant_of_changes
             (fun s' => config s' = config (startup w0 db0 cache0)))
      with (s := startup w0 db0 cache0); [|apply serve_all_changes|reflexivity].
    intros a b Hab Ha. rewrite <- Ha. apply (change_keeps_config _ _ Hab). }
  destruct (startup_fields w0 db0 cache0) as (Hc0 & _).
  rewrite Hc0 in Hcfg. unfold config in Hcfg. injection Hcfg as _ H2 _ _.
  split; [reflexivity|]. split; [reflexivity|]. split; [reflexivity|].
  rewrite H2. apply secure_cookies_spec.
Qed.

(** *** The connection string, continued *)

Lemma contains_appended (needle pre post : string) :
  Text.contains needle (pre ++ needle ++ post)%string = true.
Proof. apply contains_spec. exists pre, post. reflexivity. Qed.

(** X15: the sslmode completion of lines 21-22 is idempotent: the string
    it produces carries the parameter, so it would be left alone by a second
    pass. *)
Theorem azure_sslmode_idempotent (dsn : option string) :
  azure_sslmode (azure_sslmode dsn) = azure_sslmode dsn.
Proof.
  destruct dsn as [d|]; [|reflexivity]. unfold azure_sslmode.
  destruct (Text.nonempty d && Text.contains "postgres.database.azure.com" d
            && negb (Text.contains "sslmode=" d)) eqn:E.
  - assert (Hc : Text.contains "sslmode=" (Text.strip d ++ " sslmode=require")%string = true).
    { apply contains_spec. exists (Text.strip d ++ " ")%string, "require".
      rewrite app_assoc_string. reflexivity. }
    rewrite Hc. rewrite andb_false_r. reflexivity.
  - rewrite E. reflexivity.
Qed.

(** *** Which request does what *)

Lemma require_pg_frame w s :
  let s1 := fst (require_pg w s) in
  users (store s1) = users (store s)
  /\ users_id_seq (store s1) = users_id_seq (store s)
  /\ cache s1 = cache s /\ memory_counters s1 = memory_counters s
  /\ (forall i row, site_counters (store s) !! i = Some row ->
        site_counters (store s1) !! i = Some row)
  /\ pg_connects (trace s1)
     = (pg_connects (trace s)
        + (if negb (available (pg s)) && truthy (PG_DSN s) then 1 else 0))%nat.
Proof.
  cbn zeta. destruct (pg s) as [c|] eqn:Ep.
  - rewrite require_pg_available by (rewrite Ep; eauto). cbn.
    repeat split; auto.
  - destruct (truthy (PG_DSN s)) eqn:Ed.
    + destruct (PG_DSN s) as [d|] eqn:Edsn; [|discriminate]. cbn in Ed.
      destruct (pg_accepts w d) eqn:Ea.
      * rewrite (require_pg_accepted w s d Ep Edsn Ed Ea). cbn.
        repeat split; auto; [|unfold pg_connects; cbn; lia].
        intros i row H. apply ensure_schema_keeps. exact H.
      * rewrite (require_pg_refused w s d Ep Edsn Ed Ea). cbn.
        repeat split; auto. unfold pg_connects. cbn. lia.
    + rewrite (require_pg_unset w s Ep Ed). cbn. repeat split; auto.
Qed.

Lemma register_connected_frame w s body :
  is_Some (pg s) ->
  let s' := fst (register bcrypt_digest bcrypt_salt_ok w body s) in
  cache s' = cache s /\ memory_counters s' = memory_counters s
  /\ site_counters (store s') = site_counters (store s)
  /\ trace s' = trace s
  /\ (exists more, users (store s') = (users (store s) ++ more)%list
                   /\ (length more <= 1)%nat).
Proof.
  intros Hp. cbn zeta. open_register. run.
  rewrite (require_pg_available w s Hp). cbn.
  assert (Hsame : exists more, users (store s) = (users (store s) ++ more)%list
                               /\ (length more <= 1)%nat).
  { exists []. rewrite app_nil_r. split; [reflexivity|cbn; lia]. }
  destruct (hashpw _ _ _ _) as [hb|x]; cbn; [|repeat split; auto].
  destruct (Utf8.decode _) as [h|]; cbn; [|repeat split; auto].
  unfold pg_statement. destruct (pg_fault w); cbn; [repeat split; auto|].
  unfold insert_user. destruct (existsb _ _); cbn; repeat split; auto.
  eexists. split; [reflexivity|cbn; lia].
Qed.

Lemma visit_trace w s : trace (fst (visit w s)) = trace s.
Proof.
  unfold visit, redis_incr, pg_statement. run.
  destruct (r s); destruct (redis_fault w); cbn;
    destruct (pg s); destruct (pg_fault w); reflexivity.
Qed.

(** X16: a request dials the relational store at most once, and only an
    auth request does: exactly when the connection flag is unset and a
    connection string was configured.  Health, time and counter requests
    never dial and leave the flag as it is, so they never bring the store
    back. *)
Theorem only_auth_requests_dial (w : World) (req : Request) (s : State) :
  let s' := fst (serve w req s) in
  pg_connects (trace s')
  = (pg_connects (trace s)
     + (if is_auth req && negb (available (pg s)) && truthy (PG_DSN s) then 1 else 0))%nat
  /\ (is_auth req = false -> pg s' = pg s /\ trace s' = trace s).
Proof.
  cbn zeta. destruct req as [| |body|body| |]; open_serve; rewrite ?fst_bind; cbn [is_auth andb].
  - unfold healthz. run. split; [lia|auto].
  - pose proof (time_now_state w s) as H.
    destruct (time_now w s) as [s1 [j|e]]; cbn in *; subst s1; (split; [lia|auto]).
  - split; [|discriminate].
    assert (Hfst : forall x : State * Result Json,
               match x with (s', Return a) => fst (mret (M := M) ([] : Response, a) s')
                          | (s', Raise _) => s' end = fst x).
    { intros [s1 [j|e]]; reflexivity. }
    rewrite Hfst. clear Hfst.
    destruct (require_pg_frame w s) as (_ & _ & _ & _ & _ & Hdial).
    destruct (require_pg_outcome w s) as [(s1 & Hr & Hp) | (s1 & Hr & Hp)].
    + rewrite (register_after_require bcrypt_digest bcrypt_salt_ok w s s1 body Hr).
      destruct (register_connected_frame w s1 body Hp) as (_ & _ & _ & Ht & _).
      rewrite Ht. rewrite Hr in Hdial. exact Hdial.
    + rewrite (register_after_refusal bcrypt_digest bcrypt_salt_ok w s s1 _ body Hr).
      rewrite Hr in Hdial. exact Hdial.
  - split; [|discriminate].
    destruct (require_pg_frame w s) as (_ & _ & _ & _ & _ & Hdial).
    destruct (require_pg_outcome w s) as [(s1 & Hr & Hp) | (s1 & Hr & Hp)].
    + rewrite (login_after_require bcrypt_digest jwt_encode bcrypt_salt_ok jwt_asymmetric w s s1 body [] Hr).
      destruct (login_on_connection bcrypt_digest jwt_encode bcrypt_salt_ok jwt_asymmetric w s1 body [] Hp) as [-> _].
      rewrite Hr in Hdial. exact Hdial.
    + rewrite (login_after_refusal bcrypt_digest jwt_encode bcrypt_salt_ok jwt_asymmetric w s s1 _ body [] Hr).
      rewrite Hr in Hdial. exact Hdial.
  - pose proof (visit_trace w s) as Ht. destruct (visit_state w s) as (Hp & _).
    destruct (visit w s) as [s1 [j|e]]; cbn in *; rewrite Ht; (split; [lia|auto]).
  - pose proof (total_state w s) as H.
    destruct (total w s) as [s1 [j|e]]; cbn in *; subst s1; (split; [lia|auto]).
Qed.

(** X17: each kind of data has one writer.  Only a visit changes the cache,
    the in-process counter or an existing counter row; only a registration
    changes the users table or the id sequence, and it appends at most one
    row. *)
Theorem requests_touch_their_own_data (w : World) (req : Request) (s : State) :
  let s' := fst (serve w req s) in
  (req <> POST_metrics_visit ->
     cache s' = cache s /\ memory_counters s' = memory_counters s
     /\ (forall i row, site_counters (store s) !! i = Some row ->
           site_counters (store s') !! i = Some row))
  /\ ((forall body, req <> POST_auth_register body) ->
     users (store s') = users (store s)
     /\ users_id_seq (store s') = users_id_seq (store s))
  /\ (exists more, users (store s') = (users (store s) ++ more)%list
                   /\ (length more <= 1)%nat).
Proof.
  cbn zeta.
  assert (Hnil : forall l : list UserRow,
             exists more, l = (l ++ more)%list /\ (length more <= 1)%nat).
  { intros l. exists []. rewrite app_nil_r. split; [reflexivity|cbn; lia]. }
  destruct req as [| |body|body| |]; open_serve; rewrite ?fst_bind.
  - unfold healthz. run. repeat split; auto.
  - pose proof (time_now_state w s) as H.
    destruct (time_now w s) as [s1 [j|e]]; cbn in *; subst s1; repeat split; auto.
  - assert (Hfst : forall x : State * Result Json,
               match x with (s', Return a) => fst (mret (M := M) ([] : Response, a) s')
                          | (s', Raise _) => s' end = fst x).
    { intros [s1 [j|e]]; reflexivity. }
    rewrite Hfst. clear Hfst.
    destruct (require_pg_frame w s) as (Hu & Hq & Hk & Hm & Hrows & _).
    destruct (require_pg_outcome w s) as [(s1 & Hr & Hp) | (s1 & Hr & Hp)].
    + rewrite (register_after_require bcrypt_digest bcrypt_salt_ok w s s1 body Hr).
      rewrite Hr in Hu, Hq, Hk, Hm, Hrows. cbn in Hu, Hq, Hk, Hm, Hrows.
      destruct (register_connected_frame w s1 body Hp) as (Hk' & Hm' & Hs' & _ & Hmore).
      split; [|split].
      * intros _. rewrite Hk', Hm', Hs'. repeat split; auto; congruence.
      * intros Hno. exfalso. exact (Hno body eq_refl).
      * rewrite <- Hu. exact Hmore.
    + rewrite (register_after_refusal bcrypt_digest bcrypt_salt_ok w s s1 _ body Hr).
      rewrite Hr in Hu, Hq, Hk, Hm, Hrows. cbn in Hu, Hq, Hk, Hm, Hrows. cbn.
      split; [|split].
      * intros _. repeat split; auto.
      * intros Hno. exfalso. exact (Hno body eq_refl).
      * rewrite Hu. apply Hnil.
  - destruct (require_pg_frame w s) as (Hu & Hq & Hk & Hm & Hrows & _).
    assert (Hst : fst (login bcrypt_digest jwt_encode bcrypt_salt_ok jwt_asymmetric w body [] s) = fst (require_pg w s)).
    { destruct (require_pg_outcome w s) as [(s1 & Hr & Hp) | (s1 & Hr & Hp)].
      - rewrite (login_after_require bcrypt_digest jwt_encode bcrypt_salt_ok jwt_asymmetric w s s1 body [] Hr), Hr.
        apply (login_on_connection bcrypt_digest jwt_encode bcrypt_salt_ok jwt_asymmetric w s1 body [] Hp).
      - rewrite (login_after_refusal bcrypt_digest jwt_encode bcrypt_salt_ok jwt_asymmetric w s s1 _ body [] Hr), Hr.
        reflexivity. }
    rewrite Hst. repeat split; auto. rewrite Hu. apply Hnil.
  - destruct (visit_state w s) as (_ & _ & _ & _ & Hst).
    assert (Hfst : forall x : State * Result Json,
               match x with (s', Return a) => fst (mret (M := M) ([] : Response, a) s')
                          | (s', Raise _) => s' end = fst x).
    { intros [s1 [j|e]]; reflexivity. }
    rewrite Hfst. clear Hfst.
    assert (Hu : users (store (fst (visit w s))) = users (store s)
                 /\ users_id_seq (store (fst (visit w s))) = users_id_seq (store s)).
    { rewrite Hst. destruct (_ && _ && _); split; reflexivity. }
    split; [intros Hne; exfalso; apply Hne; reflexivity|].
    split; [intros _; exact Hu|]. rewrite (proj1 Hu). apply Hnil.
  - pose proof (total_state w s) as H.
    destruct (total w s) as [s1 [j|e]]; cbn in *; subst s1; repeat split; auto.
Qed.

(** *** The time endpoint, continued *)

Lemma now_iso_outcome w k tz :
  exists res : Result string,
    (forall s, now_iso w k tz s = (s, res))
    /\ (zoneinfo w tz = None -> res = Raise ZoneInfoNotFoundError)
    /\ (forall e, res = Raise e -> e = ZoneInfoNotFoundError \/ e = ValueError).
Proof.
  unfold now_iso. destruct (zoneinfo w tz) as [off|].
  - destruct (Time.localize _ _) as [d|].
    + exists (Return (Time.isoformat d)). repeat split; try discriminate.
    + exists (Raise ValueError). repeat split; try discriminate.
      intros e [= <-]. auto.
  - exists (Raise ZoneInfoNotFoundError). repeat split. intros e [= <-]. auto.
Qed.


(** X19: no request ever clears the store connection flag: once the
    connection is open the process keeps treating the store as available,
    whatever later statements on it do. *)
Theorem run_never_drops_connection (reqs : list (World * Request)) (s : State) :
  is_Some (pg s) -> pg (serve_all reqs s) = pg s.
Proof.
  intros Hp.
  apply (invariant_of_changes (fun s' => pg s' = pg s)) with (s := s);
    [|apply serve_all_changes|reflexivity].
  intros a b Hab Ha. rewrite <- Ha.
  destruct Hab; try reflexivity;
    match goal with
    | H : pg ?x = None |- _ => rewrite Ha in H; rewrite H in Hp; destruct Hp; discriminate
    end.
Qed.

End Runs.

(* ===================================================================== *)
(** ** Runs at sample inputs *)
(* ===================================================================== *)

Lemma run_never_reconnects_redis_witness :
  let w := Sample.world ∅ true false false in
  let s := Sample.state (Some Sample.conn) None None Sample.db7 {[ "visits:total" := 12 ]} in
  let reqs := [(w, POST_metrics_visit); (w, GET_metrics_total);
               (w, POST_auth_login {| email := "a@x.com"; password := "secret" |})] in
  r (serve_all Sample.digest Sample.token Sample.salt_ok Sample.asymmetric reqs s) = None
  /\ cache (serve_all Sample.digest Sample.token Sample.salt_ok Sample.asymmetric reqs s) = {[ "visits:total" := 12 ]}.
Proof.
  cbn zeta.
  destruct (run_never_reconnects_redis Sample.digest Sample.token Sample.salt_ok Sample.asymmetric
              [(Sample.world ∅ true false false, POST_metrics_visit);
               (Sample.world ∅ true false false, GET_metrics_total);
               (Sample.world ∅ true false false,
                POST_auth_login {| email := "a@x.com"; password := "secret" |})]
              (Sample.state (Some Sample.conn) None None Sample.db7
                 {[ "visits:total" := 12 ]})) as [H1 H2].
  split; [exact H1|exact (H2 eq_refl)].
Defined.

Lemma sample_db1_normalised : emails_normalised Sample.db1.
Proof.
  split; [repeat constructor|apply NoDup_singleton].
Defined.

Lemma sample_db1_ids : ids_fresh Sample.db1.
Proof.
  split; [repeat constructor; cbn; lia|apply NoDup_singleton].
Defined.

Lemma run_keeps_emails_normalised_witness :
  let w := Sample.world ∅ true false false in
  let s := Sample.state (Some Sample.conn) None None Sample.db1 ∅ in
  let reqs := [(w, POST_auth_register {| email := "B@x.com"; password := "pw" |});
               (w, POST_auth_register {| email := "A@X.com"; password := "pw" |})] in
  emails_normalised (store s)
  /\ emails_normalised (store (serve_all Sample.digest Sample.token Sample.salt_ok Sample.asymmetric reqs s)).
Proof.
  cbn zeta. split; [exact sample_db1_normalised|].
  apply run_keeps_emails_normalised. exact sample_db1_normalised.
Defined.

Lemma run_keeps_ids_fresh_witness :
  let w := Sample.world ∅ true false false in
  let s := Sample.state (Some Sample.conn) None None Sample.db1 ∅ in
  let reqs := [(w, POST_auth_register {| email := "B@x.com"; password := "pw" |});
               (w, POST_auth_register {| email := "A@X.com"; password := "pw" |})] in
  ids_fresh (store s)
  /\ ids_fresh (store (serve_all Sample.digest Sample.token Sample.salt_ok Sample.asymmetric reqs s)).
Proof.
  cbn zeta. split; [exact sample_db1_ids|].
  apply run_keeps_ids_fresh. exact sample_db1_ids.
Defined.

Lemma startup_keeps_data_witness :
  let w := Sample.world {[ "PG_DSN" := "host=db dbname=appdb" ]} true false false in
  let s := startup w Sample.db1 ∅ in
  available (pg s) = true /\ available (r s) = false
  /\ users (store s) = users Sample.db1
  /\ site_counters (store s) !! 1 = Some {| c_total := 7; c_updated_at := 1793000000 |}.
Proof.
  cbn zeta.
  destruct (startup_keeps_data
              (Sample.world {[ "PG_DSN" := "host=db dbname=appdb" ]} true false false)
              Sample.db1 ∅) as (Hp & Hr & _ & _ & Hu & _ & Hrows).
  split; [exact Hp|]. split; [exact Hr|]. split; [exact Hu|].
  apply Hrows. reflexivity.
Defined.

Lemma fallback_counts_visits_witness :
  let w := Sample.world ∅ true false false in
  let s := Sample.state None None None Sample.empty_db ∅ in
  let s' := serve_all Sample.digest Sample.token Sample.salt_ok Sample.asymmetric (visits [w; w; w; w]) s in
  memory_counters s' = 7 /\ total w s' = (s', Return (total_body 7)).
Proof.
  cbn zeta.
  exact (fallback_counts_visits Sample.digest Sample.token Sample.salt_ok Sample.asymmetric
           [Sample.world ∅ true false false; Sample.world ∅ true false false;
            Sample.world ∅ true false false; Sample.world ∅ true false false]
           (Sample.world ∅ true false false)
           (Sample.state None None None Sample.empty_db ∅) eq_refl eq_refl).
Defined.

Lemma cache_counts_visits_witness :
  let w := Sample.world ∅ true false false in
  let wf := Sample.world ∅ true true false in
  let s := Sample.state (Some Sample.conn) (Some Sample.client) None Sample.db7 ∅ in
  let s' := serve_all Sample.digest Sample.token Sample.salt_ok Sample.asymmetric (visits [w; wf; w]) s in
  cache s' !! "visits:total" = Some 3
  /\ memory_counters s' = 3
  /\ total wf s' = (s', Return (total_body 3)).
Proof.
  cbn zeta.
  destruct (cache_counts_visits Sample.digest Sample.token Sample.salt_ok Sample.asymmetric
              [Sample.world ∅ true false false; Sample.world ∅ true true false;
               Sample.world ∅ true false false]
              (Sample.world ∅ true true false)
              (Sample.state (Some Sample.conn) (Some Sample.client) None Sample.db7 ∅))
    as (H1 & H2 & H3).
  - cbn. eauto.
  - repeat constructor.
  - discriminate.
  - reflexivity.
  - split; [exact H1|]. split; [exact H2|exact H3].
Defined.

Lemma store_counts_visits_witness :
  let w := Sample.world ∅ true false false in
  let s := Sample.state (Some Sample.conn) None None Sample.db7 ∅ in
  let s' := serve_all Sample.digest Sample.token Sample.salt_ok Sample.asymmetric (visits [w; w]) s in
  c_total <$> site_counters (store s') !! 1 = Some 9
  /\ total w s' = (s', Return (total_body 9)).
Proof.
  cbn zeta.
  destruct (store_counts_visits Sample.digest Sample.token Sample.salt_ok Sample.asymmetric
              [Sample.world ∅ true false false; Sample.world ∅ true false false]
              (Sample.world ∅ true false false)
              (Sample.state (Some Sample.conn) None None Sample.db7 ∅)
              {| c_total := 7; c_updated_at := 1793000000 |})
    as (H1 & _ & H3).
  - cbn. eauto.
  - reflexivity.
  - repeat constructor; intros [? ?]; discriminate.
  - split; [exact H1|exact (H3 eq_refl eq_refl)].
Defined.

Lemma failed_visit_is_counted_witness :
  let w := Sample.world ∅ true true false in
  let s := Sample.state (Some Sample.conn) None None Sample.db7 ∅ in
  snd (visit w s) = Raise DatabaseError
  /\ memory_counters (fst (visit w s)) = 4
  /\ store (fst (visit w s)) = Sample.db7.
Proof.
  cbn zeta.
  destruct (failed_visit_is_counted
              (Sample.world ∅ true true false)
              (Sample.state (Some Sample.conn) None None Sample.db7 ∅))
    as (H1 & H2 & _ & H4).
  - cbn. eauto.
  - reflexivity.
  - intros [? ?]; discriminate.
  - split; [exact H1|]. split; [exact (proj1 (H4 eq_refl))|exact H2].
Defined.

Lemma duplicate_registration_faults_witness :
  let w := Sample.world ∅ true false false in
  let s := Sample.state (Some Sample.conn) None None Sample.empty_db ∅ in
  let s1 := fst (register Sample.digest Sample.salt_ok w {| email := "A@x.com"; password := "secret" |} s) in
  let out := register Sample.digest Sample.salt_ok w {| email := "a@X.com"; password := "other" |} s1 in
  (snd out = Raise UniqueViolation
   /\ users (store (fst out))
      = [{| u_id := 1; u_email := "a@x.com";
            u_password_hash := "$2b$12$abcdefghijklmnopqrstuvterces";
            u_created_at := 1793730123 |}]
   /\ users_id_seq (store (fst out)) = 2)
  /\ register Sample.digest Sample.salt_ok w
       {| email := "a@X.com"; password := Sample.long_password |} s1
     = (s1, Raise ValueError).
Proof.
  cbn zeta. split.
  - destruct (duplicate_registration_faults Sample.digest Sample.salt_ok
                (Sample.world ∅ true false false) (Sample.world ∅ true false false)
                (Sample.state (Some Sample.conn) None None Sample.empty_db ∅)
                "A@x.com" "a@X.com" "secret" "other"
                "$2b$12$abcdefghijklmnopqrstuvterces"
                (Utf8.encode "$2b$12$abcdefghijklmnopqrstuvterces")
                ltac:(cbn; eauto) eq_refl eq_refl eq_refl eq_refl eq_refl eq_refl)
      as (H & _).
    destruct (H (Utf8.encode "$2b$12$abcdefghijklmnopqrstuvrehto")
                "$2b$12$abcdefghijklmnopqrstuvrehto" eq_refl eq_refl)
      as (H1 & H2 & H3 & _).
    split; [exact H1|]. split; [exact H2|exact H3].
  - destruct (duplicate_registration_faults Sample.digest Sample.salt_ok
                (Sample.world ∅ true false false) (Sample.world ∅ true false false)
                (Sample.state (Some Sample.conn) None None Sample.empty_db ∅)
                "A@x.com" "a@X.com" "secret" Sample.long_password
                "$2b$12$abcdefghijklmnopqrstuvterces"
                (Utf8.encode "$2b$12$abcdefghijklmnopqrstuvterces")
                ltac:(cbn; eauto) eq_refl eq_refl eq_refl eq_refl eq_refl eq_refl)
      as (_ & H).
    apply H. vm_compute. lia.
Defined.

Lemma login_matches_folded_emails_only_witness :
  let w := Sample.world ∅ true false false in
  let s := Sample.state (Some Sample.conn) None None Sample.empty_db ∅ in
  let register := register Sample.digest Sample.salt_ok in
  let login := login Sample.digest Sample.token Sample.salt_ok Sample.asymmetric in
  let s1 := fst (register w {| email := "A@x.com"; password := "secret" |} s) in
  let s2 := fst (register w {| email := Sample.email_AE; password := "secret" |} s) in
  login w {| email := "a@X.com"; password := "secret" |} [] s1
    = (s1, Return ([session_cookie "change_me" false], ok_body true))
  /\ login w {| email := "b@x.com"; password := "secret" |} [] s1
    = (s1, Return ([], ok_body false))
  /\ login w {| email := Sample.email_ae; password := "secret" |} [] s2
    = (s2, Return ([session_cookie "change_me" false], ok_body true)).
Proof.
  cbn zeta. split; [|split].
  - apply (proj1 (login_matches_folded_emails_only
                    Sample.digest Sample.token Sample.salt_ok Sample.asymmetric
                    (Sample.world ∅ true false false) (Sample.world ∅ true false false)
                    (Sample.state (Some Sample.conn) None None Sample.empty_db ∅)
                    "A@x.com" "a@X.com" "secret"
                    "$2b$12$abcdefghijklmnopqrstuvterces" []
                    ltac:(cbn; eauto) eq_refl eq_refl ltac:(vm_compute; lia)
                    eq_refl eq_refl eq_refl eq_refl eq_refl eq_refl)).
    reflexivity.
  - apply (proj1 (proj2 (login_matches_folded_emails_only
                    Sample.digest Sample.token Sample.salt_ok Sample.asymmetric
                    (Sample.world ∅ true false false) (Sample.world ∅ true false false)
                    (Sample.state (Some Sample.conn) None None Sample.empty_db ∅)
                    "A@x.com" "b@x.com" "secret"
                    "$2b$12$abcdefghijklmnopqrstuvterces" []
                    ltac:(cbn; eauto) eq_refl eq_refl ltac:(vm_compute; lia)
                    eq_refl eq_refl eq_refl eq_refl eq_refl eq_refl))).
    cbn. discriminate.
  - apply (proj1 (login_matches_folded_emails_only
                    Sample.digest Sample.token Sample.salt_ok Sample.asymmetric
                    (Sample.world ∅ true false false) (Sample.world ∅ true false false)
                    (Sample.state (Some Sample.conn) None None Sample.empty_db ∅)
                    Sample.email_AE Sample.email_ae "secret"
                    "$2b$12$abcdefghijklmnopqrstuvterces" []
                    ltac:(cbn; eauto) eq_refl eq_refl ltac:(vm_compute; lia)
                    eq_refl eq_refl eq_refl eq_refl eq_refl eq_refl)).
    reflexivity.
Defined.

Lemma login_cookie_attributes_witness :
  let w0 := Sample.world {[ "PG_DSN" := "host=db dbname=appdb"; "SECURE_COOKIES" := "True" ]}
              true false false in
  let w := Sample.world ∅ true false false in
  let reqs := [(w, POST_metrics_visit)] in
  snd (serve Sample.digest Sample.token Sample.salt_ok Sample.asymmetric w
         (POST_auth_login {| email := "A@x.com"; password := "secret" |})
         (serve_all Sample.digest Sample.token Sample.salt_ok Sample.asymmetric reqs (startup w0 Sample.db1 ∅)))
    = Return ([session_cookie "change_me" true], ok_body true)
  /\ exists t, getenv w0 "SECURE_COOKIES" = Some t /\ Text.case_variant "true" t.
Proof.
  cbn zeta.
  assert (Hrun :
    snd (serve Sample.digest Sample.token Sample.salt_ok Sample.asymmetric (Sample.world ∅ true false false)
           (POST_auth_login {| email := "A@x.com"; password := "secret" |})
           (serve_all Sample.digest Sample.token Sample.salt_ok Sample.asymmetric
              [(Sample.world ∅ true false false, POST_metrics_visit)]
              (startup (Sample.world {[ "PG_DSN" := "host=db dbname=appdb";
                                        "SECURE_COOKIES" := "True" ]} true false false)
                 Sample.db1 ∅)))
    = Return ([session_cookie "change_me" true], ok_body true)).
  { vm_compute. reflexivity. }
  split; [exact Hrun|].
  destruct (login_cookie_attributes Sample.digest Sample.token Sample.salt_ok Sample.asymmetric _ _ _ _ _ _ _ _ Hrun)
    as [[H _] | (_ & c & Hc & _ & _ & _ & Hs)]; [discriminate H|].
  injection Hc as <-. apply Hs. reflexivity.
Defined.

Lemma only_auth_requests_dial_witness :
  let w := Sample.world ∅ true false false in
  let s := Sample.state None None (Some "host=db dbname=appdb") Sample.empty_db ∅ in
  pg_connects (trace (fst (serve Sample.digest Sample.token Sample.salt_ok Sample.asymmetric w
                             (POST_auth_login {| email := "a@x.com"; password := "secret" |}) s)))
    = 1%nat
  /\ pg (fst (serve Sample.digest Sample.token Sample.salt_ok Sample.asymmetric w POST_metrics_visit s)) = None.
Proof.
  cbn zeta. split.
  - exact (proj1 (only_auth_requests_dial Sample.digest Sample.token Sample.salt_ok Sample.asymmetric
                    (Sample.world ∅ true false false)
                    (POST_auth_login {| email := "a@x.com"; password := "secret" |})
                    (Sample.state None None (Some "host=db dbname=appdb") Sample.empty_db ∅))).
  - exact (proj1 (proj2 (only_auth_requests_dial Sample.digest Sample.token Sample.salt_ok Sample.asymmetric
                           (Sample.world ∅ true false false) POST_metrics_visit
                           (Sample.state None None (Some "host=db dbname=appdb")
                              Sample.empty_db ∅)) eq_refl)).
Defined.

Lemma requests_touch_their_own_data_witness :
  let w := Sample.world ∅ true false false in
  let s := Sample.state None (Some Sample.client) (Some "host=db dbname=appdb") Sample.db1
             {[ "visits:total" := 12 ]} in
  cache (fst (serve Sample.digest Sample.token Sample.salt_ok Sample.asymmetric w
                (POST_auth_register {| email := "b@x.com"; password := "pw" |}) s))
    = {[ "visits:total" := 12 ]}
  /\ users (store (fst (serve Sample.digest Sample.token Sample.salt_ok Sample.asymmetric w POST_metrics_visit s)))
    = users Sample.db1.
Proof.
  cbn zeta. split.
  - destruct (requests_touch_their_own_data Sample.digest Sample.token Sample.salt_ok Sample.asymmetric
                (Sample.world ∅ true false false)
                (POST_auth_register {| email := "b@x.com"; password := "pw" |})
                (Sample.state None (Some Sample.client) (Some "host=db dbname=appdb")
                   Sample.db1 {[ "visits:total" := 12 ]})) as (H & _).
    destruct H as (H & _); [discriminate|exact H].
  - destruct (requests_touch_their_own_data Sample.digest Sample.token Sample.salt_ok Sample.asymmetric
                (Sample.world ∅ true false false) POST_metrics_visit
                (Sample.state None (Some Sample.client) (Some "host=db dbname=appdb")
                   Sample.db1 {[ "visits:total" := 12 ]})) as (_ & H & _).
    destruct H as (H & _); [discriminate|exact H].
Defined.


Lemma run_never_drops_connection_witness :
  let wf := Sample.world ∅ false true true in
  let s := Sample.state (Some Sample.conn) None None Sample.db7 ∅ in
  let reqs := [(wf, POST_metrics_visit);
               (wf, POST_auth_login {| email := "a@x.com"; password := "secret" |});
               (wf, GET_metrics_total)] in
  pg (serve_all Sample.digest Sample.token Sample.salt_ok Sample.asymmetric reqs s) = Some Sample.conn.
Proof.
  cbn zeta.
  apply (run_never_drops_connection Sample.digest Sample.token Sample.salt_ok Sample.asymmetric
           [(Sample.world ∅ false true true, POST_metrics_visit);
            (Sample.world ∅ false true true,
             POST_auth_login {| email := "a@x.com"; password := "secret" |});
            (Sample.world ∅ false true true, GET_metrics_total)]
           (Sample.state (Some Sample.conn) None None Sample.db7 ∅)).
  cbn. eauto.
Defined.
